(** * Rule-based categorisation and staging-to-fact load engine

    A shallow embedding of the rule client ([pg_rules_client.py]), the
    learning service ([learning_service.py]) and the staging loader
    ([routers/etl.py], [load_staging_for_user]).

    Conventions of the embedding:
    - Python [str] values are [string]s; the helpers of [PyStr] follow the
      Python methods on ASCII text.
    - UUIDs are carried as their text; callers pass well-formed UUID text.
    - Python floats are exact rationals ([Q]).
    - The standard-library calls [re.search], [difflib.SequenceMatcher.ratio]
      and [hashlib.sha1] are section variables: the theorems hold for every
      behaviour of these calls.  So are the SQL function [fn_txn_fact_fp],
      the merchant extractor and normaliser, and the keyword table for
      debits.
    - The patterns of the rule table are within the limits of the [re]
      engine: [re.search] returns, or raises [re.error].  The module
      [Raising] holds the matcher without this convention, for a search
      that may raise any exception.
    - The store's failures are inputs: the outcome of reading
      [merchant_rules], the exception of the rate-limit query, and the
      exception a staging row's insert raises ([row_fault], a function of
      the row). *)

From Stdlib Require Import ZArith QArith String Ascii List Lia Bool.
From stdpp Require Import base option list strings gmap sorting.

Local Open Scope string_scope.

(** ** Python string methods (ASCII) *)

Module PyStr.

Definition code (c : ascii) : nat := nat_of_ascii c.

Definition between (lo hi n : nat) : bool := (lo <=? n)%nat && (n <=? hi)%nat.

(** [str.isspace] on one ASCII character: TAB..CR, FS..US and SPACE. *)
Definition is_space (c : ascii) : bool :=
  between 9 13 (code c) || between 28 32 (code c).

Definition is_upper (c : ascii) : bool := between 65 90 (code c).
Definition is_lower (c : ascii) : bool := between 97 122 (code c).
Definition is_digit (c : ascii) : bool := between 48 57 (code c).
Definition is_alnum (c : ascii) : bool := is_upper c || is_lower c || is_digit c.

Definition upper_char (c : ascii) : ascii :=
  if is_lower c then ascii_of_nat (code c - 32) else c.
Definition lower_char (c : ascii) : ascii :=
  if is_upper c then ascii_of_nat (code c + 32) else c.

Fixpoint map_chars (f : ascii -> ascii) (s : string) : string :=
  match s with
  | EmptyString => EmptyString
  | String c s' => String (f c) (map_chars f s')
  end.

Definition upper : string -> string := map_chars upper_char.
Definition lower : string -> string := map_chars lower_char.

(** Truthiness of a [str]: non-empty. *)
Definition truthy (s : string) : bool := negb (String.eqb s "").

(** Truthiness of an [Optional[str]]: neither [None] nor empty. *)
Definition otruthy (o : option string) : bool :=
  match o with Some s => truthy s | None => false end.

Fixpoint lstrip (s : string) : string :=
  match s with
  | String c s' => if is_space c then lstrip s' else s
  | EmptyString => EmptyString
  end.

Fixpoint rstrip (s : string) : string :=
  match s with
  | EmptyString => EmptyString
  | String c s' =>
      let t := rstrip s' in
      if is_space c && negb (truthy t) then EmptyString else String c t
  end.

Definition strip (s : string) : string := lstrip (rstrip s).

(** [s.split()]: maximal runs of non-space characters. *)
Fixpoint split_from (cur : string) (s : string) : list string :=
  match s with
  | EmptyString => if truthy cur then [cur] else []
  | String c s' =>
      if is_space c
      then (if truthy cur then cur :: split_from "" s' else split_from "" s')
      else split_from (cur ++ String c "") s'
  end.

Definition split (s : string) : list string := split_from "" s.

(** [sep.join(parts)]. *)
Fixpoint join (sep : string) (parts : list string) : string :=
  match parts with
  | [] => ""
  | [p] => p
  | p :: rest => p ++ sep ++ join sep rest
  end.

(** [needle in hay]. *)
Fixpoint contains (needle hay : string) : bool :=
  String.prefix needle hay ||
  match hay with
  | EmptyString => false
  | String _ hay' => contains needle hay'
  end.

(** [any(k in text for k in keys)]. *)
Definition any_in (keys : list string) (text : string) : bool :=
  existsb (fun k => contains k text) keys.

(** [re.sub(ab, '', s)] for a two-character literal [ab]: occurrences are
    removed left to right, without overlap. *)
Fixpoint remove_pair (a b : ascii) (s : string) : string :=
  match s with
  | String c (String d s' as t) =>
      if Ascii.eqb c a && Ascii.eqb d b
      then remove_pair a b s'
      else String c (remove_pair a b t)
  | _ => s
  end.

(** [re.sub('[..]', '', s)] for a character class. *)
Fixpoint remove_chars (drop : ascii -> bool) (s : string) : string :=
  match s with
  | EmptyString => EmptyString
  | String c s' =>
      if drop c then remove_chars drop s' else String c (remove_chars drop s')
  end.

(** [re.sub(r'[^A-Za-z0-9]+', ' ', s)]: every maximal run of characters
    outside the class becomes one space. *)
Fixpoint sub_non_alnum (in_run : bool) (s : string) : string :=
  match s with
  | EmptyString => EmptyString
  | String c s' =>
      if is_alnum c then String c (sub_non_alnum false s')
      else if in_run then sub_non_alnum true s'
      else String " " (sub_non_alnum true s')
  end.

(** [s[:n]]. *)
Definition take (n : nat) (s : string) : string := String.substring 0 n s.

End PyStr.

(** ** Exceptions and results *)

Inductive exc_class : Type :=
  | IntegrityError
  | OperationalError
  | DataError
  | OverflowError
  | ValueError.

Global Instance exc_class_eq_dec : EqDecision exc_class.
Proof. solve_decision. Defined.

(** A raised exception: its class and [str(e)]. *)
Record exn : Type := Exn { exc : exc_class; message : string }.

Inductive result (A : Type) : Type :=
  | Ok (a : A)
  | Raise (e : exn).
Arguments Ok {A} a.
Arguments Raise {A} e.

(** ** Rules ([spendsense.merchant_rules]) *)

Inductive applies_to_t : Type := Merchant | Description.
Inductive source_t : Type := Learned | Seed | Ops.

Global Instance applies_to_eq_dec : EqDecision applies_to_t.
Proof. solve_decision. Defined.
Global Instance source_eq_dec : EqDecision source_t.
Proof. solve_decision. Defined.

(** A row of [merchant_rules]; [tenant_id = None] is a global rule.
    [created_at] is a timestamp in seconds. *)
Record MerchantRule : Type := {
  rule_id : string;
  priority : Z;
  applies_to : applies_to_t;
  pattern_regex : string;
  pattern_hash : option string;
  category_code : option string;
  subcategory_code : option string;
  created_by : option string;
  tenant_id : option string;
  source : source_t;
  active : bool;
  created_at : Z
}.

(** The dictionary [get_merchant_rules] builds from a row: the row's columns
    (read through [rule]) and the keys the matcher adds. *)
Record RuleDict : Type := {
  rule : MerchantRule;
  matched_text : option string;
  fuzzy_score : option Q
}.

Definition confidence (d : RuleDict) : Q :=
  if decide (source (rule d) = Learned) then 95 # 100 else 85 # 100.

Definition to_dict (r : MerchantRule) : RuleDict :=
  {| rule := r; matched_text := None; fuzzy_score := None |}.

(** [ORDER BY priority ASC, created_at DESC]. *)
Definition rule_before (r1 r2 : MerchantRule) : Prop :=
  (priority r1 < priority r2)%Z \/
  (priority r1 = priority r2 /\ (created_at r2 <= created_at r1)%Z).

Global Instance rule_before_dec : RelDecision rule_before.
Proof. intros r1 r2. unfold rule_before. apply _. Defined.

Global Instance rule_before_total : Total rule_before.
Proof. intros r1 r2. unfold rule_before. lia. Qed.

Global Instance rule_before_trans : Transitive rule_before.
Proof. intros r1 r2 r3. unfold rule_before. lia. Qed.

(** The [WHERE] clause of [get_merchant_rules]: active rules that are global
    or belong to the tenant. *)
Definition in_scope (tenant : option string) (r : MerchantRule) : bool :=
  active r &&
  (if PyStr.otruthy tenant
   then bool_decide (tenant_id r = tenant) || bool_decide (tenant_id r = None)
   else bool_decide (tenant_id r = None)).

Definition query_rules (tenant : option string) (table : list MerchantRule)
  : list RuleDict :=
  to_dict <$> merge_sort rule_before (filter (fun r => in_scope tenant r = true) table).

(** ** The TTL cache ([_cache]) *)

Record cache_entry : Type := {
  data : list RuleDict;
  expires_at : Z;
  cached_at : Z
}.

Definition _cache_ttl_seconds : Z := 600.

Definition _is_cache_valid (now : Z) (c : gmap string cache_entry)
    (cache_key : string) : bool :=
  match c !! cache_key with
  | None => false
  | Some e => (now <? expires_at e)%Z
  end.

Definition _get_from_cache (now : Z) (c : gmap string cache_entry)
    (cache_key : string) : option (list RuleDict) :=
  if _is_cache_valid now c cache_key
  then data <$> (c !! cache_key)
  else None.

Definition _set_cache (now : Z) (c : gmap string cache_entry)
    (cache_key : string) (d : list RuleDict) : gmap string cache_entry :=
  <[cache_key := {| data := d;
                    expires_at := (now + _cache_ttl_seconds)%Z;
                    cached_at := now |}]> c.

Definition clear_cache (c : gmap string cache_entry)
    (cache_key : option string) : gmap string cache_entry :=
  match cache_key with
  | Some k => if PyStr.truthy k then delete k c else ∅
  | None => ∅
  end.

Definition merchant_rules_key (tenant : option string) : string :=
  "merchant_rules:" ++
  (match tenant with
   | Some t => if PyStr.truthy t then t else "global"
   | None => "global"
   end).

(** [PGRulesClient.get_merchant_rules].  [table] is the outcome of reading
    [merchant_rules] through the session: the rows, or the exception the
    store raises.  The function has a [finally] but no [except]. *)
Definition get_merchant_rules (now : Z) (c : gmap string cache_entry)
    (table : result (list MerchantRule)) (tenant : option string)
    (use_cache : bool) : result (list RuleDict) * gmap string cache_entry :=
  let cache_key := merchant_rules_key tenant in
  match (if use_cache then _get_from_cache now c cache_key else None) with
  | Some cached => (Ok cached, c)
  | None =>
      match table with
      | Raise e => (Raise e, c)
      | Ok rows =>
          let res := query_rules tenant rows in
          (Ok res, if use_cache then _set_cache now c cache_key res else c)
      end
  end.

(** ** The matcher ([PGRulesClient.match_merchant]) *)

(** Outcome of [re.search(pattern, text, re.IGNORECASE)] as the [try] of
    the regex loop sees it: a match object (its [group(0)] and whether
    [groups()] is non-empty), no match, or [re.error] raised for a pattern
    that does not compile.  An exception of another class is an outcome of
    [re_call], below. *)
Inductive re_outcome : Type :=
  | ReMatch (group0 : string) (has_groups : bool)
  | ReNoMatch
  | ReError.

Definition set_matched_text (d : RuleDict) (t : string) : RuleDict :=
  {| rule := rule d; matched_text := Some t; fuzzy_score := fuzzy_score d |}.

(** The characters of the class [[.*+?^${}()|[\]\\]]; 92 is the backslash. *)
Definition is_regex_special (c : ascii) : bool :=
  existsb (Ascii.eqb c)
    (ascii_of_nat 92 :: list_ascii_of_string ".*+?^${}()|[]").

(** [re.sub(r'^\(\?i\)', '', s, flags=re.IGNORECASE)]. *)
Definition strip_inline_flag (s : string) : string :=
  match s with
  | String "("%char (String "?"%char (String i (String ")"%char rest))) =>
      if Ascii.eqb i "i"%char || Ascii.eqb i "I"%char then rest else s
  | _ => s
  end.

(** The text [_fuzzy_match_merchant] extracts from a rule's pattern. *)
Definition pattern_text_of (pattern : string) : string :=
  let t := strip_inline_flag pattern in
  let t := PyStr.remove_pair (ascii_of_nat 92) "b"%char t in
  let t := PyStr.remove_pair "."%char "*"%char t in
  let t := PyStr.remove_chars is_regex_special t in
  PyStr.strip (PyStr.upper t).

Definition Qltb (a b : Q) : bool := negb (Qle_bool b a).

(** [max(a, b)] of Python: [b] when it is greater, else [a]. *)
Definition py_max (a b : Q) : Q := if Qltb a b then b else a.

Definition of_nat_Q (n : nat) : Q := inject_Z (Z.of_nat n).

(** [len(P & M) / len(P | M)] for the word sets, when both are non-empty. *)
Definition word_overlap (pattern_text merchant_upper : string) : option Q :=
  let pattern_words := remove_dups (PyStr.split pattern_text) in
  let merchant_words := remove_dups (PyStr.split merchant_upper) in
  match pattern_words, merchant_words with
  | _ :: _, _ :: _ =>
      Some (of_nat_Q (length (list_intersection pattern_words merchant_words))
            / of_nat_Q (length (list_union pattern_words merchant_words)))%Q
  | _, _ => None
  end.

Definition best_score_threshold : Q := 75 # 100.

Section Matcher.

Variable re_search : string -> string -> re_outcome.
Variable seq_ratio : string -> string -> Q.

(** One turn of the regex loop: [Some d] is [return rule], [None] is the
    next iteration (no match, a skipped rule, or [except re.error]). *)
Definition try_rule (merchant_name description : option string)
    (d : RuleDict) : option RuleDict :=
  let pattern := pattern_regex (rule d) in
  if negb (PyStr.truthy pattern) then None
  else
    match applies_to (rule d) with
    | Merchant =>
        match merchant_name with
        | Some m =>
            if PyStr.truthy m then
              match re_search pattern m with
              | ReMatch g0 groups =>
                  Some (set_matched_text d (if groups then g0 else m))
              | ReNoMatch => None
              | ReError => None
              end
            else None
        | None => None
        end
    | Description =>
        match description with
        | Some t =>
            if PyStr.truthy t then
              match re_search pattern t with
              | ReMatch g0 groups =>
                  Some (set_matched_text d (if groups then g0 else PyStr.take 50 t))
              | ReNoMatch => None
              | ReError => None
              end
            else None
        | None => None
        end
    end.

(** A rule of the table regex-matches the input when its turn of the loop
    returns. *)
Definition regex_matches (m d : option string) (r : MerchantRule) : Prop :=
  is_Some (try_rule m d (to_dict r)).

Fixpoint match_regex (rules : list RuleDict)
    (merchant_name description : option string) : option RuleDict :=
  match rules with
  | [] => None
  | d :: rest =>
      match try_rule merchant_name description d with
      | Some hit => Some hit
      | None => match_regex rest merchant_name description
      end
  end.

Definition similarity (merchant_upper pattern_text : string) : Q :=
  let s := seq_ratio merchant_upper pattern_text in
  match word_overlap pattern_text merchant_upper with
  | Some w => py_max s (w * (9 # 10))%Q
  | None => s
  end.

(** The score of a rule in the fuzzy loop, [None] where the loop says
    [continue]. *)
Definition fuzzy_candidate (merchant_upper : string) (d : RuleDict) : option Q :=
  match applies_to (rule d) with
  | Description => None
  | Merchant =>
      let pattern := pattern_regex (rule d) in
      if negb (PyStr.truthy pattern) then None
      else
        let pattern_text := pattern_text_of pattern in
        if negb (PyStr.truthy pattern_text) || (String.length pattern_text <? 3)%nat
        then None
        else Some (similarity merchant_upper pattern_text)
  end.

Definition fuzzy_hit (merchant_name : string) (d : RuleDict) (score : Q) : RuleDict :=
  {| rule := rule d; matched_text := Some merchant_name; fuzzy_score := Some score |}.

Fixpoint fuzzy_loop (merchant_name merchant_upper : string)
    (rules : list RuleDict) (best_match : option RuleDict) (best_score : Q)
    : option RuleDict :=
  match rules with
  | [] => best_match
  | d :: rest =>
      match fuzzy_candidate merchant_upper d with
      | None => fuzzy_loop merchant_name merchant_upper rest best_match best_score
      | Some sim =>
          if Qltb best_score sim
          then fuzzy_loop merchant_name merchant_upper rest
                 (Some (fuzzy_hit merchant_name d sim)) sim
          else fuzzy_loop merchant_name merchant_upper rest best_match best_score
      end
  end.

Definition _fuzzy_match_merchant (merchant_name : string)
    (rules : list RuleDict) : option RuleDict :=
  fuzzy_loop merchant_name (PyStr.strip (PyStr.upper merchant_name)) rules
    None best_score_threshold.

(** The body of [match_merchant] once the rules are fetched. *)
Definition match_rules (rules : list RuleDict)
    (merchant_name description : option string) : option RuleDict :=
  match match_regex rules merchant_name description with
  | Some hit => Some hit
  | None =>
      match merchant_name with
      | Some m => if PyStr.truthy m then _fuzzy_match_merchant m rules else None
      | None => None
      end
  end.

Definition match_merchant (now : Z) (c : gmap string cache_entry)
    (table : result (list MerchantRule))
    (merchant_name description : option string) (tenant : option string)
    (use_cache : bool) : result (option RuleDict) * gmap string cache_entry :=
  match get_merchant_rules now c table tenant use_cache with
  | (Raise e, c') => (Raise e, c')
  | (Ok rules, c') => (Ok (match_rules rules merchant_name description), c')
  end.

End Matcher.

(** ** The matcher and the exceptions of [re.search]

    [re.search] compiles the pattern at each call.  Besides returning a
    match or [None] and raising [re.error], which are the outcomes the
    [try] of the loop deals with, the compiler raises [OverflowError] or
    [ValueError] on a repetition count beyond its limits, and
    [except re.error] does not catch those.  [re_call] is every outcome of
    the call and [Raising] is the matcher on it.  On a search that raises
    nothing but [re.error] it is the matcher above. *)
Inductive re_call : Type :=
  | Handled (o : re_outcome)
  | Unhandled (e : exn).

Module Raising.

Section Matcher.

Variable re_search : string -> string -> re_call.
Variable seq_ratio : string -> string -> Q.

(** One turn of the regex loop: [Ok (Some d)] is [return rule], [Ok None]
    the next iteration, [Raise e] an exception that leaves the loop. *)
Definition try_rule (merchant_name description : option string)
    (d : RuleDict) : result (option RuleDict) :=
  let pattern := pattern_regex (rule d) in
  if negb (PyStr.truthy pattern) then Ok None
  else
    match applies_to (rule d) with
    | Merchant =>
        match merchant_name with
        | Some m =>
            if PyStr.truthy m then
              match re_search pattern m with
              | Handled (ReMatch g0 groups) =>
                  Ok (Some (set_matched_text d (if groups then g0 else m)))
              | Handled ReNoMatch => Ok None
              | Handled ReError => Ok None
              | Unhandled e => Raise e
              end
            else Ok None
        | None => Ok None
        end
    | Description =>
        match description with
        | Some t =>
            if PyStr.truthy t then
              match re_search pattern t with
              | Handled (ReMatch g0 groups) =>
                  Ok (Some (set_matched_text d
                              (if groups then g0 else PyStr.take 50 t)))
              | Handled ReNoMatch => Ok None
              | Handled ReError => Ok None
              | Unhandled e => Raise e
              end
            else Ok None
        | None => Ok None
        end
    end.

Fixpoint match_regex (rules : list RuleDict)
    (merchant_name description : option string) : result (option RuleDict) :=
  match rules with
  | [] => Ok None
  | d :: rest =>
      match try_rule merchant_name description d with
      | Ok (Some hit) => Ok (Some hit)
      | Ok None => match_regex rest merchant_name description
      | Raise e => Raise e
      end
  end.

(** The body of [match_merchant] once the rules are fetched.  The fuzzy
    fallback calls [re.sub] with patterns of its own only. *)
Definition match_rules (rules : list RuleDict)
    (merchant_name description : option string) : result (option RuleDict) :=
  match match_regex rules merchant_name description with
  | Raise e => Raise e
  | Ok (Some hit) => Ok (Some hit)
  | Ok None =>
      Ok (match merchant_name with
          | Some m =>
              if PyStr.truthy m then _fuzzy_match_merchant seq_ratio m rules
              else None
          | None => None
          end)
  end.

Definition match_merchant (now : Z) (c : gmap string cache_entry)
    (table : result (list MerchantRule))
    (merchant_name description : option string) (tenant : option string)
    (use_cache : bool) : result (option RuleDict) * gmap string cache_entry :=
  match get_merchant_rules now c table tenant use_cache with
  | (Raise e, c') => (Raise e, c')
  | (Ok rules, c') => (match_rules rules merchant_name description, c')
  end.

End Matcher.

End Raising.

(** ** Reference dimensions and the relational store *)

Module DimCategory.
Record t : Type := {
  category_code : string;
  category_name : string;
  txn_type : string;
  display_order : Z;
  active : bool
}.
End DimCategory.

Module DimSubcategory.
Record t : Type := {
  subcategory_code : string;
  category_code : string;
  subcategory_name : string;
  display_order : Z;
  active : bool
}.
End DimSubcategory.

Inductive direction_t : Type := Debit | Credit.

Global Instance direction_eq_dec : EqDecision direction_t.
Proof. solve_decision. Defined.

Definition direction_text (d : direction_t) : string :=
  match d with Debit => "debit" | Credit => "credit" end.

(** A row of [txn_staging]; [amount] is in hundredths ([Numeric(14, 2)]),
    [txn_date] a day number. *)
Module TxnStaging.
Record t : Type := {
  staging_id : string;
  upload_id : string;
  user_id : string;
  raw_txn_id : option string;
  txn_date : Z;
  description_raw : option string;
  amount : Z;
  direction : direction_t;
  currency : option string;
  merchant_raw : option string;
  account_ref : option string;
  parsed_ok : bool
}.
End TxnStaging.

(** A row of [txn_fact].  [txn_id] is the surrogate key the store generates:
    here the number of the insert.  [dedupe_fp] is the column the loader
    fills by [UPDATE] after the insert. *)
Module TxnFact.
Record t : Type := {
  txn_id : nat;
  user_id : string;
  upload_id : string;
  source_type : string;
  account_ref : option string;
  txn_external_id : option string;
  txn_date : Z;
  description : option string;
  amount : Z;
  direction : direction_t;
  currency : string;
  merchant_name_norm : option string;
  ingested_via : option string;
  raw_source_id : option string;
  dedupe_fp : option string
}.
End TxnFact.

Module TxnEnriched.
Record t : Type := {
  txn_id : nat;
  matched_rule_id : option string;
  category_code : option string;
  subcategory_code : option string;
  rule_confidence : Q
}.
End TxnEnriched.

Record Store : Type := {
  merchant_rules : list MerchantRule;
  dim_category : list DimCategory.t;
  dim_subcategory : list DimSubcategory.t;
  txn_staging : list TxnStaging.t;
  txn_fact : list TxnFact.t;
  txn_enriched : list TxnEnriched.t
}.

Definition with_merchant_rules (st : Store) (rs : list MerchantRule) : Store :=
  {| merchant_rules := rs;
     dim_category := dim_category st;
     dim_subcategory := dim_subcategory st;
     txn_staging := txn_staging st;
     txn_fact := txn_fact st;
     txn_enriched := txn_enriched st |}.

(** ** The learning service ([learning_service.py]) *)

Definition USER_RULE_PRIORITY : Z := 10.
Definition DESC_RULE_PRIORITY : Z := 12.

Definition STOPWORDS : list string :=
  ["upi"; "imps"; "neft"; "rtgs"; "txn"; "transaction"; "ref"; "utr"; "rrn";
   "payment"; "card"; "bill"; "dr"; "cr"; "debit"; "credit"].

Definition MIN_MERCHANT_LENGTH : nat := 3.
Definition MIN_PATTERN_TOKENS : nat := 2.
Definition MAX_RULES_PER_USER_PER_DAY : nat := 50.

Definition backslash : string := String (ascii_of_nat 92) "".

(** [re.escape] of one character: letters, digits and [_] stay. *)
Definition re_escape_char (c : ascii) : string :=
  if PyStr.is_alnum c || Ascii.eqb c "_"%char then String c ""
  else backslash ++ String c "".

Fixpoint re_escape (s : string) : string :=
  match s with
  | EmptyString => EmptyString
  | String c s' => re_escape_char c ++ re_escape s'
  end.

Definition merchant_pattern (name : option string) : option string :=
  match name with
  | None => None
  | Some name =>
      if negb (PyStr.truthy name)
         || (String.length (PyStr.strip name) <? MIN_MERCHANT_LENGTH)%nat
      then None
      else
        let tokens := PyStr.split (PyStr.sub_non_alnum false (PyStr.strip name)) in
        match tokens with
        | [] => None
        | _ :: _ =>
            let body := PyStr.join ".*" (re_escape <$> tokens) in
            Some ("(?i)" ++ backslash ++ "b" ++ body ++ backslash ++ "b")
        end
  end.

Definition desc_pattern (description : option string) : option string :=
  match description with
  | None => None
  | Some description =>
      if negb (PyStr.truthy description) then None
      else
        let tokens := PyStr.split (PyStr.sub_non_alnum false (PyStr.upper description)) in
        let tokens :=
          List.filter
            (fun t => negb (bool_decide (t ∈ STOPWORDS)) && (2 <=? String.length t)%nat)
            tokens in
        if (length tokens <? MIN_PATTERN_TOKENS)%nat then None
        else
          let tokens := take 3 tokens in
          let body := PyStr.join ".*" (re_escape <$> tokens) in
          Some ("(?i).*" ++ body ++ ".*")
  end.

(** The rows the rate-limit query counts. *)
Definition counts_for_rate_limit (user_id : string) (tenant : option string)
    (today_start : Z) (r : MerchantRule) : bool :=
  bool_decide (created_by r = Some user_id)
  && bool_decide (source r = Learned)
  && (today_start <=? created_at r)%Z
  && (if PyStr.otruthy tenant then bool_decide (tenant_id r = tenant) else true).

(** [query.count()] of [_check_rate_limit]: the count, or the exception the
    store raises on that session. *)
Definition rate_limit_query (query_error : option exn) (st : Store)
    (user_id : string) (tenant : option string) (today_start : Z) : result nat :=
  match query_error with
  | Some e => Raise e
  | None =>
      Ok (length (List.filter (counts_for_rate_limit user_id tenant today_start)
                    (merchant_rules st)))
  end.

(** [_check_rate_limit]: [true] under the limit; [except Exception] returns
    [True]. *)
Definition _check_rate_limit (query_error : option exn) (st : Store)
    (user_id : string) (tenant : option string) (today_start : Z) : bool :=
  match rate_limit_query query_error st user_id tenant today_start with
  | Ok count => (count <? MAX_RULES_PER_USER_PER_DAY)%nat
  | Raise _ => true
  end.

(** Modelled from the spec: the unique index on [(tenant_id, applies_to,
    pattern_hash)] that [upsert_rule] names in [index_elements] is created
    by a migration that is not among the sources.  The spec keys the upsert
    on (scope, applies_to, pattern fingerprint), the scope being global or
    a tenant id, with one rule per key at most: two rows have the same
    scope when both are global (no tenant) or both are of the same
    tenant. *)
Definition same_scope (a b : option string) : bool := bool_decide (a = b).

Definition conflicts (tenant : option string) (applies : applies_to_t)
    (hash : string) (r : MerchantRule) : bool :=
  same_scope (tenant_id r) tenant
  && bool_decide (applies_to r = applies)
  && bool_decide (pattern_hash r = Some hash).

(** The uniqueness the index keeps: no two rows have the same key. *)
Definition one_rule_per_key (rows : list MerchantRule) : Prop :=
  forall tenant applies hash,
    (length (List.filter (conflicts tenant applies hash) rows) <= 1)%nat.

(** The invariant of the spec: one active rule per key at most. *)
Definition one_active_rule_per_key (rows : list MerchantRule) : Prop :=
  forall tenant applies hash,
    (length (List.filter (fun r => conflicts tenant applies hash r && active r)
               rows) <= 1)%nat.

(** The [SET] list of [on_conflict_do_update]. *)
Definition do_update (category : string) (subcategory : option string)
    (prio : Z) (creator : string) (src : source_t) (r : MerchantRule)
    : MerchantRule :=
  {| rule_id := rule_id r;
     priority := prio;
     applies_to := applies_to r;
     pattern_regex := pattern_regex r;
     pattern_hash := pattern_hash r;
     category_code := Some category;
     subcategory_code := subcategory;
     created_by := Some creator;
     tenant_id := tenant_id r;
     source := src;
     active := true;
     created_at := created_at r |}.

Fixpoint update_conflicting (tenant : option string) (applies : applies_to_t)
    (hash : string) (upd : MerchantRule -> MerchantRule)
    (rows : list MerchantRule) : option (string * list MerchantRule) :=
  match rows with
  | [] => None
  | r :: rest =>
      if conflicts tenant applies hash r
      then Some (rule_id r, upd r :: rest)
      else
        match update_conflicting tenant applies hash upd rest with
        | Some (rid, rest') => Some (rid, r :: rest')
        | None => None
        end
  end.

Section Learning.

Variable sha1_hexdigest : string -> string.

Definition _pattern_hash (pattern : string) : string := sha1_hexdigest pattern.

(** [upsert_rule]: [INSERT ... ON CONFLICT (tenant_id, applies_to,
    pattern_hash) DO UPDATE ... RETURNING rule_id].  [new_id] is the
    [uuid4()] of the call and [now] the [created_at] default.  The row is
    inserted with the caller's [tenant_id]. *)
Definition upsert_rule (now : Z) (new_id : string) (st : Store)
    (applies : applies_to_t) (pattern : string) (category : string)
    (subcategory : option string) (prio : Z) (creator : string)
    (tenant : option string) (src : source_t) : string * Store :=
  let pattern_hash_value := _pattern_hash pattern in
  match update_conflicting tenant applies pattern_hash_value
          (do_update category subcategory prio creator src) (merchant_rules st) with
  | Some (rid, rows) => (rid, with_merchant_rules st rows)
  | None =>
      (new_id,
       with_merchant_rules st
         (merchant_rules st ++
          [{| rule_id := new_id;
              priority := prio;
              applies_to := applies;
              pattern_regex := pattern;
              pattern_hash := Some pattern_hash_value;
              category_code := Some category;
              subcategory_code := subcategory;
              created_by := Some creator;
              tenant_id := tenant;
              source := src;
              active := true;
              created_at := now |}]))
  end.

Definition category_exists (st : Store) (code : string) : bool :=
  existsb (fun c => bool_decide (DimCategory.category_code c = code)
                    && DimCategory.active c)
    (dim_category st).

Definition subcategory_exists (st : Store) (code category : string) : bool :=
  existsb (fun s => bool_decide (DimSubcategory.subcategory_code s = code)
                    && bool_decide (DimSubcategory.category_code s = category)
                    && DimSubcategory.active s)
    (dim_subcategory st).

(** The subcategory [learn_from_edit] hands to the upsert,
    [subcategory_code if subcategory else None]: the code, when an active
    subcategory row with that code and the category was found. *)
Definition checked_subcategory (st : Store) (category_code : string)
    (subcategory : option string) : option string :=
  match subcategory with
  | Some sc =>
      if PyStr.truthy sc && subcategory_exists st sc category_code
      then Some sc else None
  | None => None
  end.

(** [learn_from_edit].  Returns the rule id or [None], the store and the
    rule cache.  [query_error] is the failure, if any, of the rate-limit
    session. *)
Definition learn_from_edit (query_error : option exn) (now today_start : Z)
    (new_id : string) (st : Store) (c : gmap string cache_entry)
    (user_id : string) (merchant_name description : option string)
    (category subcategory : option string) (tenant : option string)
    : option string * Store * gmap string cache_entry :=
  match category with
  | None => (None, st, c)
  | Some category_code =>
      if negb (PyStr.truthy category_code) then (None, st, c)
      else if negb (_check_rate_limit query_error st user_id tenant today_start)
      then (None, st, c)
      else if negb (category_exists st category_code) then (None, st, c)
      else
        let validated := checked_subcategory st category_code subcategory in
        (* an empty tenant string is not a UUID: the write raises, the
           handler rolls back and returns None *)
        if bool_decide (tenant = Some "") then (None, st, c)
        else
          let learn applies pattern prio :=
            let '(rid, st') :=
              upsert_rule now new_id st applies pattern category_code validated
                prio user_id tenant Learned in
            (Some rid, st', clear_cache c None) in
          match (if PyStr.otruthy merchant_name
                 then merchant_pattern merchant_name else None) with
          | Some pattern => learn Merchant pattern USER_RULE_PRIORITY
          | None =>
              match (if PyStr.otruthy description
                     then desc_pattern description else None) with
              | Some pattern => learn Description pattern DESC_RULE_PRIORITY
              | None => (None, st, c)
              end
          end
  end.

End Learning.

(** ** The staging loader ([load_staging_for_user]) *)

Definition replace_char (a b : ascii) : string -> string :=
  PyStr.map_chars (fun c => if Ascii.eqb c a then b else c).

(** [str.title] on ASCII text. *)
Fixpoint title_from (prev_cased : bool) (s : string) : string :=
  match s with
  | EmptyString => EmptyString
  | String c s' =>
      let cased := PyStr.is_upper c || PyStr.is_lower c in
      String (if prev_cased then PyStr.lower_char c else PyStr.upper_char c)
             (title_from cased s')
  end.

Definition txn_type_map : list (string * string) :=
  [("dining", "wants"); ("groceries", "needs"); ("shopping", "wants");
   ("utilities", "needs"); ("auto_taxi", "needs"); ("flight", "wants");
   ("train", "needs"); ("travel", "wants"); ("rent", "needs");
   ("investments", "assets"); ("income", "income"); ("savings", "assets");
   ("others", "wants")].

Fixpoint dict_get (m : list (string * string)) (k default : string) : string :=
  match m with
  | [] => default
  | (k', v) :: rest => if String.eqb k k' then v else dict_get rest k default
  end.

Definition with_dim_category (st : Store) (cs : list DimCategory.t) : Store :=
  {| merchant_rules := merchant_rules st;
     dim_category := cs;
     dim_subcategory := dim_subcategory st;
     txn_staging := txn_staging st;
     txn_fact := txn_fact st;
     txn_enriched := txn_enriched st |}.

Definition with_fact_and_enriched (st : Store) (f : TxnFact.t)
    (e : TxnEnriched.t) : Store :=
  {| merchant_rules := merchant_rules st;
     dim_category := dim_category st;
     dim_subcategory := dim_subcategory st;
     txn_staging := txn_staging st;
     txn_fact := txn_fact st ++ [f];
     txn_enriched := txn_enriched st ++ [e] |}.

(** [ensure_category]. *)
Definition ensure_category (st : Store) (cat_code : string) : Store :=
  if negb (PyStr.truthy cat_code) then st
  else if existsb (fun c => bool_decide (DimCategory.category_code c = cat_code))
            (dim_category st)
  then st
  else
    with_dim_category st
      (dim_category st ++
       [{| DimCategory.category_code := cat_code;
           DimCategory.category_name :=
             title_from false (replace_char "_"%char " "%char cat_code);
           DimCategory.txn_type := dict_get txn_type_map cat_code "wants";
           DimCategory.display_order := 100;
           DimCategory.active := true |}]).

(** The test of the loader's [except] branch: an [IntegrityError], or a
    message that mentions a duplicate. *)
Definition is_duplicate (e : exn) : bool :=
  let error_str := PyStr.lower (message e) in
  bool_decide (exc e = IntegrityError)
  || (PyStr.contains "unique" error_str
      || PyStr.contains "duplicate" error_str
      || PyStr.contains "ux_txn_fact_dedupe_fp" error_str
      || PyStr.contains "dedupe_fp" error_str).

Definition credit_business_words : list string :=
  ["enterprises"; "services"; "solutions"; "technologies"; "private";
   "limited"; "hotel"; "hotels"; "resort"; "lodge"; "industries"; "trading";
   "traders"; "store"; "shop"; "pvt"; "ltd"; "inc"; "corp"; "corporation"].

Definition credit_common_names : list string :=
  ["abhinav"; "shobha"; "vasantha"; "vasanthakumari"; "yashwanth"; "yashwant";
   "sriram"; "kumari"; "kiran"; "uday"; "navalga"; "jatavath"; "shaik";
   "zuber"; "mohammad"; "mohammed"; "sameer"; "shakeel"; "arifa"; "begum";
   "gurajala"; "josaf"; "pathlavath"; "ramesh"; "pittala"; "yadagiri";
   "ippalui"; "krishnaiah"; "sandeep"; "venkata"; "hanuman"; "naseer";
   "malla"; "satya"; "srinivasa"; "ravi"; "sri"; "sai"; "teja"; "industr"].

Definition credit_company_keywords : list string :=
  ["technologies"; "technology"; "private"; "limited"; "pvt"; "ltd"; "inc";
   "corporation"; "corp"; "industries"; "clearing"; "nse"; "bse"; "nsec"].

Definition credit_business_keywords : list string :=
  ["enterprises"; "services"; "solutions"; "traders"; "store"; "shop"].

(** [a or b] on strings. *)
Definition str_or (a b : string) : string := if PyStr.truthy a then a else b.

(** [s or None]. *)
Definition or_none (s : string) : option string :=
  if PyStr.truthy s then Some s else None.

(** Step 4 of [_extract_and_categorize] for a credit. *)
Definition credit_fallback (merchant_normalized description : string)
    : string * option string :=
  let search_text := PyStr.lower (str_or merchant_normalized description) in
  let words := PyStr.split search_text in
  let is_personal_name :=
    (2 <=? length words)%nat && (length words <=? 4)%nat
    && negb (PyStr.any_in credit_business_words search_text) in
  if is_personal_name || PyStr.any_in credit_common_names search_text
  then ("transfers", Some "p2p_transfer")
  else
    let merchant_lower := PyStr.lower merchant_normalized in
    if PyStr.any_in credit_company_keywords merchant_lower
    then ("income", Some "salary")
    else if PyStr.any_in credit_business_keywords merchant_lower
    then ("transfers", Some "p2p_personal")
    else ("transfers", Some "p2p_personal").

Section Loader.

Variable re_search : string -> string -> re_outcome.
Variable seq_ratio : string -> string -> Q.

(** [merchant_extractor.extract_merchant_from_description] and
    [normalize_merchant_name]: pure functions of their text. *)
Variable extract_merchant_from_description : string -> option string.
Variable normalize_merchant_name : string -> string.

(** [_infer_category_from_keywords], the keyword table for debits. *)
Variable _infer_category_from_keywords : string -> string.

(** The SQL function [spendsense.fn_txn_fact_fp(user, date, amount,
    direction, description, merchant, account)]. *)
Variable fn_txn_fact_fp :
  string -> Z -> Z -> direction_t -> string -> string -> string -> string.

(** The exception, if any, the store raises when this row's fact is
    inserted. *)
Variable row_fault : TxnStaging.t -> option exn.

(** [_extract_and_categorize] on the rules the rule client returns:
    [(merchant_name_norm, category_code, subcategory_code)]. *)
Definition _extract_and_categorize (rules : list RuleDict)
    (description : string) (merchant_raw : option string)
    (direction : direction_t) : string * string * option string :=
  let merchant_name :=
    match merchant_raw with
    | Some m =>
        if negb (PyStr.truthy m)
           || bool_decide (PyStr.lower m ∈ ["unknown"; "nan"; ""])
        then extract_merchant_from_description description
        else Some m
    | None => extract_merchant_from_description description
    end in
  let merchant_normalized :=
    normalize_merchant_name
      (match merchant_name with
       | Some m => str_or m description
       | None => description
       end) in
  let rule_match :=
    match_rules re_search seq_ratio rules
      (or_none merchant_normalized) (or_none description) in
  let fallback :=
    match direction with
    | Credit =>
        let '(cat, sub) := credit_fallback merchant_normalized description in
        (merchant_normalized, cat, sub)
    | Debit =>
        let search_text := PyStr.lower (str_or merchant_normalized description) in
        (merchant_normalized, _infer_category_from_keywords search_text, None)
    end in
  match rule_match with
  | Some d =>
      match category_code (rule d) with
      | Some category_from_rule =>
          if PyStr.truthy category_from_rule
          then (merchant_normalized, category_from_rule, subcategory_code (rule d))
          else fallback
      | None => fallback
      end
  | None => fallback
  end.

Definition fingerprint (s : TxnStaging.t) (merchant_norm : string) : string :=
  fn_txn_fact_fp (TxnStaging.user_id s) (TxnStaging.txn_date s)
    (TxnStaging.amount s) (TxnStaging.direction s)
    (default "" (TxnStaging.description_raw s))
    merchant_norm
    (default "" (TxnStaging.account_ref s)).

Definition fact_exists (st : Store) (fp : string) : bool :=
  existsb (fun f => bool_decide (TxnFact.dedupe_fp f = Some fp)) (txn_fact st).

Definition subcategory_known (st : Store) (code : string) : bool :=
  existsb (fun s => bool_decide (DimSubcategory.subcategory_code s = code))
    (dim_subcategory st).

(** The body of the [try] under the savepoint: the fact, its audit columns
    and fingerprint, the category row, the enrichment.  The enrichment is
    flushed by [savepoint.commit()], where its foreign key on
    [dim_subcategory] is checked. *)
Definition insert_row (st : Store) (s : TxnStaging.t) (merchant_norm : string)
    (category : string) (subcategory : option string) (fp : string)
    : result Store :=
  match row_fault s with
  | Some e => Raise e
  | None =>
      if fact_exists st fp
      then Raise (Exn IntegrityError
                    "duplicate key value violates unique constraint ux_txn_fact_dedupe_fp")
      else
        let id := length (txn_fact st) in
        let fact :=
          {| TxnFact.txn_id := id;
             TxnFact.user_id := TxnStaging.user_id s;
             TxnFact.upload_id := TxnStaging.upload_id s;
             TxnFact.source_type := "file";
             TxnFact.account_ref := TxnStaging.account_ref s;
             TxnFact.txn_external_id := TxnStaging.raw_txn_id s;
             TxnFact.txn_date := TxnStaging.txn_date s;
             TxnFact.description := TxnStaging.description_raw s;
             TxnFact.amount := TxnStaging.amount s;
             TxnFact.direction := TxnStaging.direction s;
             TxnFact.currency :=
               match TxnStaging.currency s with
               | Some cur => str_or cur "INR"
               | None => "INR"
               end;
             TxnFact.merchant_name_norm := or_none merchant_norm;
             TxnFact.ingested_via := Some "file";
             TxnFact.raw_source_id := Some (TxnStaging.upload_id s);
             TxnFact.dedupe_fp := Some fp |} in
        let category_code := if PyStr.truthy category then category else "others" in
        let st1 := ensure_category st category_code in
        let enriched :=
          {| TxnEnriched.txn_id := id;
             TxnEnriched.matched_rule_id := None;
             TxnEnriched.category_code := Some category_code;
             TxnEnriched.subcategory_code := subcategory;
             TxnEnriched.rule_confidence :=
               if PyStr.otruthy subcategory then 1 else 80 # 100 |} in
        match subcategory with
        | Some sc =>
            if subcategory_known st1 sc
            then Ok (with_fact_and_enriched st1 fact enriched)
            else Raise (Exn IntegrityError
                          "insert or update on table txn_enriched violates foreign key constraint")
        | None => Ok (with_fact_and_enriched st1 fact enriched)
        end
  end.

(** The savepoint of [s] is rolled back and the loop goes on: the store
    raises a duplicate-like error on the fact, or the subcategory of the
    enrichment is not in [dim_subcategory]. *)
Definition write_declined (st : Store) (s : TxnStaging.t)
    (subcategory : option string) : bool :=
  match row_fault s with
  | Some e => is_duplicate e
  | None =>
      match subcategory with
      | Some sc => negb (subcategory_known st sc)
      | None => false
      end
  end.

(** What one turn of the loop over the staging rows does.  [rules] is what
    [get_merchant_rules] gives [match_merchant] during the run: the list of
    global rules, the same for every row, or the exception of the rule
    store, which no handler of the loop catches. *)
Inductive row_step : Type :=
  | Next (st : Store) (inserted : nat)
  | Abort (e : exn).

Definition load_row (rules : result (list RuleDict)) (st : Store)
    (inserted : nat) (s : TxnStaging.t) : row_step :=
  match rules with
  | Raise e => Abort e
  | Ok rs =>
      let '(merchant_norm, category, subcategory) :=
        _extract_and_categorize rs (default "" (TxnStaging.description_raw s))
          (TxnStaging.merchant_raw s) (TxnStaging.direction s) in
      let fp := fingerprint s merchant_norm in
      if fact_exists st fp then Next st inserted
      else
        match insert_row st s merchant_norm category subcategory fp with
        | Ok st' => Next st' (S inserted)
        | Raise insert_err =>
            (* savepoint.rollback(): the store is [st] again *)
            if is_duplicate insert_err then Next st inserted
            else Abort insert_err
        end
  end.

Fixpoint load_rows (rules : result (list RuleDict)) (st : Store)
    (inserted : nat) (rows : list TxnStaging.t) : row_step :=
  match rows with
  | [] => Next st inserted
  | s :: rest =>
      match load_row rules st inserted s with
      | Next st' inserted' => load_rows rules st' inserted' rest
      | Abort e => Abort e
      end
  end.

Definition staging_rows_for (st : Store) (user_id : string) : list TxnStaging.t :=
  List.filter
    (fun s => bool_decide (TxnStaging.user_id s = user_id) && TxnStaging.parsed_ok s)
    (txn_staging st).

(** [load_staging_for_user]: the inserted count and the committed store, or
    the re-raised exception and the store after [session.rollback()].  The
    steps after the commit (cache clear, KPI and view refresh) swallow their
    errors and leave the count as it is. *)
Definition load_staging_for_user (rules : result (list RuleDict)) (st : Store)
    (user_id_str : string) : result nat * Store :=
  match load_rows rules st 0 (staging_rows_for st user_id_str) with
  | Next st' inserted => (Ok inserted, st')
  | Abort e => (Raise e, st)
  end.

End Loader.

(** ** The category invariant *)

(** [sc] is a subcategory of [cat] in [dim_subcategory]. *)
Definition subcategory_belongs (st : Store) (sc cat : string) : bool :=
  existsb (fun s => bool_decide (DimSubcategory.subcategory_code s = sc)
                    && bool_decide (DimSubcategory.category_code s = cat))
    (dim_subcategory st).

(** A (category, subcategory) pair in which the subcategory, if set,
    belongs to the category. *)
Definition pair_consistent (st : Store) (category subcategory : option string)
    : Prop :=
  forall sc, subcategory = Some sc ->
    exists cat, category = Some cat /\ subcategory_belongs st sc cat = true.

Definition enrichment_consistent (st : Store) (e : TxnEnriched.t) : Prop :=
  pair_consistent st (TxnEnriched.category_code e) (TxnEnriched.subcategory_code e).

(** The three pairs the credit fallback of the loader can return. *)
Definition credit_pairs_consistent (st : Store) : Prop :=
  pair_consistent st (Some "transfers") (Some "p2p_transfer")
  /\ pair_consistent st (Some "income") (Some "salary")
  /\ pair_consistent st (Some "transfers") (Some "p2p_personal").

(** ** Sample data

    A literal stand-in for [re.search] (case-insensitive substring search,
    with the pattern "(" failing to compile) and constant similarity
    ratios, used to run the definitions on concrete inputs. *)

Definition sample_re_search (pattern text : string) : re_outcome :=
  if String.eqb pattern "(" then ReError
  else if PyStr.contains (PyStr.upper pattern) (PyStr.upper text)
  then ReMatch pattern false
  else ReNoMatch.

Definition sample_ratio_080 (a b : string) : Q := 80 # 100.
Definition sample_ratio_070 (a b : string) : Q := 70 # 100.

Definition sample_rule (id : string) (prio : Z) (applies : applies_to_t)
    (pattern : string) (category : string) (subcategory : option string)
    (created : Z) : MerchantRule :=
  {| rule_id := id;
     priority := prio;
     applies_to := applies;
     pattern_regex := pattern;
     pattern_hash := None;
     category_code := Some category;
     subcategory_code := subcategory;
     created_by := None;
     tenant_id := None;
     source := Seed;
     active := true;
     created_at := created |}.

Definition rule_amazon_10 : MerchantRule :=
  sample_rule "r10" 10 Merchant "AMAZON" "shopping" None 200.
Definition rule_amazon_20 : MerchantRule :=
  sample_rule "r20" 20 Merchant "AMAZON" "bills" None 100.
Definition rule_broken : MerchantRule :=
  sample_rule "r05" 5 Merchant "(" "travel" None 300.

Definition rule_hp : MerchantRule :=
  sample_rule "r40" 40 Merchant ("(?i)" ++ backslash ++ "bHP" ++ backslash ++ "b")
    "shopping" None 100.

Definition sample_table : list MerchantRule :=
  [rule_amazon_20; rule_broken; rule_amazon_10].

Definition store_down : exn :=
  Exn OperationalError "could not connect to server".

Definition stale_entry : cache_entry :=
  {| data := [to_dict rule_amazon_10]; expires_at := 600; cached_at := 0 |}.

Definition stale_cache : gmap string cache_entry :=
  {[ "merchant_rules:global" := stale_entry ]}.

Definition sample_hash (pattern : string) : string := pattern.

Definition cat_shopping : DimCategory.t :=
  {| DimCategory.category_code := "shopping";
     DimCategory.category_name := "Shopping";
     DimCategory.txn_type := "wants";
     DimCategory.display_order := 100;
     DimCategory.active := true |}.

Definition cat_nightlife : DimCategory.t :=
  {| DimCategory.category_code := "nightlife";
     DimCategory.category_name := "Nightlife";
     DimCategory.txn_type := "wants";
     DimCategory.display_order := 100;
     DimCategory.active := true |}.

Definition sub_food_delivery : DimSubcategory.t :=
  {| DimSubcategory.subcategory_code := "food_delivery";
     DimSubcategory.category_code := "nightlife";
     DimSubcategory.subcategory_name := "Food Delivery";
     DimSubcategory.display_order := 100;
     DimSubcategory.active := true |}.

Definition learned_rule_of_u1 : MerchantRule :=
  {| rule_id := "learned";
     priority := USER_RULE_PRIORITY;
     applies_to := Merchant;
     pattern_regex := "AMAZON";
     pattern_hash := Some "h";
     category_code := Some "shopping";
     subcategory_code := None;
     created_by := Some "u1";
     tenant_id := None;
     source := Learned;
     active := true;
     created_at := 1000 |}.

Definition empty_store : Store :=
  {| merchant_rules := [];
     dim_category := [cat_shopping; cat_nightlife];
     dim_subcategory := [sub_food_delivery];
     txn_staging := [];
     txn_fact := [];
     txn_enriched := [] |}.

(** A store in which [u1] has created 50 learned rules since [today_start]. *)
Definition busy_store : Store :=
  with_merchant_rules empty_store (replicate 50 learned_rule_of_u1).

(** Stand-ins for the loader's collaborators. *)
Definition sample_extract (description : string) : option string := None.
Definition sample_normalize (merchant : string) : string :=
  PyStr.strip (PyStr.upper merchant).
Definition sample_infer (text : string) : string := "shopping".
Definition sample_fp (u : string) (d a : Z) (dir : direction_t)
    (desc m acct : string) : string :=
  u ++ "|" ++ direction_text dir ++ "|" ++ desc ++ "|" ++ m ++ "|" ++ acct.

Definition connection_lost : exn :=
  Exn OperationalError "server closed the connection unexpectedly".

Definition sample_row (id merchant : string) : TxnStaging.t :=
  {| TxnStaging.staging_id := id;
     TxnStaging.upload_id := "up1";
     TxnStaging.user_id := "u1";
     TxnStaging.raw_txn_id := None;
     TxnStaging.txn_date := 20000;
     TxnStaging.description_raw := Some merchant;
     TxnStaging.amount := 49900;
     TxnStaging.direction := Debit;
     TxnStaging.currency := Some "INR";
     TxnStaging.merchant_raw := Some merchant;
     TxnStaging.account_ref := None;
     TxnStaging.parsed_ok := true |}.

(** The store raises on the row whose id is "bad". *)
Definition sample_fault (s : TxnStaging.t) : option exn :=
  if String.eqb (TxnStaging.staging_id s) "bad" then Some connection_lost else None.

Definition no_fault (s : TxnStaging.t) : option exn := None.

(** The store refuses the fact of the row whose id is "bad": a concurrent
    load has written its fingerprint. *)
Definition unique_violation : exn :=
  Exn IntegrityError
    "duplicate key value violates unique constraint ux_txn_fact_dedupe_fp".

Definition integrity_fault (s : TxnStaging.t) : option exn :=
  if String.eqb (TxnStaging.staging_id s) "bad" then Some unique_violation
  else None.

Definition with_txn_staging (st : Store) (rows : list TxnStaging.t) : Store :=
  {| merchant_rules := merchant_rules st;
     dim_category := dim_category st;
     dim_subcategory := dim_subcategory st;
     txn_staging := rows;
     txn_fact := txn_fact st;
     txn_enriched := txn_enriched st |}.

Definition two_row_store : Store :=
  with_txn_staging empty_store
    [sample_row "bad" "SWIGGY"; sample_row "good" "AMAZON PAY"].

Definition one_row_store : Store :=
  with_txn_staging empty_store [sample_row "good" "AMAZON PAY"].

(** A seed rule whose subcategory belongs to another category. *)
Definition rule_mismatched : MerchantRule :=
  sample_rule "r30" 30 Merchant "AMAZON" "shopping" (Some "food_delivery") 100.

Definition rule_matched_pair : MerchantRule :=
  sample_rule "r31" 30 Merchant "AMAZON" "nightlife" (Some "food_delivery") 100.

Definition sample_subcategory (code category : string) : DimSubcategory.t :=
  {| DimSubcategory.subcategory_code := code;
     DimSubcategory.category_code := category;
     DimSubcategory.subcategory_name := code;
     DimSubcategory.display_order := 100;
     DimSubcategory.active := true |}.

(** A store whose dimension holds the pairs of the credit fallback. *)
Definition reference_store : Store :=
  {| merchant_rules := [];
     dim_category := [cat_shopping; cat_nightlife];
     dim_subcategory :=
       [sub_food_delivery;
        sample_subcategory "p2p_transfer" "transfers";
        sample_subcategory "salary" "income";
        sample_subcategory "p2p_personal" "transfers"];
     txn_staging := [sample_row "good" "AMAZON PAY"];
     txn_fact := [];
     txn_enriched := [] |}.

(** ** Further functions of the same files *)

(** Every character of [s] satisfies [P]. *)
Fixpoint all_chars (P : ascii -> bool) (s : string) : bool :=
  match s with
  | EmptyString => true
  | String c s' => P c && all_chars P s'
  end.

(** [learning_service.learn_from_description_pattern]. *)
Section LearningDescription.

Variable sha1_hexdigest : string -> string.

Definition learn_from_description_pattern (query_error : option exn)
    (now today_start : Z) (new_id : string) (st : Store)
    (c : gmap string cache_entry) (user_id : string)
    (description category subcategory tenant : option string)
    : option string * Store * gmap string cache_entry :=
  if negb (PyStr.otruthy description) || negb (PyStr.otruthy category)
  then (None, st, c)
  else
    let category_code := default "" category in
    if negb (_check_rate_limit query_error st user_id tenant today_start)
    then (None, st, c)
    else if negb (category_exists st category_code) then (None, st, c)
    else
      let validated := checked_subcategory st category_code subcategory in
      match desc_pattern description with
      | None => (None, st, c)
      | Some pattern =>
          (* an empty tenant string is not a UUID: the write raises, the
             handler rolls back and returns None *)
          if bool_decide (tenant = Some "") then (None, st, c)
          else
            let '(rid, st') :=
              upsert_rule sha1_hexdigest now new_id st Description pattern
                category_code validated DESC_RULE_PRIORITY user_id tenant
                Learned in
            (Some rid, st', clear_cache c None)
      end.

End LearningDescription.

(** [routers/etl.py], the keyword table of [load_staging_for_user]. *)
Module Etl.

(** The tests of [_infer_category_from_keywords] up to the taxes, in the
    order of the source: the keywords of an [any(k in text_lower ...)] and
    the category it returns. *)
Definition keyword_table : list (list string * string) :=
  [ (["zomato"; "swiggy"; "food delivery"], "nightlife");
    (["dine"; "restaurant"; "truffles"; "food"; "meal"; "pizza"; "burger"],
     "nightlife");
    (["cafe"; "coffee"; "cup"; "theory"; "barista"], "nightlife");
    (["pub"; "bar"; "club"; "lounge"; "party"; "event"], "nightlife");
    (["pan"; "paan"; "beeda"; "cigarette"], "nightlife");
    (["bigbasket"; "blinkit"; "zepto"; "dmart"; "supermarket"; "grocery";
      "kirana"; "provisions"], "home_needs");
    (["bescom"; "bwssb"; "tsspdcl"; "electricity"; "power"], "home_needs");
    (["water"; "water bill"], "home_needs");
    (["lpg"; "gas"; "cylinder"], "home_needs");
    (["apartment"; "rent"; "society"; "maintenance"; "property"; "house";
      "flat"], "home_needs");
    (["uber"; "ola"; "rapido"; "cab"; "taxi"; "ride"], "transport");
    (["auto"; "rickshaw"], "transport");
    (["metro"; "bus"; "train"; "irctc"; "railways"], "transport");
    (["indigo"; "vistara"; "air india"; "akasa"; "flight"; "airline"],
     "transport");
    (["hotel"; "hotels"; "resort"; "lodge"; "inn"; "accommodation"; "taj";
      "oberoi"; "itc"; "hilton"; "marriott"; "hyatt"; "oyo"; "booking";
      "stay"], "transport");
    (["fuel"; "petrol"; "diesel"], "transport");
    (["fastag"; "toll"; "nhai"; "parking"], "transport");
    (["amazon"; "flipkart"; "myntra"; "ajio"; "meesho"], "shopping");
    (["croma"; "reliance digital"; "electronics"; "gadget"], "shopping");
    (["apparel"; "clothing"; "footwear"; "shirt"; "pant"; "dress"], "shopping");
    (["bazaar"; "mall"; "store"; "shop"], "shopping");
    (["jio"; "airtel"; "vi"; "vodafone"; "idea"; "bsnl"; "mobile"; "recharge"],
     "bills");
    (["broadband"; "internet"; "jiofiber"; "act"; "hathway"; "bsnl ftth"],
     "bills");
    (["tata play"; "dth"; "cable"; "dishtv"; "sun direct"], "bills");
    (["credit card"; "cc payment"; "card payment"; "card bill"], "bills");
    (["doctor"; "hospital"; "clinic"; "consultation"], "health");
    (["pharmacy"; "medicine"; "medplus"; "apollo pharmacy"], "health");
    (["diagnostics"; "lab"; "thyrocare"; "lal path"], "health");
    (["fitness"; "gym"; "yoga"], "health");
    (["loan"; "emi"; "personal loan"; "home loan"; "car loan"], "loans");
    (["lic"; "hdfc life"; "sbi life"; "insurance"; "life insurance"],
     "insurance");
    (["hdfc rd"; "rd "; "recurring deposit"; "hdfc mf"; "index fund"; "sip";
      "mutual fund"; "investment"; "stocks"; "shares"; "ppf"; "fd";
      "fixed deposit"], "banks");
    (["income tax"; "tds"; "advance tax"; "gst"; "property tax"], "govt_tax");
    (["traffic"; "fine"; "challan"], "govt_tax") ].

(** The first test of the table that fires. *)
Fixpoint first_keyword_hit (table : list (list string * string))
    (text_lower : string) : option string :=
  match table with
  | [] => None
  | (keys, category) :: rest =>
      if PyStr.any_in keys text_lower then Some category
      else first_keyword_hit rest text_lower
  end.

Definition personal_name_exclusions : list string :=
  ["enterprises"; "services"; "solutions"; "technologies"; "private";
   "limited"; "hotel"; "hotels"; "resort"; "lodge"].

Definition common_names : list string :=
  ["abhinav"; "shobha"; "vasantha"; "vasanthakumari"; "yashwanth"; "yashwant";
   "sriram"; "kumari"; "kiran"; "uday"; "navalga"; "jatavath"; "shaik";
   "zuber"; "mohammad"; "mohammed"; "sameer"; "shakeel"; "arifa"; "begum";
   "gurajala"; "josaf"; "pathlavath"; "ramesh"; "pittala"; "yadagiri";
   "ippalui"; "krishnaiah"; "sandeep"; "venkata"; "hanuman"; "naseer";
   "malla"].

(** The keywords of the last hotel test, written out a second time in the
    source. *)
Definition travel_keywords : list string :=
  ["hotel"; "hotels"; "resort"; "lodge"; "inn"; "accommodation"; "taj";
   "oberoi"; "itc"; "hilton"; "marriott"; "hyatt"; "oyo"; "booking"; "stay"].

Definition card_keywords : list string :=
  ["cred"; "american express"; "amex"; "credit card"; "cc payment";
   "card payment"].

Definition rail_keywords : list string := ["upi"; "imps"; "neft"; "rtgs"].

Definition business_keywords : list string :=
  ["enterprises"; "services"; "solutions"; "traders"; "store"; "shop";
   "packages"; "industries"; "trading"; "technologies"; "private"; "limited";
   "pvt"; "ltd"].

Definition company_keywords : list string :=
  ["technologies"; "technology"; "private"; "limited"; "pvt"; "ltd"].

Definition _infer_category_from_keywords (text : string) : string :=
  if negb (PyStr.truthy text) then "shopping"
  else
    let text_lower := PyStr.lower text in
    match first_keyword_hit keyword_table text_lower with
    | Some category => category
    | None =>
        let words := PyStr.split text_lower in
        let is_personal_name :=
          (2 <=? length words)%nat && (length words <=? 4)%nat
          && negb (PyStr.any_in personal_name_exclusions text_lower) in
        if is_personal_name && PyStr.any_in common_names text_lower
        then "transfers"
        else if negb is_personal_name && PyStr.any_in travel_keywords text_lower
        then "travel"
        else if PyStr.any_in card_keywords text_lower then "bills"
        else if PyStr.any_in rail_keywords text_lower then
          if PyStr.any_in business_keywords text_lower then "shopping"
          else if PyStr.any_in company_keywords text_lower then "shopping"
          else if is_personal_name then "transfers"
          else "transfers"
        else "shopping"
    end.

End Etl.

(** [services/merchant_extractor.py]. *)
Module MerchantExtractor.

(** [re.sub(r'\s+', ' ', s)]. *)
Fixpoint sub_space_runs (in_run : bool) (s : string) : string :=
  match s with
  | EmptyString => EmptyString
  | String c s' =>
      if PyStr.is_space c
      then (if in_run then sub_space_runs true s'
            else String " " (sub_space_runs true s'))
      else String c (sub_space_runs false s')
  end.

(** [s[n:]]. *)
Fixpoint drop_chars (n : nat) (s : string) : string :=
  match n, s with
  | O, _ => s
  | S n', String _ s' => drop_chars n' s'
  | S _, EmptyString => EmptyString
  end.

(** [re.sub(r'^(UPI|PAYTM|PHONEPE|GPAY)\s*', '', s, flags=re.IGNORECASE)]:
    the first alternative that starts the text goes, with the white space
    after it. *)
Fixpoint strip_prefix_of (prefixes : list string) (s : string) : string :=
  match prefixes with
  | [] => s
  | p :: rest =>
      if String.prefix p (PyStr.upper s)
      then PyStr.lstrip (drop_chars (String.length p) s)
      else strip_prefix_of rest s
  end.

(** The characters of [s] from the end: the last run of non-space
    characters and what is before it, both reversed. *)
Fixpoint span_chars (P : ascii -> bool) (l : list ascii)
    : list ascii * list ascii :=
  match l with
  | [] => ([], [])
  | c :: rest =>
      if P c then let '(a, b) := span_chars P rest in (c :: a, b)
      else ([], l)
  end.

(** [re.sub(r'\s+TAIL$', '', s)] where [TAIL] is a shape of the last run of
    non-space characters: that run goes, with the white space before it,
    when there is white space before it and [tail_ok] accepts the run.  The
    text has no newline at this point, so [$] is the end of the text. *)
Definition cut_trailing (tail_ok : list ascii -> bool) (s : string) : string :=
  let r := rev (list_ascii_of_string s) in
  let '(tail_rev, before) := span_chars (fun c => negb (PyStr.is_space c)) r in
  let '(spaces, rest) := span_chars PyStr.is_space before in
  match spaces with
  | [] => s
  | _ :: _ =>
      if tail_ok (rev tail_rev)
      then string_of_list_ascii (rev rest)
      else s
  end.

(** [@\S+]: an at sign and at least one more character. *)
Definition is_at_id (tail : list ascii) : bool :=
  match tail with
  | c :: _ :: _ => Ascii.eqb c "@"%char
  | _ => false
  end.

(** [\d+]. *)
Definition is_digits (tail : list ascii) : bool :=
  match tail with
  | [] => false
  | _ :: _ => forallb PyStr.is_digit tail
  end.

Definition normalize_merchant_name (merchant : string) : string :=
  if negb (PyStr.truthy merchant) then ""
  else
    let normalized := PyStr.strip (PyStr.upper merchant) in
    let normalized :=
      PyStr.remove_chars
        (fun c => negb (PyStr.is_upper c || PyStr.is_digit c || PyStr.is_space c))
        normalized in
    let normalized := sub_space_runs false normalized in
    let normalized :=
      strip_prefix_of ["UPI"; "PAYTM"; "PHONEPE"; "GPAY"] normalized in
    let normalized := cut_trailing is_at_id normalized in
    let normalized := cut_trailing is_digits normalized in
    PyStr.strip normalized.

End MerchantExtractor.

(** [routers/transactions.py], [_ensure_category_pair]. *)
Module Transactions.

(** The value of the function, or the [HTTPException] of status 400 it
    raises, with its detail. *)
Inductive checked (A : Type) : Type :=
  | Checked (a : A)
  | BadRequest (detail : string).
Arguments Checked {A} a.
Arguments BadRequest {A} detail.

Definition find_active_category (st : Store) (code : string)
    : option DimCategory.t :=
  List.find (fun c => bool_decide (DimCategory.category_code c = code)
                      && DimCategory.active c)
    (dim_category st).

Definition find_active_subcategory (st : Store) (code : string)
    : option DimSubcategory.t :=
  List.find (fun s => bool_decide (DimSubcategory.subcategory_code s = code)
                      && DimSubcategory.active s)
    (dim_subcategory st).

Definition find_category (st : Store) (code : string) : option DimCategory.t :=
  List.find (fun c => bool_decide (DimCategory.category_code c = code))
    (dim_category st).

Definition _ensure_category_pair (st : Store)
    (category_code subcategory_code : option string)
    : checked (option string * option string) :=
  if negb (PyStr.otruthy category_code) && negb (PyStr.otruthy subcategory_code)
  then Checked (None, None)
  else
    let finish (cat : option DimCategory.t) :=
      match (if PyStr.otruthy subcategory_code
             then Some (find_active_subcategory st (default "" subcategory_code))
             else None) with
      | Some None =>
          BadRequest ("Unknown subcategory_code '"
                      ++ default "" subcategory_code ++ "'")
      | Some (Some sub) =>
          match cat with
          | Some cat =>
              if negb (String.eqb (DimSubcategory.category_code sub)
                         (DimCategory.category_code cat))
              then BadRequest ("subcategory_code '"
                               ++ default "" subcategory_code
                               ++ "' does not belong to category_code '"
                               ++ default "" category_code ++ "'")
              else Checked (Some (DimCategory.category_code cat),
                            Some (DimSubcategory.subcategory_code sub))
          | None =>
              Checked (DimCategory.category_code
                         <$> find_category st (DimSubcategory.category_code sub),
                       Some (DimSubcategory.subcategory_code sub))
          end
      | None => Checked (DimCategory.category_code <$> cat, None)
      end in
    if PyStr.otruthy category_code
    then
      match find_active_category st (default "" category_code) with
      | None =>
          BadRequest ("Unknown category_code '"
                      ++ default "" category_code ++ "'")
      | Some cat => finish (Some cat)
      end
    else finish None.

End Transactions.

(** The codes of [dim_category]. *)
Definition category_codes (st : Store) : list string :=
  DimCategory.category_code <$> dim_category st.

(** The fingerprints of [txn_fact], the column under the unique index
    [ux_txn_fact_dedupe_fp]. *)
Definition fingerprints (st : Store) : list string :=
  omap TxnFact.dedupe_fp (txn_fact st).

(** What the loader writes for one staging row of [user_id]: a fact and the
    enrichment that points to it. *)
Definition loaded_pair (user_id : string) (f : TxnFact.t) (e : TxnEnriched.t)
    : Prop :=
  TxnEnriched.txn_id e = TxnFact.txn_id f
  /\ TxnFact.user_id f = user_id
  /\ TxnFact.source_type f = "file"%string
  /\ TxnFact.ingested_via f = Some "file"%string
  /\ TxnFact.raw_source_id f = Some (TxnFact.upload_id f)
  /\ PyStr.truthy (TxnFact.currency f) = true
  /\ is_Some (TxnFact.dedupe_fp f)
  /\ TxnEnriched.matched_rule_id e = None.

(** The references of an enrichment resolve in the dimensions of [st]. *)
Definition references_resolve (st : Store) (e : TxnEnriched.t) : Prop :=
  (exists code, TxnEnriched.category_code e = Some code
                /\ PyStr.truthy code = true
                /\ code ∈ category_codes st)
  /\ (forall sc, TxnEnriched.subcategory_code e = Some sc ->
                 sc ∈ (DimSubcategory.subcategory_code <$> dim_subcategory st)).

(** ** More sample data *)

(** A rule of tenant "t1" that was switched off. *)
Definition rule_t1_inactive : MerchantRule :=
  {| rule_id := "rt1";
     priority := 40;
     applies_to := Merchant;
     pattern_regex := "AMAZON";
     pattern_hash := Some "AMAZON";
     category_code := Some "nightlife";
     subcategory_code := Some "food_delivery";
     created_by := Some "ops";
     tenant_id := Some "t1";
     source := Ops;
     active := false;
     created_at := 7 |}.

Definition tenant_store : Store :=
  with_merchant_rules empty_store [rule_amazon_10; rule_t1_inactive].

(** Two staging rows of one transaction. *)
Definition twin_row_store : Store :=
  with_txn_staging empty_store
    [sample_row "a" "AMAZON PAY"; sample_row "b" "AMAZON PAY"].

(** A rule for a category that is not in the dimension yet. *)
Definition rule_travel : MerchantRule :=
  sample_rule "r50" 50 Merchant "AMAZON" "travel" None 100.

(** Rules for the exceptions of [re.search]: a pattern with an unclosed
    group ([re.error]), a pattern whose repetition count is beyond the limit
    of the engine ([OverflowError]), and a valid pattern. *)
Definition rule_unclosed : MerchantRule :=
  sample_rule "r60" 5 Merchant "AMAZON(" "travel" None 300.
Definition rule_amazons : MerchantRule :=
  sample_rule "r61" 10 Merchant "AMAZONS" "shopping" None 200.
Definition rule_overflow : MerchantRule :=
  sample_rule "r62" 5 Merchant "a{4294967296}" "travel" None 300.

Definition repeat_overflow : exn :=
  Exn OverflowError "the repetition number is too large".

Definition sample_re_call (pattern text : string) : re_call :=
  if String.eqb pattern "a{4294967296}" then Unhandled repeat_overflow
  else if String.eqb pattern "AMAZON(" then Handled ReError
  else Handled (sample_re_search pattern text).

(** [SequenceMatcher.ratio] of "AMAZN" and the texts of the two rules. *)
Definition sample_ratio_amazn (a b : string) : Q :=
  if String.eqb b "AMAZON" then 10 # 11
  else if String.eqb b "AMAZONS" then 10 # 12
  else 0.

(** * Properties *)

(** ** Sanity checks of the string helpers *)

Example split_example :
  PyStr.split "  AMAZON  PAY India " = ["AMAZON"; "PAY"; "India"].
Proof. reflexivity. Qed.

Example strip_example : PyStr.strip "  a b  " = "a b".
Proof. reflexivity. Qed.

Example sub_non_alnum_example :
  PyStr.sub_non_alnum false "Amazon-Pay, India" = "Amazon Pay India".
Proof. reflexivity. Qed.

Example title_example :
  title_from false (replace_char "_"%char " "%char "auto_taxi") = "Auto Taxi".
Proof. reflexivity. Qed.

Example merchant_pattern_example :
  merchant_pattern (Some "Amazon Pay India")
  = Some ("(?i)" ++ backslash ++ "bAmazon.*Pay.*India" ++ backslash ++ "b").
Proof. reflexivity. Qed.

Example desc_pattern_example :
  desc_pattern (Some "UPI-AMAZON PAY INDIA-1234") = Some "(?i).*UPI.*AMAZON.*PAY.*".
Proof. reflexivity. Qed.

Example pattern_text_example :
  pattern_text_of ("(?i)" ++ backslash ++ "bAmazon.*Pay" ++ backslash ++ "b")
  = "AMAZONPAY".
Proof. reflexivity. Qed.

(** ** The regex walk *)

Local Open Scope list_scope.

Section MatcherFacts.

Variable re_search : string -> string -> re_outcome.
Variable seq_ratio : string -> string -> Q.


Lemma try_rule_rule m d x hit : try_rule re_search m d x = Some hit -> rule hit = rule x.
Proof.
  unfold try_rule. intros H.
  repeat (case_match; simplify_eq/=; try done).
Qed.

Lemma try_rule_to_dict m d x :
  is_Some (try_rule re_search m d x) <-> is_Some (try_rule re_search m d (to_dict (rule x))).
Proof.
  unfold try_rule, to_dict; simpl.
  repeat (case_match; simplify_eq/=); split; intros [? ?]; simplify_eq; eauto.
Qed.

Lemma match_regex_none rules m d :
  match_regex re_search rules m d = None <-> Forall (fun x => try_rule re_search m d x = None) rules.
Proof.
  induction rules as [|x rest IH]; simpl.
  - split; [constructor | done].
  - destruct (try_rule re_search m d x) eqn:E.
    + split; [done | intros H; inversion H; congruence].
    + rewrite IH. split; [by constructor | intros H; by inversion H].
Qed.

Lemma match_regex_some rules m d hit :
  match_regex re_search rules m d = Some hit <->
  exists l1 x l2, rules = l1 ++ x :: l2
    /\ Forall (fun y => try_rule re_search m d y = None) l1
    /\ try_rule re_search m d x = Some hit.
Proof.
  induction rules as [|x rest IH]; simpl.
  - split; [done | intros (l1 & y & l2 & E & _); by destruct l1].
  - destruct (try_rule re_search m d x) eqn:E.
    + split.
      * intros [= <-]. exists [], x, rest. by split_and!.
      * intros (l1 & y & l2 & Eq & Hno & Hy).
        destruct l1 as [|z l1]; simplify_eq/=; [congruence|].
        inversion Hno; congruence.
    + rewrite IH. split.
      * intros (l1 & y & l2 & -> & Hno & Hy).
        exists (x :: l1), y, l2. split_and!; [done | by constructor | done].
      * intros (l1 & y & l2 & Eq & Hno & Hy).
        destruct l1 as [|z l1]; simplify_eq/=.
        exists l1, y, l2. split_and!; [done | by inversion Hno | done].
Qed.

Lemma match_regex_skip l1 x l2 m d :
  try_rule re_search m d x = None ->
  match_regex re_search (l1 ++ x :: l2) m d = match_regex re_search (l1 ++ l2) m d.
Proof.
  intros Hx. induction l1 as [|y l1 IH]; simpl.
  - by rewrite Hx.
  - by rewrite IH.
Qed.

Lemma query_rules_elem tenant table x :
  x ∈ query_rules tenant table <->
  exists r, x = to_dict r /\ r ∈ table /\ in_scope tenant r = true.
Proof.
  unfold query_rules. rewrite list_elem_of_fmap. split.
  - intros (r & -> & Hr). exists r. split; [done|].
    rewrite merge_sort_Permutation in Hr.
    by apply list_elem_of_filter in Hr as [? ?].
  - intros (r & -> & Hr & Hs). exists r. split; [done|].
    rewrite merge_sort_Permutation. by apply list_elem_of_filter.
Qed.

Lemma query_rules_sorted tenant table :
  StronglySorted rule_before (rule <$> query_rules tenant table).
Proof.
  unfold query_rules. rewrite <- list_fmap_compose.
  change (rule ∘ to_dict) with (@id MerchantRule).
  rewrite list_fmap_id. apply (StronglySorted_merge_sort _).
Qed.

Lemma rule_before_refl r : rule_before r r.
Proof. unfold rule_before. lia. Qed.

(** C4: when an active rule in scope regex-matches the input, the matcher
    returns the first regex match of the list ordered by priority ascending
    and creation time descending: the returned rule has the lowest priority
    number among the matching rules and, among those of equal priority, the
    latest creation time; the walk stops at that rule. *)
Theorem match_merchant_priority_order (now : Z) (c : gmap string cache_entry)
    (table : list MerchantRule) (tenant : option string) (use_cache : bool)
    (m d : option string) (r1 : MerchantRule) :
  (if use_cache then _get_from_cache now c (merchant_rules_key tenant) else None)
    = None ->
  r1 ∈ table -> in_scope tenant r1 = true -> regex_matches re_search m d r1 ->
  exists hit,
    (match_merchant re_search seq_ratio now c (Ok table) m d tenant use_cache).1 = Ok (Some hit)
    /\ rule hit ∈ table
    /\ regex_matches re_search m d (rule hit)
    /\ (forall r', r' ∈ table -> in_scope tenant r' = true ->
                   regex_matches re_search m d r' -> rule_before (rule hit) r')
    /\ exists l1 x l2,
         query_rules tenant table = l1 ++ x :: l2
         /\ Forall (fun y => try_rule re_search m d y = None) l1
         /\ try_rule re_search m d x = Some hit.
Proof.
  intros Hmiss Hin Hscope [h1 Hh1].
  unfold match_merchant, get_merchant_rules. rewrite Hmiss. simpl.
  assert (Hr1 : to_dict r1 ∈ query_rules tenant table).
  { apply query_rules_elem. by exists r1. }
  destruct (match_regex re_search (query_rules tenant table) m d)
    as [hit|] eqn:Hwalk; last first.
  { apply match_regex_none in Hwalk. rewrite Forall_forall in Hwalk.
    specialize (Hwalk _ Hr1). congruence. }
  exists hit. unfold match_rules. rewrite Hwalk.
  pose proof Hwalk as Hfirst.
  apply match_regex_some in Hfirst as (l1 & x & l2 & Hsplit & Hno & Hx).
  assert (Hxin : x ∈ query_rules tenant table).
  { rewrite Hsplit. apply elem_of_app. right. apply elem_of_cons. by left. }
  apply query_rules_elem in Hxin as (rx & -> & Hrx & Hsx).
  pose proof (try_rule_rule _ _ _ _ Hx) as Hrule. simpl in Hrule.
  split_and!.
  - done.
  - by rewrite Hrule.
  - rewrite Hrule. by exists hit.
  - intros r' Hr' Hs' [h' Hh'].
    assert (Hd : to_dict r' ∈ l1 ++ to_dict rx :: l2).
    { rewrite <- Hsplit. apply query_rules_elem. by exists r'. }
    rewrite Hrule.
    apply elem_of_app in Hd as [Hd | Hd].
    + rewrite Forall_forall in Hno. specialize (Hno _ Hd). congruence.
    + apply elem_of_cons in Hd as [Hd | Hd].
      * assert (r' = rx) as -> by (by injection Hd). apply rule_before_refl.
      * pose proof (query_rules_sorted tenant table) as Hsorted.
        rewrite Hsplit, fmap_app, fmap_cons in Hsorted.
        apply StronglySorted_app_1_r in Hsorted.
        apply StronglySorted_inv in Hsorted as [_ Hall].
        rewrite Forall_forall in Hall.
        apply (Hall r'). apply list_elem_of_fmap. by exists (to_dict r').
  - by exists l1, (to_dict rx), l2.
Qed.

(** ** The fuzzy fallback *)

Lemma Qltb_lt a b : Qltb a b = true <-> (a < b)%Q.
Proof.
  unfold Qltb. rewrite negb_true_iff, <- not_true_iff_false, Qle_bool_iff.
  split; [apply Qnot_le_lt | apply Qlt_not_le].
Qed.

Lemma Qltb_ge a b : Qltb a b = false <-> (b <= a)%Q.
Proof.
  unfold Qltb. rewrite negb_false_iff. apply Qle_bool_iff.
Qed.

Lemma py_max_ge a b : (a <= py_max a b)%Q.
Proof.
  unfold py_max. destruct (Qltb a b) eqn:E.
  - apply Qltb_lt in E. by apply Qlt_le_weak.
  - apply Qle_refl.
Qed.

Lemma fuzzy_candidate_inv mu x s :
  fuzzy_candidate seq_ratio mu x = Some s ->
  applies_to (rule x) = Merchant
  /\ (3 <= String.length (pattern_text_of (pattern_regex (rule x))))%nat
  /\ s = similarity seq_ratio mu (pattern_text_of (pattern_regex (rule x)))
  /\ (seq_ratio mu (pattern_text_of (pattern_regex (rule x))) <= s)%Q.
Proof.
  unfold fuzzy_candidate. intros H.
  destruct (applies_to (rule x)); [|done].
  destruct (negb (PyStr.truthy (pattern_regex (rule x)))); [done|].
  destruct (negb _ || _) eqn:E; [done|].
  apply orb_false_iff in E as [_ E]. apply Nat.ltb_ge in E.
  injection H as <-. split_and!; [done | done | done |].
  unfold similarity. case_match; [apply py_max_ge | apply Qle_refl].
Qed.

Lemma fuzzy_loop_spec (m mu : string) (rules : list RuleDict)
    (bm : option RuleDict) (bs : Q) :
  (fuzzy_loop seq_ratio m mu rules bm bs = bm
   /\ forall x s, x ∈ rules -> fuzzy_candidate seq_ratio mu x = Some s ->
                  (s <= bs)%Q)
  \/ (exists l1 x l2 s,
        rules = l1 ++ x :: l2
        /\ fuzzy_candidate seq_ratio mu x = Some s
        /\ (bs < s)%Q
        /\ fuzzy_loop seq_ratio m mu rules bm bs = Some (fuzzy_hit m x s)
        /\ (forall y s', y ∈ l1 -> fuzzy_candidate seq_ratio mu y = Some s' ->
                         (s' < s)%Q)
        /\ (forall y s', y ∈ l2 -> fuzzy_candidate seq_ratio mu y = Some s' ->
                         (s' <= s)%Q)).
Proof.
  revert bm bs. induction rules as [|r rest IH]; intros bm bs; simpl.
  - left. split; [done|]. intros x s Hx. by apply elem_of_nil in Hx.
  - destruct (fuzzy_candidate seq_ratio mu r) as [sim|] eqn:Hr.
    + destruct (Qltb bs sim) eqn:Hcmp.
      * apply Qltb_lt in Hcmp.
        destruct (IH (Some (fuzzy_hit m r sim)) sim)
          as [[Heq Hall] | (l1 & x & l2 & s & -> & Hx & Hlt & Heq & H1 & H2)].
        -- right. exists [], r, rest, sim. split_and!; try done.
           intros y s' Hy. by apply elem_of_nil in Hy.
        -- right. exists (r :: l1), x, l2, s. split_and!; try done.
           ++ by apply Qlt_trans with sim.
           ++ intros y s' Hy Hc. apply elem_of_cons in Hy as [-> | Hy].
              ** by simplify_eq.
              ** by apply (H1 y).
      * apply Qltb_ge in Hcmp.
        destruct (IH bm bs)
          as [[Heq Hall] | (l1 & x & l2 & s & -> & Hx & Hlt & Heq & H1 & H2)].
        -- left. split; [done|]. intros y s' Hy Hc.
           apply elem_of_cons in Hy as [-> | Hy]; [by simplify_eq | by apply (Hall y)].
        -- right. exists (r :: l1), x, l2, s. split_and!; try done.
           intros y s' Hy Hc. apply elem_of_cons in Hy as [-> | Hy].
           ++ simplify_eq. by apply Qle_lt_trans with bs.
           ++ by apply (H1 y).
    + destruct (IH bm bs)
        as [[Heq Hall] | (l1 & x & l2 & s & -> & Hx & Hlt & Heq & H1 & H2)].
      * left. split; [done|]. intros y s' Hy Hc.
        apply elem_of_cons in Hy as [-> | Hy]; [congruence | by apply (Hall y)].
      * right. exists (r :: l1), x, l2, s. split_and!; try done.
        intros y s' Hy Hc. apply elem_of_cons in Hy as [-> | Hy];
          [congruence | by apply (H1 y)].
Qed.

(** C5, amended: for a non-empty merchant that no regex rule matches, the
    candidates of the fuzzy fallback are the merchant-scoped rules whose
    pattern leaves a text of at least 3 characters once the regex syntax is
    stripped.  Each is scored by the sequence similarity of the upper-cased
    merchant and that text, raised by the word overlap, and the first rule
    of the list whose score is the greatest is returned when that score is
    strictly above 0.75.  A candidate scoring 0.80 gives a match; candidates
    that all score 0.70 give none; on a list in priority order, a tie goes
    to the lower priority number. *)
Theorem fuzzy_fallback_threshold (rules : list RuleDict) (m : string)
    (d : option string) :
  PyStr.truthy m = true ->
  match_regex re_search rules (Some m) d = None ->
  let mu := PyStr.strip (PyStr.upper m) in
  let res := match_rules re_search seq_ratio rules (Some m) d in
  (forall hit, res = Some hit ->
     exists l1 x l2 s,
       rules = l1 ++ x :: l2
       /\ hit = fuzzy_hit m x s
       /\ applies_to (rule x) = Merchant
       /\ (3 <= String.length (pattern_text_of (pattern_regex (rule x))))%nat
       /\ s = similarity seq_ratio mu (pattern_text_of (pattern_regex (rule x)))
       /\ (seq_ratio mu (pattern_text_of (pattern_regex (rule x))) <= s)%Q
       /\ (best_score_threshold < s)%Q
       /\ (forall y s', y ∈ l1 -> fuzzy_candidate seq_ratio mu y = Some s' ->
                        (s' < s)%Q)
       /\ (forall y s', y ∈ l2 -> fuzzy_candidate seq_ratio mu y = Some s' ->
                        (s' <= s)%Q)
       /\ (StronglySorted rule_before (rule <$> rules) ->
           forall y s', y ∈ rules -> fuzzy_candidate seq_ratio mu y = Some s' ->
                        (s' == s)%Q ->
                        (priority (rule hit) <= priority (rule y))%Z))
  /\ (res = None <->
      forall x s, x ∈ rules -> fuzzy_candidate seq_ratio mu x = Some s ->
                  (s <= best_score_threshold)%Q)
  /\ (forall x s, x ∈ rules -> fuzzy_candidate seq_ratio mu x = Some s ->
                  (s == 80 # 100)%Q -> is_Some res)
  /\ ((forall x s, x ∈ rules -> fuzzy_candidate seq_ratio mu x = Some s ->
                   (s == 70 # 100)%Q) ->
      res = None).
Proof.
  intros Hm Hwalk mu res.
  assert (Hres : res = fuzzy_loop seq_ratio m mu rules None best_score_threshold).
  { unfold res, match_rules. by rewrite Hwalk, Hm. }
  assert (Hnone : res = None <->
            forall x s, x ∈ rules -> fuzzy_candidate seq_ratio mu x = Some s ->
                        (s <= best_score_threshold)%Q).
  { rewrite Hres.
    destruct (fuzzy_loop_spec m mu rules None best_score_threshold)
      as [[Heq Hall] | (l1 & x & l2 & s & Hsplit & Hx & Hlt & Heq & H1 & H2)].
    - by rewrite Heq.
    - rewrite Heq. split; [done|]. intros Hall. exfalso.
      apply (Qlt_not_le _ _ Hlt). apply (Hall x); [|done].
      rewrite Hsplit. apply elem_of_app. right. apply elem_of_cons. by left. }
  split_and!.
  - intros hit Hhit. rewrite Hres in Hhit.
    destruct (fuzzy_loop_spec m mu rules None best_score_threshold)
      as [[Heq Hall] | (l1 & x & l2 & s & Hsplit & Hx & Hlt & Heq & H1 & H2)].
    { congruence. }
    exists l1, x, l2, s.
    destruct (fuzzy_candidate_inv _ _ _ Hx) as (Happ & Hlen & Hs & Hge).
    assert (hit = fuzzy_hit m x s) as -> by congruence.
    split_and!; try done.
    intros Hsorted y s' Hy Hc Htie. simpl.
    rewrite Hsplit in Hy. apply elem_of_app in Hy as [Hy | Hy].
    + exfalso. specialize (H1 _ _ Hy Hc). rewrite Htie in H1.
      by apply Qlt_irrefl in H1.
    + apply elem_of_cons in Hy as [-> | Hy]; [lia|].
      rewrite Hsplit, fmap_app, fmap_cons in Hsorted.
      apply StronglySorted_app_1_r in Hsorted.
      apply StronglySorted_inv in Hsorted as [_ Hall].
      rewrite Forall_forall in Hall.
      assert (Hb : rule_before (rule x) (rule y)).
      { apply Hall. apply list_elem_of_fmap. by exists y. }
      unfold rule_before in Hb. lia.
  - done.
  - intros x s Hx Hc Hs.
    destruct res as [hit|] eqn:E; [by exists hit|]. exfalso.
    assert (Hle : (s <= best_score_threshold)%Q).
    { apply (proj1 Hnone eq_refl x); done. }
    rewrite Hs in Hle. by vm_compute in Hle.
  - intros Hall. apply Hnone. intros x s Hx Hc.
    rewrite (Hall x s Hx Hc). by vm_compute.
Qed.

End MatcherFacts.

(** ** A rule whose pattern does not compile *)

Section RaisingFacts.

Variable re_search : string -> string -> re_call.
Variable seq_ratio : string -> string -> Q.

Lemma raising_try_rule_re_error (m d : option string) (x : RuleDict) :
  (forall text, re_search (pattern_regex (rule x)) text = Handled ReError) ->
  Raising.try_rule re_search m d x = Ok None.
Proof.
  intros Hbad. unfold Raising.try_rule.
  destruct (negb (PyStr.truthy (pattern_regex (rule x)))); [done|].
  destruct (applies_to (rule x)).
  - destruct m as [mm|]; [|done]. destruct (PyStr.truthy mm); [|done].
    by rewrite Hbad.
  - destruct d as [t|]; [|done]. destruct (PyStr.truthy t); [|done].
    by rewrite Hbad.
Qed.

Lemma raising_match_regex_skip l1 x l2 m d :
  Raising.try_rule re_search m d x = Ok None ->
  Raising.match_regex re_search (l1 ++ x :: l2) m d
  = Raising.match_regex re_search (l1 ++ l2) m d.
Proof.
  intros Hx. induction l1 as [|y l1 IH]; simpl.
  - by rewrite Hx.
  - by rewrite IH.
Qed.

(** A loop that starts from a higher bar ends on its own start or where
    the loop from the lower bar ends. *)
Lemma fuzzy_loop_higher_bar (name mu : string) (l : list RuleDict)
    (best best' : option RuleDict) (bs bs' : Q) :
  (bs <= bs')%Q ->
  fuzzy_loop seq_ratio name mu l best' bs' = best'
  \/ fuzzy_loop seq_ratio name mu l best' bs'
     = fuzzy_loop seq_ratio name mu l best bs.
Proof.
  revert best best' bs bs'.
  induction l as [|y rest IH]; intros best best' bs bs' Hle; simpl; [by left|].
  destruct (fuzzy_candidate seq_ratio mu y) as [sim|]; [|by apply IH].
  destruct (Qltb bs' sim) eqn:E1.
  - apply Qltb_lt in E1.
    assert (Qltb bs sim = true) as ->
      by (apply Qltb_lt; by eapply Qle_lt_trans).
    by right.
  - apply Qltb_ge in E1. destruct (Qltb bs sim); by apply IH.
Qed.

(** The fuzzy loop on a list with one more rule ends where it ends without
    the rule, or on that rule. *)
Lemma fuzzy_loop_insert (name mu : string) (l1 l2 : list RuleDict)
    (x : RuleDict) (best : option RuleDict) (bs : Q) :
  fuzzy_loop seq_ratio name mu (l1 ++ x :: l2) best bs
  = fuzzy_loop seq_ratio name mu (l1 ++ l2) best bs
  \/ exists s,
       fuzzy_candidate seq_ratio mu x = Some s
       /\ (bs < s)%Q
       /\ fuzzy_loop seq_ratio name mu (l1 ++ x :: l2) best bs
          = Some (fuzzy_hit name x s).
Proof.
  revert best bs. induction l1 as [|y l1 IH]; intros best bs; simpl.
  - destruct (fuzzy_candidate seq_ratio mu x) as [s|]; [|by left].
    destruct (Qltb bs s) eqn:E; [|by left]. apply Qltb_lt in E.
    destruct (fuzzy_loop_higher_bar name mu l2 best
                (Some (fuzzy_hit name x s)) bs s (Qlt_le_weak _ _ E))
      as [H | H]; [right; by exists s | by left].
  - destruct (fuzzy_candidate seq_ratio mu y) as [sim|]; [|by apply IH].
    destruct (Qltb bs sim) eqn:E; [|by apply IH]. apply Qltb_lt in E.
    destruct (IH (Some (fuzzy_hit name y sim)) sim)
      as [H | (s & Hs & Hlt & H)]; [by left|].
    right. exists s. split_and!; [done | by eapply Qlt_trans | done].
Qed.

(** On a search that raises nothing but [re.error] the matcher is the one
    of the sections above. *)
Lemma raising_matcher_agrees (search : string -> string -> re_outcome)
    (rules : list RuleDict) (m d : option string) :
  Raising.match_rules (fun p t => Handled (search p t)) seq_ratio rules m d
  = Ok (match_rules search seq_ratio rules m d).
Proof.
  assert (Htry : forall x,
    Raising.try_rule (fun p t => Handled (search p t)) m d x
    = Ok (try_rule search m d x)).
  { intros x. unfold Raising.try_rule, try_rule.
    repeat (case_match; simplify_eq/=; try done). }
  assert (Hwalk :
    Raising.match_regex (fun p t => Handled (search p t)) rules m d
    = Ok (match_regex search rules m d)).
  { induction rules as [|x rest IH]; simpl; [done|].
    rewrite Htry. by destruct (try_rule search m d x). }
  unfold Raising.match_rules, match_rules. rewrite Hwalk.
  by destruct (match_regex search rules m d).
Qed.

(** C9, amended: a rule whose pattern [re.search] rejects with [re.error]
    is skipped by the regex pass, which goes on: its turn does not raise,
    the pass gives what it gives on the list without the rule, a rule that
    regex-matches is still returned, and the match raises exactly when it
    raises without the rule.  The fuzzy fallback does not skip the rule:
    the match is the one of the list without the rule, or, when no rule
    regex-matches, a fuzzy hit on the rule itself, scored above 0.75 on
    what is left of its pattern. *)
Theorem invalid_pattern_skipped_by_regex_pass (l1 l2 : list RuleDict)
    (x : RuleDict) (m d : option string) :
  (forall text, re_search (pattern_regex (rule x)) text = Handled ReError) ->
  Raising.try_rule re_search m d x = Ok None
  /\ Raising.match_regex re_search (l1 ++ x :: l2) m d
     = Raising.match_regex re_search (l1 ++ l2) m d
  /\ (forall hit,
        Raising.match_regex re_search (l1 ++ l2) m d = Ok (Some hit) ->
        Raising.match_rules re_search seq_ratio (l1 ++ x :: l2) m d
        = Ok (Some hit))
  /\ (forall e,
        Raising.match_rules re_search seq_ratio (l1 ++ x :: l2) m d = Raise e
        <-> Raising.match_rules re_search seq_ratio (l1 ++ l2) m d = Raise e)
  /\ (Raising.match_rules re_search seq_ratio (l1 ++ x :: l2) m d
      = Raising.match_rules re_search seq_ratio (l1 ++ l2) m d
      \/ exists name s,
           m = Some name
           /\ PyStr.truthy name = true
           /\ Raising.match_regex re_search (l1 ++ l2) m d = Ok None
           /\ fuzzy_candidate seq_ratio (PyStr.strip (PyStr.upper name)) x
              = Some s
           /\ (best_score_threshold < s)%Q
           /\ Raising.match_rules re_search seq_ratio (l1 ++ x :: l2) m d
              = Ok (Some (fuzzy_hit name x s))).
Proof.
  intros Hbad.
  pose proof (raising_try_rule_re_error m d x Hbad) as Hx.
  pose proof (raising_match_regex_skip l1 x l2 m d Hx) as Hskip.
  assert (Hcases :
    Raising.match_rules re_search seq_ratio (l1 ++ x :: l2) m d
    = Raising.match_rules re_search seq_ratio (l1 ++ l2) m d
    \/ exists name s,
         m = Some name
         /\ PyStr.truthy name = true
         /\ Raising.match_regex re_search (l1 ++ l2) m d = Ok None
         /\ fuzzy_candidate seq_ratio (PyStr.strip (PyStr.upper name)) x
            = Some s
         /\ (best_score_threshold < s)%Q
         /\ Raising.match_rules re_search seq_ratio (l1 ++ x :: l2) m d
            = Ok (Some (fuzzy_hit name x s))).
  { unfold Raising.match_rules. rewrite Hskip.
    destruct (Raising.match_regex re_search (l1 ++ l2) m d)
      as [[hit|]|e] eqn:Hwalk; [by left | | by left].
    destruct m as [name|]; [|by left].
    destruct (PyStr.truthy name) eqn:Hname; [|by left].
    unfold _fuzzy_match_merchant.
    destruct (fuzzy_loop_insert name (PyStr.strip (PyStr.upper name)) l1 l2 x
                None best_score_threshold) as [-> | (s & Hs & Hlt & ->)];
      [by left|].
    right. by exists name, s. }
  split_and!; [done | done | | | done].
  - intros hit Hhit. unfold Raising.match_rules. by rewrite Hskip, Hhit.
  - intros e. destruct Hcases as [-> | (name & s & _ & _ & Hnone & _ & _ & Hhit)];
      [done|].
    rewrite Hhit. unfold Raising.match_rules. rewrite Hnone.
    split; intros H; discriminate H.
Qed.

End RaisingFacts.

Lemma invalid_pattern_skipped_by_regex_pass_witness :
  Raising.try_rule sample_re_call (Some "AMAZON PAY"%string) None
    (to_dict rule_unclosed) = Ok None
  /\ Raising.match_rules sample_re_call sample_ratio_amazn
       ([] ++ to_dict rule_unclosed :: [to_dict rule_amazon_10])
       (Some "AMAZON PAY"%string) None
     = Ok (Some (set_matched_text (to_dict rule_amazon_10) "AMAZON PAY")).
Proof.
  destruct (invalid_pattern_skipped_by_regex_pass sample_re_call
              sample_ratio_amazn [] [to_dict rule_amazon_10]
              (to_dict rule_unclosed) (Some "AMAZON PAY"%string) None)
    as (Hturn & _ & Hhit & _).
  - intros text. reflexivity.
  - split; [exact Hturn|]. apply Hhit. reflexivity.
Defined.

(** C9 fails as stated: the rule "r60", whose pattern has an unclosed
    group, is not skipped by the Matcher.  For the merchant "AMAZN" no rule
    regex-matches; without "r60" the fuzzy fallback returns the valid rule
    "r61", with it the Matcher returns "r60". *)
Lemma invalid_rule_wins_fuzzy_fallback :
  sample_re_call (pattern_regex rule_unclosed) "AMAZN" = Handled ReError
  /\ Raising.match_rules sample_re_call sample_ratio_amazn
       [to_dict rule_amazons] (Some "AMAZN"%string) None
     = Ok (Some (fuzzy_hit "AMAZN" (to_dict rule_amazons) (10 # 12)))
  /\ Raising.match_rules sample_re_call sample_ratio_amazn
       [to_dict rule_unclosed; to_dict rule_amazons] (Some "AMAZN"%string) None
     = Ok (Some (fuzzy_hit "AMAZN" (to_dict rule_unclosed) (10 # 11))).
Proof. split_and!; reflexivity. Qed.

(** A pattern whose repetition count is beyond the limit of the engine
    makes [re.search] raise [OverflowError], which is no [re.error]: the
    exception leaves [match_merchant], and the rule "r10", which matches
    when it is alone, is not reached. *)
Example overflowing_pattern_raises_out :
  (Raising.match_merchant sample_re_call sample_ratio_amazn 0 ∅
     (Ok [rule_amazon_10]) (Some "AMAZON PAY"%string) None None true).1
  = Ok (Some (set_matched_text (to_dict rule_amazon_10) "AMAZON PAY"))
  /\ (Raising.match_merchant sample_re_call sample_ratio_amazn 0 ∅
        (Ok [rule_amazon_10; rule_overflow]) (Some "AMAZON PAY"%string) None
        None true).1
     = Raise repeat_overflow.
Proof. split; reflexivity. Qed.

Lemma match_merchant_priority_order_witness :
  exists hit,
    (match_merchant sample_re_search sample_ratio_080 0 ∅ (Ok sample_table)
       (Some "AMAZON PAY") None None true).1 = Ok (Some hit)
    /\ rule hit ∈ sample_table
    /\ regex_matches sample_re_search (Some "AMAZON PAY") None (rule hit)
    /\ (forall r', r' ∈ sample_table -> in_scope None r' = true ->
                   regex_matches sample_re_search (Some "AMAZON PAY") None r' ->
                   rule_before (rule hit) r')
    /\ exists l1 x l2,
         query_rules None sample_table = l1 ++ x :: l2
         /\ Forall (fun y => try_rule sample_re_search (Some "AMAZON PAY") None y = None) l1
         /\ try_rule sample_re_search (Some "AMAZON PAY") None x = Some hit.
Proof.
  apply (match_merchant_priority_order sample_re_search sample_ratio_080 0 ∅
           sample_table None true (Some "AMAZON PAY") None rule_amazon_20).
  - reflexivity.
  - unfold sample_table. apply elem_of_cons. by left.
  - reflexivity.
  - eexists. reflexivity.
Defined.

Example priority_ten_rule_is_returned :
  (match_merchant sample_re_search sample_ratio_080 0 ∅ (Ok sample_table)
     (Some "AMAZON PAY") None None true).1
  = Ok (Some (set_matched_text (to_dict rule_amazon_10) "AMAZON PAY")).
Proof. reflexivity. Qed.

Lemma fuzzy_fallback_threshold_witness :
  is_Some (match_rules sample_re_search sample_ratio_080
             [to_dict rule_amazon_10] (Some "AMAZN") None).
Proof.
  pose proof (fuzzy_fallback_threshold sample_re_search sample_ratio_080
                [to_dict rule_amazon_10] "AMAZN" None eq_refl eq_refl)
    as (_ & _ & H & _).
  apply (H (to_dict rule_amazon_10) (80 # 100)).
  - apply elem_of_cons. by left.
  - reflexivity.
  - reflexivity.
Defined.

(** C5 fails as stated: the merchant "HPC" has similarity 0.80 to the text
    "HP" of a merchant-scoped rule that no regex matches, and the matcher
    returns nothing, because a pattern text shorter than 3 characters is
    not scored. *)
Lemma short_pattern_is_not_scored :
  applies_to rule_hp = Merchant
  /\ pattern_text_of (pattern_regex rule_hp) = "HP"%string
  /\ (similarity sample_ratio_080 (PyStr.strip (PyStr.upper "HPC")) "HP"
      == 80 # 100)%Q
  /\ match_regex sample_re_search [to_dict rule_hp] (Some "HPC"%string) None = None
  /\ match_rules sample_re_search sample_ratio_080 [to_dict rule_hp]
       (Some "HPC"%string) None = None.
Proof. split_and!; reflexivity. Qed.

Example fuzzy_fallback_below_threshold :
  match_rules sample_re_search sample_ratio_070
    [to_dict rule_amazon_10] (Some "AMAZN") None = None.
Proof. reflexivity. Qed.

(** ** The rule cache and an unavailable store *)

(** C6 fails as stated: with an expired entry for the scope in the cache and
    the store raising, [get_merchant_rules] raises; the cached rules are not
    returned. *)
Lemma stale_cache_is_not_served :
  stale_cache !! merchant_rules_key None = Some stale_entry
  /\ (get_merchant_rules 700 stale_cache (Raise store_down) None true).1
     = Raise store_down
  /\ (get_merchant_rules 700 stale_cache (Raise store_down) None true).1
     <> Ok (data stale_entry).
Proof. split_and!; [reflexivity | reflexivity | discriminate]. Qed.

(** C6, amended: when the store raises, [get_merchant_rules] returns the
    cached rules only if the cache is in use and the entry of the scope has
    not expired (the store is then not read at all); in every other case,
    an expired entry included, the exception goes to the caller and the
    cache is left as it was.  [match_merchant] passes the exception on, and
    a load with staging rows to classify stops on it. *)
Theorem get_merchant_rules_store_down (re_search : string -> string -> re_outcome)
    (seq_ratio : string -> string -> Q)
    (extract_merchant_from_description : string -> option string)
    (normalize_merchant_name _infer_category_from_keywords : string -> string)
    (fn_txn_fact_fp :
       string -> Z -> Z -> direction_t -> string -> string -> string -> string)
    (row_fault : TxnStaging.t -> option exn)
    (now : Z) (c : gmap string cache_entry) (e : exn) (tenant : option string)
    (use_cache : bool) (m d : option string) (st : Store) (user_id : string) :
  get_merchant_rules now c (Raise e) tenant use_cache
  = match c !! merchant_rules_key tenant with
    | Some entry =>
        if use_cache && (now <? expires_at entry)%Z
        then (Ok (data entry), c)
        else (Raise e, c)
    | None => (Raise e, c)
    end
  /\ (match_merchant re_search seq_ratio now c (Raise e) m d tenant use_cache).1
     = match (get_merchant_rules now c (Raise e) tenant use_cache).1 with
       | Raise e' => Raise e'
       | Ok rules => Ok (match_rules re_search seq_ratio rules m d)
       end
  /\ load_staging_for_user re_search seq_ratio extract_merchant_from_description
       normalize_merchant_name _infer_category_from_keywords fn_txn_fact_fp
       row_fault (Raise e) st user_id
     = match staging_rows_for st user_id with
       | [] => (Ok 0%nat, st)
       | _ :: _ => (Raise e, st)
       end.
Proof.
  split_and!.
  - unfold get_merchant_rules, _get_from_cache, _is_cache_valid.
    destruct use_cache; simpl.
    + destruct (c !! merchant_rules_key tenant) as [entry|]; simpl; [|done].
      by destruct (now <? expires_at entry)%Z.
    + by destruct (c !! merchant_rules_key tenant).
  - unfold match_merchant.
    by destruct (get_merchant_rules now c (Raise e) tenant use_cache) as [[rs|e'] c'].
  - unfold load_staging_for_user.
    by destruct (staging_rows_for st user_id).
Qed.

(** ** The learning service *)

Section LearningFacts.

Variable sha1_hexdigest : string -> string.

(** C7: when the rate-limit query answers with a count of 50 or more for
    the actor (learned rules created since the start of the day, in the
    tenant when one is given), [learn_from_edit] returns [None] and leaves
    the rules and the cache as they were. *)
Theorem learn_from_edit_rate_limited (query_error : option exn)
    (now today_start : Z) (new_id : string) (st : Store)
    (c : gmap string cache_entry) (user_id : string)
    (merchant_name description category subcategory tenant : option string)
    (count : nat) :
  rate_limit_query query_error st user_id tenant today_start = Ok count ->
  (MAX_RULES_PER_USER_PER_DAY <= count)%nat ->
  learn_from_edit sha1_hexdigest query_error now today_start new_id st c
    user_id merchant_name description category subcategory tenant
  = (None, st, c).
Proof.
  intros Hq Hcount. unfold learn_from_edit.
  destruct category as [category_code|]; [|done].
  destruct (negb (PyStr.truthy category_code)); [done|].
  unfold _check_rate_limit. rewrite Hq.
  apply Nat.ltb_ge in Hcount. by rewrite Hcount.
Qed.


End LearningFacts.

Lemma learn_from_edit_rate_limited_witness :
  learn_from_edit sample_hash None 2000 0 "new" busy_store ∅
    "u1" (Some "FLIPKART") None (Some "shopping") None None
  = (None, busy_store, ∅).
Proof.
  apply (learn_from_edit_rate_limited sample_hash None 2000 0 "new" busy_store ∅
           "u1" (Some "FLIPKART") None (Some "shopping") None None 50).
  - reflexivity.
  - reflexivity.
Defined.


Example fifty_first_rule_is_created :
  (learn_from_edit sample_hash (Some store_down) 2000 0 "new" busy_store ∅
     "u1" (Some "FLIPKART") None (Some "shopping") None None).1.1 = Some "new"
  /\ length (merchant_rules
               (learn_from_edit sample_hash (Some store_down) 2000 0 "new"
                  busy_store ∅ "u1" (Some "FLIPKART") None (Some "shopping")
                  None None).1.2) = 51%nat.
Proof. split; reflexivity. Qed.

(** ** The upsert and its conflict target *)

Section UpsertFacts.

Variable sha1_hexdigest : string -> string.

Lemma update_conflicting_again tenant applies hash upd rows rid rows' :
  (forall r, conflicts tenant applies hash r = true ->
             conflicts tenant applies hash (upd r) = true
             /\ rule_id (upd r) = rule_id r /\ upd (upd r) = upd r) ->
  update_conflicting tenant applies hash upd rows = Some (rid, rows') ->
  update_conflicting tenant applies hash upd rows' = Some (rid, rows').
Proof.
  intros Hupd. revert rid rows'.
  induction rows as [|r rest IH]; intros rid rows' H; simpl in H; [done|].
  destruct (conflicts tenant applies hash r) eqn:Hc.
  - injection H as <- <-. simpl.
    destruct (Hupd r Hc) as (-> & -> & ->). done.
  - destruct (update_conflicting tenant applies hash upd rest)
      as [[rid0 rest']|] eqn:Hrest; [|done].
    injection H as <- <-. simpl. rewrite Hc.
    by rewrite (IH _ _ eq_refl).
Qed.

Lemma update_conflicting_snoc tenant applies hash upd rows x :
  update_conflicting tenant applies hash upd rows = None ->
  conflicts tenant applies hash x = true ->
  update_conflicting tenant applies hash upd (rows ++ [x])
  = Some (rule_id x, rows ++ [upd x]).
Proof.
  intros Hnone Hx. induction rows as [|r rest IH]; simpl in *.
  - by rewrite Hx.
  - destruct (conflicts tenant applies hash r); [done|].
    destruct (update_conflicting tenant applies hash upd rest)
      as [[rid0 rest']|]; [done|].
    by rewrite IH.
Qed.

(** Within a tenant the upsert is idempotent: a second call with the same
    arguments returns the id of the first and leaves the store as it is. *)
Lemma upsert_rule_tenant_idempotent (now1 now2 : Z) (id1 id2 : string)
    (st st1 : Store) (applies : applies_to_t) (pattern category : string)
    (subcategory : option string) (prio : Z) (creator t : string)
    (src : source_t) (rid : string) :
  upsert_rule sha1_hexdigest now1 id1 st applies pattern category subcategory
    prio creator (Some t) src = (rid, st1) ->
  upsert_rule sha1_hexdigest now2 id2 st1 applies pattern category subcategory
    prio creator (Some t) src = (rid, st1).
Proof.
  unfold upsert_rule. intros H.
  destruct (update_conflicting (Some t) applies (_pattern_hash sha1_hexdigest pattern)
              (do_update category subcategory prio creator src) (merchant_rules st))
    as [[rid0 rows]|] eqn:Hupd.
  - injection H as <- <-. simpl.
    erewrite update_conflicting_again; [done | | exact Hupd].
    intros r Hr. split_and!; [done | done | by destruct r].
  - injection H as <- <-. simpl.
    erewrite update_conflicting_snoc; [| exact Hupd |].
    + done.
    + unfold conflicts, same_scope. simpl. by rewrite !bool_decide_true.
Qed.

Lemma update_conflicting_spec tenant applies hash upd rows rid rows' :
  update_conflicting tenant applies hash upd rows = Some (rid, rows') ->
  exists l1 r0 l2,
    rows = l1 ++ r0 :: l2
    /\ Forall (fun r => conflicts tenant applies hash r = false) l1
    /\ conflicts tenant applies hash r0 = true
    /\ rid = rule_id r0
    /\ rows' = l1 ++ upd r0 :: l2.
Proof.
  revert rid rows'. induction rows as [|r rest IH]; intros rid rows' H;
    simpl in H; [done|].
  destruct (conflicts tenant applies hash r) eqn:Hc.
  - injection H as <- <-. by exists [], r, rest.
  - destruct (update_conflicting tenant applies hash upd rest)
      as [[rid0 rest']|] eqn:Hrest; [|done].
    injection H as <- <-.
    destruct (IH _ _ eq_refl) as (l1 & r0 & l2 & -> & Hl1 & Hr0 & -> & ->).
    exists (r :: l1), r0, l2. split_and!; try done. by constructor.
Qed.

Lemma update_conflicting_first tenant applies hash upd l1 r0 l2 :
  Forall (fun r => conflicts tenant applies hash r = false) l1 ->
  conflicts tenant applies hash r0 = true ->
  update_conflicting tenant applies hash upd (l1 ++ r0 :: l2)
  = Some (rule_id r0, l1 ++ upd r0 :: l2).
Proof.
  induction 1 as [|r l1 Hr _ IH]; intros Hr0; simpl.
  - by rewrite Hr0.
  - by rewrite Hr, (IH Hr0).
Qed.

Lemma update_conflicting_none tenant applies hash upd rows :
  update_conflicting tenant applies hash upd rows = None ->
  Forall (fun r => conflicts tenant applies hash r = false) rows.
Proof.
  induction rows as [|r rest IH]; simpl; [by constructor|].
  destruct (conflicts tenant applies hash r) eqn:Hc; [done|].
  destruct (update_conflicting tenant applies hash upd rest) as [[? ?]|];
    [done|].
  intros _. constructor; [done | by apply IH].
Qed.

Lemma conflicts_do_update tenant applies hash category subcategory prio
    creator src r :
  conflicts tenant applies hash (do_update category subcategory prio creator src r)
  = conflicts tenant applies hash r.
Proof. done. Qed.

Lemma conflicts_key t a h t' a' h' r :
  conflicts t a h r = true -> conflicts t' a' h' r = true ->
  t' = t /\ a' = a /\ h' = h.
Proof.
  unfold conflicts, same_scope. intros H H'.
  apply andb_true_iff in H as [H Hh]. apply andb_true_iff in H as [Ht Ha].
  apply andb_true_iff in H' as [H' Hh']. apply andb_true_iff in H' as [Ht' Ha'].
  apply bool_decide_eq_true in Hh, Ht, Ha, Hh', Ht', Ha'.
  split_and!; congruence.
Qed.

Lemma filter_none {A} (f : A -> bool) (l : list A) :
  Forall (fun x => f x = false) l -> List.filter f l = [].
Proof.
  induction 1 as [|x l Hx _ IH]; simpl; [done|]. by rewrite Hx.
Qed.

(** Replacing a row by one of the same key keeps the rows of every key
    apart. *)
Lemma one_rule_per_key_replace l1 l2 (x y : MerchantRule) :
  (forall t a h, conflicts t a h y = conflicts t a h x) ->
  one_rule_per_key (l1 ++ x :: l2) -> one_rule_per_key (l1 ++ y :: l2).
Proof.
  intros Hxy H t a h. specialize (H t a h).
  rewrite List.filter_app, length_app in *. simpl in *. rewrite Hxy.
  destruct (conflicts t a h x); simpl in *; lia.
Qed.

(** A row appended under a key that no row has keeps the rows of every key
    apart. *)
Lemma one_rule_per_key_snoc tenant applies hash rows (x : MerchantRule) :
  Forall (fun r => conflicts tenant applies hash r = false) rows ->
  conflicts tenant applies hash x = true ->
  one_rule_per_key rows -> one_rule_per_key (rows ++ [x]).
Proof.
  intros Hnone Hx H t a h. rewrite List.filter_app, length_app. simpl.
  destruct (conflicts t a h x) eqn:E; simpl.
  - destruct (conflicts_key _ _ _ _ _ _ _ Hx E) as (-> & -> & ->).
    rewrite (filter_none _ _ Hnone). simpl. lia.
  - specialize (H t a h). lia.
Qed.

Lemma one_active_of_one_rule rows :
  one_rule_per_key rows -> one_active_rule_per_key rows.
Proof.
  intros H t a h. specialize (H t a h).
  induction rows as [|r rest IH]; simpl in *; [lia|].
  destruct (conflicts t a h r); simpl in *.
  - assert (List.filter (conflicts t a h) rest = []) as Hrest
      by (destruct (List.filter (conflicts t a h) rest); [done | simpl in H; lia]).
    assert (List.filter (fun r0 => conflicts t a h r0 && active r0) rest = [])
      as ->.
    { clear -Hrest. induction rest as [|y rest IH]; simpl in *; [done|].
      destruct (conflicts t a h y); [done|]. simpl. by apply IH. }
    destruct (active r); simpl; lia.
  - by apply IH.
Qed.

(** What any call of the upsert leaves: the rows before the rule of the
    key do not have the key, the rule has the id the call returns and the
    columns of the call, and it stands where the row of its key stood, or at
    the end when the key is new. *)
Lemma upsert_rule_row now new_id st applies pattern category subcategory prio
    creator tenant src :
  exists l1 x l2,
    merchant_rules (upsert_rule sha1_hexdigest now new_id st applies pattern
                      category subcategory prio creator tenant src).2
    = l1 ++ x :: l2
    /\ Forall (fun r => conflicts tenant applies (sha1_hexdigest pattern) r = false)
         l1
    /\ conflicts tenant applies (sha1_hexdigest pattern) x = true
    /\ rule_id x = (upsert_rule sha1_hexdigest now new_id st applies pattern
                      category subcategory prio creator tenant src).1
    /\ (one_rule_per_key (merchant_rules st) -> one_rule_per_key (l1 ++ x :: l2)).
Proof.
  unfold upsert_rule, _pattern_hash.
  destruct (update_conflicting tenant applies (sha1_hexdigest pattern)
              (do_update category subcategory prio creator src)
              (merchant_rules st)) as [[rid rows]|] eqn:Hupd.
  - apply update_conflicting_spec in Hupd
      as (l1 & r0 & l2 & Hrows & Hl1 & Hr0 & -> & ->).
    exists l1, (do_update category subcategory prio creator src r0), l2.
    simpl. split_and!; try done.
    rewrite Hrows. by apply one_rule_per_key_replace.
  - apply update_conflicting_none in Hupd.
    eexists (merchant_rules st), _, []. simpl. split_and!; try done.
    + unfold conflicts, same_scope. simpl. by rewrite !bool_decide_true.
    + apply (one_rule_per_key_snoc tenant applies (sha1_hexdigest pattern));
        [done|].
      unfold conflicts, same_scope. simpl. by rewrite !bool_decide_true.
Qed.

(** C3: two calls of the upsert with the same scope, field and pattern,
    whatever the other arguments and also in the global scope (no tenant).
    The second call returns the id of the first and adds no row: the ids of
    the table are as the first call left them, and the rule of the key has
    the category, subcategory and priority of the second call.  Every call
    keeps the rows of each key apart, so one rule per key at most, active or
    not, stays true after any sequence of calls, and the key of the two
    calls has exactly one rule, which is active. *)
Theorem upsert_rule_updates_in_place (now1 now2 : Z) (id1 id2 : string)
    (st : Store) (applies : applies_to_t) (pattern cat1 cat2 : string)
    (sub1 sub2 : option string) (prio1 prio2 : Z) (creator1 creator2 : string)
    (tenant : option string) (src1 src2 : source_t) :
  let first :=
    upsert_rule sha1_hexdigest now1 id1 st applies pattern cat1 sub1 prio1
      creator1 tenant src1 in
  let second :=
    upsert_rule sha1_hexdigest now2 id2 first.2 applies pattern cat2 sub2 prio2
      creator2 tenant src2 in
  second.1 = first.1
  /\ (rule_id <$> merchant_rules second.2) = (rule_id <$> merchant_rules first.2)
  /\ (exists r,
        r ∈ merchant_rules second.2
        /\ rule_id r = first.1
        /\ conflicts tenant applies (sha1_hexdigest pattern) r = true
        /\ active r = true
        /\ category_code r = Some cat2
        /\ subcategory_code r = sub2
        /\ priority r = prio2)
  /\ (one_rule_per_key (merchant_rules st) ->
      one_rule_per_key (merchant_rules first.2)
      /\ one_rule_per_key (merchant_rules second.2)
      /\ one_active_rule_per_key (merchant_rules second.2)
      /\ exists r,
           List.filter (conflicts tenant applies (sha1_hexdigest pattern))
             (merchant_rules second.2) = [r]
           /\ rule_id r = first.1 /\ active r = true).
Proof.
  intros first second.
  destruct (upsert_rule_row now1 id1 st applies pattern cat1 sub1 prio1
              creator1 tenant src1) as (l1 & x & l2 & Hrows & Hl1 & Hx & Hid & Hinv).
  fold first in Hrows, Hid.
  assert (Hsecond :
    second = (rule_id x,
              with_merchant_rules first.2
                (l1 ++ do_update cat2 sub2 prio2 creator2 src2 x :: l2))).
  { unfold second, upsert_rule, _pattern_hash. rewrite Hrows.
    by rewrite (update_conflicting_first _ _ _ _ l1 x l2 Hl1 Hx). }
  rewrite Hsecond. simpl. rewrite Hrows.
  split_and!.
  - done.
  - by rewrite !fmap_app.
  - exists (do_update cat2 sub2 prio2 creator2 src2 x).
    split_and!; try done.
    apply elem_of_app. right. apply elem_of_cons. by left.
  - intros Hst. specialize (Hinv Hst).
    assert (Hinv2 : one_rule_per_key
                      (l1 ++ do_update cat2 sub2 prio2 creator2 src2 x :: l2))
      by (by apply (one_rule_per_key_replace l1 l2 x)).
    split_and!; [done | done | by apply one_active_of_one_rule |].
    exists (do_update cat2 sub2 prio2 creator2 src2 x).
    split_and!; [|done|done].
    specialize (Hinv2 tenant applies (sha1_hexdigest pattern)).
    rewrite List.filter_app in *. rewrite (filter_none _ _ Hl1) in *.
    simpl in *. rewrite conflicts_do_update, Hx in *. simpl in *.
    destruct (List.filter _ l2); [done | simpl in Hinv2; lia].
Qed.

End UpsertFacts.

Lemma upsert_rule_updates_in_place_witness :
  let first :=
    upsert_rule sample_hash 1000 "id-1" tenant_store Merchant "SHOBA" "shopping"
      None USER_RULE_PRIORITY "u1" None Learned in
  let second :=
    upsert_rule sample_hash 1001 "id-2" first.2 Merchant "SHOBA" "nightlife"
      (Some "food_delivery"%string) USER_RULE_PRIORITY "u1" None Learned in
  first.1 = "id-1"%string
  /\ second.1 = "id-1"%string
  /\ one_rule_per_key (merchant_rules second.2)
  /\ exists r,
       List.filter (conflicts None Merchant (sample_hash "SHOBA"))
         (merchant_rules second.2) = [r]
       /\ rule_id r = "id-1"%string /\ active r = true.
Proof.
  intros first second.
  destruct (upsert_rule_updates_in_place sample_hash 1000 1001 "id-1" "id-2"
              tenant_store Merchant "SHOBA" "shopping" "nightlife" None
              (Some "food_delivery"%string) USER_RULE_PRIORITY
              USER_RULE_PRIORITY "u1" "u1" None Learned Learned)
    as (Hid & _ & _ & Hinv).
  destruct Hinv as (_ & Hkeys & _ & Hone).
  - intros t a h.
    change (merchant_rules tenant_store) with [rule_amazon_10; rule_t1_inactive].
    assert (Hseed : conflicts t a h rule_amazon_10 = false).
    { unfold conflicts. simpl. apply andb_false_r. }
    simpl. rewrite Hseed.
    destruct (conflicts t a h rule_t1_inactive); simpl; lia.
  - split_and!; [reflexivity | exact Hid | exact Hkeys | exact Hone].
Defined.

(** The scenario of the spec: the same correction recorded twice in the
    global scope leaves one rule. *)
Example learn_twice_global_scope_one_rule :
  let first :=
    learn_from_edit sample_hash None 1000 0 "id-1" empty_store ∅
      "u1" (Some "SHOBA ENT") None (Some "shopping") None None in
  let second :=
    learn_from_edit sample_hash None 1001 0 "id-2" first.1.2 ∅
      "u1" (Some "SHOBA ENT") None (Some "shopping") None None in
  first.1.1 = Some "id-1"%string
  /\ second.1.1 = Some "id-1"%string
  /\ length (merchant_rules second.1.2) = 1%nat.
Proof. split_and!; reflexivity. Qed.

Example learn_twice_in_tenant_one_rule :
  let first :=
    learn_from_edit sample_hash None 1000 0 "id-1" empty_store ∅
      "u1" (Some "SHOBA ENT") None (Some "shopping") None (Some "t1") in
  let second :=
    learn_from_edit sample_hash None 1001 0 "id-2" first.1.2 ∅
      "u1" (Some "SHOBA ENT") None (Some "shopping") None (Some "t1") in
  second.1.1 = Some "id-1" /\ length (merchant_rules second.1.2) = 1%nat.
Proof. split; reflexivity. Qed.

(** ** The staging loader *)

Section LoaderFacts.

Variable re_search : string -> string -> re_outcome.
Variable seq_ratio : string -> string -> Q.
Variable extract_merchant_from_description : string -> option string.
Variable normalize_merchant_name : string -> string.
Variable _infer_category_from_keywords : string -> string.
Variable fn_txn_fact_fp :
  string -> Z -> Z -> direction_t -> string -> string -> string -> string.
Variable row_fault : TxnStaging.t -> option exn.

(** The classification of a staging row and its fingerprint. *)
Local Abbreviation categorize rs s :=
  (_extract_and_categorize re_search seq_ratio extract_merchant_from_description
     normalize_merchant_name _infer_category_from_keywords rs
     (default ""%string (TxnStaging.description_raw s))
     (TxnStaging.merchant_raw s) (TxnStaging.direction s)).
Local Abbreviation fp_of rs s :=
  (fingerprint fn_txn_fact_fp s (categorize rs s).1.1).
Local Abbreviation row_load :=
  (load_row re_search seq_ratio extract_merchant_from_description
     normalize_merchant_name _infer_category_from_keywords fn_txn_fact_fp
     row_fault).
Local Abbreviation rows_load :=
  (load_rows re_search seq_ratio extract_merchant_from_description
     normalize_merchant_name _infer_category_from_keywords fn_txn_fact_fp
     row_fault).
Local Abbreviation user_load :=
  (load_staging_for_user re_search seq_ratio extract_merchant_from_description
     normalize_merchant_name _infer_category_from_keywords fn_txn_fact_fp
     row_fault).

Lemma ensure_category_frame st c :
  merchant_rules (ensure_category st c) = merchant_rules st
  /\ dim_subcategory (ensure_category st c) = dim_subcategory st
  /\ txn_staging (ensure_category st c) = txn_staging st
  /\ txn_fact (ensure_category st c) = txn_fact st
  /\ txn_enriched (ensure_category st c) = txn_enriched st.
Proof. unfold ensure_category. by repeat case_match. Qed.

Lemma subcategory_known_ext st st' sc :
  dim_subcategory st' = dim_subcategory st ->
  subcategory_known st' sc = subcategory_known st sc.
Proof. unfold subcategory_known. by intros ->. Qed.

Lemma subcategory_belongs_ext st st' sc cat :
  dim_subcategory st' = dim_subcategory st ->
  subcategory_belongs st' sc cat = subcategory_belongs st sc cat.
Proof. unfold subcategory_belongs. by intros ->. Qed.

Lemma write_declined_ext st st' s sub :
  dim_subcategory st' = dim_subcategory st ->
  write_declined row_fault st' s sub = write_declined row_fault st s sub.
Proof.
  intros H. unfold write_declined.
  destruct (row_fault s); [done|]. destruct sub; [|done].
  by rewrite (subcategory_known_ext _ _ _ H).
Qed.

Lemma insert_row_ok st s mn cat sub fp st' :
  insert_row row_fault st s mn cat sub fp = Ok st' ->
  row_fault s = None
  /\ fact_exists st fp = false
  /\ merchant_rules st' = merchant_rules st
  /\ dim_subcategory st' = dim_subcategory st
  /\ txn_staging st' = txn_staging st
  /\ (exists f, txn_fact st' = txn_fact st ++ [f]
                /\ TxnFact.dedupe_fp f = Some fp)
  /\ (exists e, txn_enriched st' = txn_enriched st ++ [e]
                /\ TxnEnriched.category_code e
                   = Some (if PyStr.truthy cat then cat else "others"%string)
                /\ TxnEnriched.subcategory_code e = sub)
  /\ (forall sc, sub = Some sc -> subcategory_known st sc = true).
Proof.
  unfold insert_row. intros H.
  destruct (row_fault s); [done|].
  destruct (fact_exists st fp) eqn:Hfp; [done|].
  set (code := if PyStr.truthy cat then cat else "others"%string) in *.
  destruct (ensure_category_frame st code) as (Hr & Hd & Hs & Hf & He).
  assert (Hknown : forall sc, sub = Some sc -> subcategory_known st sc = true).
  { intros sc ->.
    rewrite (subcategory_known_ext st (ensure_category st code)) in H by done.
    by destruct (subcategory_known st sc). }
  assert (Hst : st' = with_fact_and_enriched (ensure_category st code)
            {| TxnFact.txn_id := length (txn_fact st);
               TxnFact.user_id := TxnStaging.user_id s;
               TxnFact.upload_id := TxnStaging.upload_id s;
               TxnFact.source_type := "file";
               TxnFact.account_ref := TxnStaging.account_ref s;
               TxnFact.txn_external_id := TxnStaging.raw_txn_id s;
               TxnFact.txn_date := TxnStaging.txn_date s;
               TxnFact.description := TxnStaging.description_raw s;
               TxnFact.amount := TxnStaging.amount s;
               TxnFact.direction := TxnStaging.direction s;
               TxnFact.currency :=
                 match TxnStaging.currency s with
                 | Some cur => str_or cur "INR"
                 | None => "INR"%string
                 end;
               TxnFact.merchant_name_norm := or_none mn;
               TxnFact.ingested_via := Some "file"%string;
               TxnFact.raw_source_id := Some (TxnStaging.upload_id s);
               TxnFact.dedupe_fp := Some fp |}
            {| TxnEnriched.txn_id := length (txn_fact st);
               TxnEnriched.matched_rule_id := None;
               TxnEnriched.category_code := Some code;
               TxnEnriched.subcategory_code := sub;
               TxnEnriched.rule_confidence :=
                 if PyStr.otruthy sub then 1 else 80 # 100 |}).
  { destruct sub as [sc|]; [|congruence].
    destruct (subcategory_known (ensure_category st code) sc); congruence. }
  subst st'. simpl. rewrite Hf, He.
  split_and!; try done; eexists; split_and!; done.
Qed.

Lemma insert_row_raise st s mn cat sub fp e :
  insert_row row_fault st s mn cat sub fp = Raise e ->
  row_fault s = Some e
  \/ (row_fault s = None /\ exc e = IntegrityError
      /\ (fact_exists st fp = true
          \/ exists sc, sub = Some sc /\ subcategory_known st sc = false)).
Proof.
  unfold insert_row. intros H.
  destruct (row_fault s); [left; congruence|]. right.
  destruct (fact_exists st fp) eqn:Hfp.
  { injection H as <-. by split_and!; [| | left]. }
  set (code := if PyStr.truthy cat then cat else "others"%string) in *.
  destruct (ensure_category_frame st code) as (_ & Hd & _).
  destruct sub as [sc|]; [|done].
  rewrite (subcategory_known_ext st (ensure_category st code)) in H by done.
  destruct (subcategory_known st sc) eqn:Hk; [done|].
  injection H as <-. split_and!; [done | done |]. right. by exists sc.
Qed.

Lemma integrity_is_duplicate e : exc e = IntegrityError -> is_duplicate e = true.
Proof. unfold is_duplicate. intros ->. done. Qed.

Lemma fact_exists_mono st st' f fp fp' :
  txn_fact st' = txn_fact st ++ [f] ->
  TxnFact.dedupe_fp f = Some fp ->
  fact_exists st' fp = true
  /\ (fact_exists st fp' = true -> fact_exists st' fp' = true).
Proof.
  unfold fact_exists. intros -> Hf. rewrite !existsb_app. simpl.
  rewrite Hf, bool_decide_true by done. split.
  - by rewrite orb_true_r.
  - by intros ->.
Qed.

Local Arguments load_row : simpl never.

(** One turn of the loop that does not abort. *)
Lemma load_row_next rs st n s st' n' :
  row_load (Ok rs) st n s = Next st' n' ->
  dim_subcategory st' = dim_subcategory st
  /\ txn_staging st' = txn_staging st
  /\ (forall fp, fact_exists st fp = true -> fact_exists st' fp = true)
  /\ (fact_exists st' (fp_of rs s) = true
      \/ write_declined row_fault st s (categorize rs s).2 = true)
  /\ ((st' = st /\ n' = n)
      \/ (n' = S n /\ length (txn_fact st') = S (length (txn_fact st)))).
Proof.
  unfold load_row.
  destruct (categorize rs s) as [[mn cat] sub] eqn:Hc. simpl.
  destruct (fact_exists st (fingerprint fn_txn_fact_fp s mn)) eqn:Hfp.
  { intros [= <- <-]. split_and!; try done; by left. }
  destruct (insert_row row_fault st s mn cat sub (fingerprint fn_txn_fact_fp s mn))
    as [st1|e] eqn:Hins.
  - intros [= <- <-].
    apply insert_row_ok in Hins
      as (_ & _ & _ & Hd & Hs & (f & Hf & Hfp') & _ & _).
    split_and!; try done.
    + intros fp. by apply (fact_exists_mono st st1 f _ fp Hf Hfp').
    + left. by apply (fact_exists_mono st st1 f _ ""%string Hf Hfp').
    + right. split; [done|]. rewrite Hf, length_app. simpl. lia.
  - destruct (is_duplicate e) eqn:Hdup; [|done].
    intros [= <- <-]. split_and!; try done; [|by left].
    right. unfold write_declined.
    apply insert_row_raise in Hins as [Hfault | (Hfault & _ & [Hex | (sc & -> & Hk)])].
    + by rewrite Hfault.
    + congruence.
    + by rewrite Hfault, Hk.
Qed.

Lemma load_rows_next rs rows st n st' n' :
  rows_load (Ok rs) st n rows = Next st' n' ->
  dim_subcategory st' = dim_subcategory st
  /\ txn_staging st' = txn_staging st
  /\ (forall fp, fact_exists st fp = true -> fact_exists st' fp = true)
  /\ (forall s, s ∈ rows ->
        fact_exists st' (fp_of rs s) = true
        \/ write_declined row_fault st s (categorize rs s).2 = true)
  /\ (n <= n')%nat
  /\ length (txn_fact st') = (length (txn_fact st) + (n' - n))%nat.
Proof.
  revert st n. induction rows as [|s rest IH]; intros st n; simpl.
  - intros [= <- <-]. split_and!; try done; [|lia].
    intros s Hs. by apply elem_of_nil in Hs.
  - destruct (row_load (Ok rs) st n s) as [st1 n1|e] eqn:Hrow; [|done].
    intros Hrest.
    apply load_row_next in Hrow as (Hd1 & Hs1 & Hmono1 & Hrow1 & Hcount1).
    apply IH in Hrest as (Hd & Hs & Hmono & Hall & Hle & Hlen).
    split_and!.
    + congruence.
    + congruence.
    + intros fp Hfp. by apply Hmono, Hmono1.
    + intros s' Hs'. apply elem_of_cons in Hs' as [-> | Hs'].
      * destruct Hrow1 as [Hin | Hdecl]; [left; by apply Hmono | by right].
      * destruct (Hall s' Hs') as [Hin | Hdecl]; [by left | right].
        by rewrite <- (write_declined_ext st st1 s' _ Hd1).
    + destruct Hcount1 as [[_ ->] | [-> _]]; lia.
    + destruct Hcount1 as [[-> ->] | [-> Hl]]; [done | lia].
Qed.

(** Rows that are all loaded already, or turned down, insert nothing. *)
Lemma load_rows_settled rs rows st n :
  (forall s, s ∈ rows ->
     fact_exists st (fp_of rs s) = true
     \/ write_declined row_fault st s (categorize rs s).2 = true) ->
  rows_load (Ok rs) st n rows = Next st n.
Proof.
  induction rows as [|s rest IH]; intros Hall; simpl; [done|].
  assert (Hrow : row_load (Ok rs) st n s = Next st n).
  { assert (Hs : s ∈ s :: rest) by (apply elem_of_cons; by left).
    specialize (Hall s Hs). unfold load_row.
    destruct (categorize rs s) as [[mn cat] sub] eqn:Hc. simpl in *.
    destruct (fact_exists st (fingerprint fn_txn_fact_fp s mn)) eqn:Hfp; [done|].
    destruct Hall as [Hin | Hdecl]; [congruence|].
    destruct (insert_row row_fault st s mn cat sub (fingerprint fn_txn_fact_fp s mn))
      as [st1|e] eqn:Hins.
    - exfalso. apply insert_row_ok in Hins as (Hfault & _ & _ & _ & _ & _ & _ & Hk).
      unfold write_declined in Hdecl. rewrite Hfault in Hdecl.
      destruct sub as [sc|]; [|done].
      by rewrite (Hk sc eq_refl) in Hdecl.
    - apply insert_row_raise in Hins as [Hfault | (_ & Hi & _)].
      + unfold write_declined in Hdecl. rewrite Hfault in Hdecl. by rewrite Hdecl.
      + by rewrite (integrity_is_duplicate e Hi). }
  rewrite Hrow. apply IH. intros s' Hs'. apply Hall, elem_of_cons. by right.
Qed.

Lemma load_rows_store_down e st n rows st' n' :
  rows_load (Raise e) st n rows = Next st' n' -> rows = [] /\ st' = st /\ n' = n.
Proof. destruct rows; simpl; [by intros [= <- <-] | done]. Qed.

(** C1: after a run of [load_staging_for_user] has returned its count, a
    second run over the same staging rows and rules returns 0 and leaves
    the store as it is: each row's fingerprint is found among the facts, or
    its write is turned down again as a duplicate-like failure. *)
Theorem load_staging_rerun_inserts_nothing (rules : result (list RuleDict))
    (st st1 : Store) (user_id : string) (inserted : nat) :
  user_load rules st user_id = (Ok inserted, st1) ->
  user_load rules st1 user_id = (Ok 0%nat, st1).
Proof.
  unfold load_staging_for_user, staging_rows_for. intros H.
  destruct (rows_load rules st 0%nat _) as [st' n'|e] eqn:Hrun; [|done].
  injection H as <- <-.
  destruct rules as [rs|e].
  - pose proof (load_rows_next _ _ _ _ _ _ Hrun) as (Hd & Hs & _ & Hall & _).
    rewrite Hs. rewrite load_rows_settled; [done|].
    intros s Hin. destruct (Hall s Hin) as [Hex | Hdecl]; [by left | right].
    by rewrite (write_declined_ext st st' s _ Hd).
  - pose proof (load_rows_store_down _ _ _ _ _ _ Hrun) as (Hrows & -> & _).
    by rewrite Hrows.
Qed.

Lemma load_rows_app rules st n l1 l2 :
  rows_load rules st n (l1 ++ l2)
  = match rows_load rules st n l1 with
    | Next st1 n1 => rows_load rules st1 n1 l2
    | Abort e => Abort e
    end.
Proof.
  revert st n. induction l1 as [|s l1 IH]; intros st n; simpl; [done|].
  destruct (row_load rules st n s); [apply IH | done].
Qed.

Lemma load_row_policy rs st n s e :
  fact_exists st (fp_of rs s) = false ->
  insert_row row_fault st s (categorize rs s).1.1 (categorize rs s).1.2
    (categorize rs s).2 (fp_of rs s) = Raise e ->
  row_load (Ok rs) st n s = if is_duplicate e then Next st n else Abort e.
Proof.
  unfold load_row.
  destruct (categorize rs s) as [[mn cat] sub]. simpl.
  by intros -> ->.
Qed.

Lemma load_rows_no_abort rs rows st n :
  (forall s e, s ∈ rows -> row_fault s = Some e -> is_duplicate e = true) ->
  exists st' n', rows_load (Ok rs) st n rows = Next st' n'.
Proof.
  revert st n. induction rows as [|s rest IH]; intros st n Hfaults; simpl.
  - by exists st, n.
  - assert (Hrow : exists st1 n1, row_load (Ok rs) st n s = Next st1 n1).
    { unfold load_row.
      destruct (categorize rs s) as [[mn cat] sub]. simpl.
      destruct (fact_exists st (fingerprint fn_txn_fact_fp s mn)); [by eauto|].
      destruct (insert_row row_fault st s mn cat sub (fingerprint fn_txn_fact_fp s mn))
        as [st1|e] eqn:Hins; [by eauto|].
      apply insert_row_raise in Hins as [Hfault | (_ & Hi & _)].
      - rewrite (Hfaults s e); [by eauto | | done]. apply elem_of_cons. by left.
      - rewrite (integrity_is_duplicate e Hi). by eauto. }
    destruct Hrow as (st1 & n1 & ->). apply IH.
    intros s' e Hs'. apply Hfaults, elem_of_cons. by right.
Qed.

(** C2, amended: a row whose write fails with an [IntegrityError], or with a
    message that mentions a duplicate, is rolled back alone and the loop
    goes on; when every failure of the batch is of that kind the loader
    returns the number of rows it inserted.  A write that fails in any
    other way is raised again: the batch stops at that row, the session is
    rolled back and the caller gets the exception. *)
Theorem load_staging_row_isolation (rs : list RuleDict) (st : Store)
    (user_id : string) :
  (forall s n e,
     fact_exists st (fp_of rs s) = false ->
     insert_row row_fault st s (categorize rs s).1.1 (categorize rs s).1.2
       (categorize rs s).2 (fp_of rs s) = Raise e ->
     row_load (Ok rs) st n s = if is_duplicate e then Next st n else Abort e)
  /\ ((forall s e, s ∈ staging_rows_for st user_id -> row_fault s = Some e ->
                   is_duplicate e = true) ->
      exists k st',
        user_load (Ok rs) st user_id = (Ok k, st')
        /\ length (txn_fact st') = (length (txn_fact st) + k)%nat)
  /\ (forall l1 s l2 st1 n1 e,
        staging_rows_for st user_id = l1 ++ s :: l2 ->
        rows_load (Ok rs) st 0%nat l1 = Next st1 n1 ->
        fact_exists st1 (fp_of rs s) = false ->
        row_fault s = Some e ->
        is_duplicate e = false ->
        user_load (Ok rs) st user_id = (Raise e, st)).
Proof.
  split_and!.
  - intros s n e. apply load_row_policy.
  - intros Hfaults. unfold load_staging_for_user.
    destruct (load_rows_no_abort rs (staging_rows_for st user_id) st 0%nat Hfaults)
      as (st' & k & Hrun).
    rewrite Hrun. exists k, st'. split; [done|].
    apply load_rows_next in Hrun as (_ & _ & _ & _ & _ & Hlen). lia.
  - intros l1 s l2 st1 n1 e Hrows Hl1 Hfp Hfault Hdup.
    unfold load_staging_for_user. rewrite Hrows, load_rows_app, Hl1. simpl.
    rewrite (load_row_policy rs st1 n1 s e Hfp).
    + by rewrite Hdup.
    + unfold insert_row. by rewrite Hfault.
Qed.

End LoaderFacts.

Lemma load_staging_rerun_inserts_nothing_witness :
  let run :=
    load_staging_for_user sample_re_search sample_ratio_080 sample_extract
      sample_normalize sample_infer sample_fp no_fault
      (Ok [to_dict rule_amazon_10]) in
  (run one_row_store "u1").1 = Ok 1%nat
  /\ run (run one_row_store "u1").2 "u1" = (Ok 0%nat, (run one_row_store "u1").2).
Proof.
  split; [reflexivity|].
  apply (load_staging_rerun_inserts_nothing sample_re_search sample_ratio_080
           sample_extract sample_normalize sample_infer sample_fp no_fault
           (Ok [to_dict rule_amazon_10]) one_row_store _ "u1" 1).
  reflexivity.
Defined.

(** C2 fails as stated: the row "good" loads when it is alone, but in a
    batch whose first row's write fails with a lost connection the loader
    raises and nothing is inserted. *)
Lemma one_failing_row_aborts_batch :
  (load_staging_for_user sample_re_search sample_ratio_080 sample_extract
     sample_normalize sample_infer sample_fp sample_fault (Ok [])
     one_row_store "u1").1 = Ok 1%nat
  /\ load_staging_for_user sample_re_search sample_ratio_080 sample_extract
       sample_normalize sample_infer sample_fp sample_fault (Ok [])
       two_row_store "u1"
     = (Raise connection_lost, two_row_store).
Proof. split; reflexivity. Qed.

Lemma load_staging_row_isolation_witness :
  integrity_fault (sample_row "bad" "SWIGGY") = Some unique_violation
  /\ (exists k st',
        load_staging_for_user sample_re_search sample_ratio_080 sample_extract
          sample_normalize sample_infer sample_fp integrity_fault (Ok [])
          two_row_store "u1" = (Ok k, st')
        /\ length (txn_fact st') = (length (txn_fact two_row_store) + k)%nat)
  /\ (load_staging_for_user sample_re_search sample_ratio_080 sample_extract
        sample_normalize sample_infer sample_fp integrity_fault (Ok [])
        two_row_store "u1").1 = Ok 1%nat
  /\ load_staging_for_user sample_re_search sample_ratio_080 sample_extract
       sample_normalize sample_infer sample_fp sample_fault (Ok [])
       two_row_store "u1" = (Raise connection_lost, two_row_store).
Proof.
  split_and!.
  - reflexivity.
  - apply (load_staging_row_isolation sample_re_search sample_ratio_080
             sample_extract sample_normalize sample_infer sample_fp
             integrity_fault [] two_row_store "u1").
    intros s e _ Hfault. unfold integrity_fault in Hfault.
    destruct (String.eqb (TxnStaging.staging_id s) "bad"); [|discriminate Hfault].
    injection Hfault as <-. reflexivity.
  - reflexivity.
  - apply (proj2 (proj2 (load_staging_row_isolation sample_re_search
                           sample_ratio_080 sample_extract sample_normalize
                           sample_infer sample_fp sample_fault [] two_row_store
                           "u1"))
             [] (sample_row "bad" "SWIGGY") [sample_row "good" "AMAZON PAY"]
             two_row_store 0%nat connection_lost);
      reflexivity.
Defined.

(** ** The category invariant *)

Section CategoryInvariant.

Variable re_search : string -> string -> re_outcome.
Variable seq_ratio : string -> string -> Q.
Variable extract_merchant_from_description : string -> option string.
Variable normalize_merchant_name : string -> string.
Variable _infer_category_from_keywords : string -> string.
Variable fn_txn_fact_fp :
  string -> Z -> Z -> direction_t -> string -> string -> string -> string.
Variable row_fault : TxnStaging.t -> option exn.
Variable sha1_hexdigest : string -> string.

Local Abbreviation categorize rs s :=
  (_extract_and_categorize re_search seq_ratio extract_merchant_from_description
     normalize_merchant_name _infer_category_from_keywords rs
     (default ""%string (TxnStaging.description_raw s))
     (TxnStaging.merchant_raw s) (TxnStaging.direction s)).
Local Abbreviation row_load :=
  (load_row re_search seq_ratio extract_merchant_from_description
     normalize_merchant_name _infer_category_from_keywords fn_txn_fact_fp
     row_fault).
Local Abbreviation rows_load :=
  (load_rows re_search seq_ratio extract_merchant_from_description
     normalize_merchant_name _infer_category_from_keywords fn_txn_fact_fp
     row_fault).
Local Abbreviation user_load :=
  (load_staging_for_user re_search seq_ratio extract_merchant_from_description
     normalize_merchant_name _infer_category_from_keywords fn_txn_fact_fp
     row_fault).

Local Arguments load_row : simpl never.

Lemma match_rules_elem (rs : list RuleDict) (m d : option string) (hit : RuleDict) :
  match_rules re_search seq_ratio rs m d = Some hit ->
  exists x, x ∈ rs /\ rule hit = rule x.
Proof.
  unfold match_rules.
  destruct (match_regex re_search rs m d) as [h|] eqn:Hwalk.
  - intros [= ->].
    apply match_regex_some in Hwalk as (l1 & x & l2 & -> & _ & Hx).
    exists x. split; [|by eapply try_rule_rule].
    apply elem_of_app. right. apply elem_of_cons. by left.
  - destruct m as [m|]; [|done]. destruct (PyStr.truthy m); [|done].
    unfold _fuzzy_match_merchant. intros Hf.
    destruct (fuzzy_loop_spec seq_ratio m (PyStr.strip (PyStr.upper m)) rs None
                best_score_threshold)
      as [[Heq _] | (l1 & x & l2 & sc & -> & _ & _ & Heq & _)]; [congruence|].
    exists x. split.
    + apply elem_of_app. right. apply elem_of_cons. by left.
    + rewrite Heq in Hf. by injection Hf as <-.
Qed.

(** Where the pair of [_extract_and_categorize] comes from. *)
Lemma categorize_pair rs desc mraw dir mn cat sub :
  _extract_and_categorize re_search seq_ratio extract_merchant_from_description
    normalize_merchant_name _infer_category_from_keywords rs desc mraw dir
  = (mn, cat, sub) ->
  (exists x, x ∈ rs /\ category_code (rule x) = Some cat
             /\ subcategory_code (rule x) = sub
             /\ PyStr.truthy cat = true)
  \/ (cat = "transfers"%string /\ sub = Some "p2p_transfer"%string)
  \/ (cat = "income"%string /\ sub = Some "salary"%string)
  \/ (cat = "transfers"%string /\ sub = Some "p2p_personal"%string)
  \/ sub = None.
Proof.
  unfold _extract_and_categorize.
  set (merchant_normalized := normalize_merchant_name _).
  assert (Hfallback :
    forall p,
      match dir with
      | Credit =>
          let '(c, sb) := credit_fallback merchant_normalized desc in
          (merchant_normalized, c, sb)
      | Debit =>
          (merchant_normalized,
           _infer_category_from_keywords
             (PyStr.lower (str_or merchant_normalized desc)), None)
      end = p ->
      (p.1.2 = "transfers"%string /\ p.2 = Some "p2p_transfer"%string)
      \/ (p.1.2 = "income"%string /\ p.2 = Some "salary"%string)
      \/ (p.1.2 = "transfers"%string /\ p.2 = Some "p2p_personal"%string)
      \/ p.2 = None).
  { intros p <-. destruct dir; simpl; [by repeat right|].
    unfold credit_fallback. repeat case_match; simplify_eq/=; tauto. }
  destruct (match_rules re_search seq_ratio rs _ _) as [hit|] eqn:Hmatch.
  - destruct (category_code (rule hit)) as [c|] eqn:Hc.
    + destruct (PyStr.truthy c) eqn:Htruthy.
      * intros [= <- <- <-]. left.
        apply match_rules_elem in Hmatch as (x & Hx & Hrule).
        exists x. rewrite <- Hrule. by split_and!.
      * intros H. right. by apply (Hfallback _ H).
    + intros H. right. by apply (Hfallback _ H).
  - intros H. right. by apply (Hfallback _ H).
Qed.

Lemma load_row_enriched rs st n s st' n' e :
  row_load (Ok rs) st n s = Next st' n' ->
  e ∈ txn_enriched st' ->
  e ∈ txn_enriched st
  \/ (TxnEnriched.category_code e
      = Some (if PyStr.truthy (categorize rs s).1.2
              then (categorize rs s).1.2 else "others"%string)
      /\ TxnEnriched.subcategory_code e = (categorize rs s).2).
Proof.
  unfold load_row.
  destruct (categorize rs s) as [[mn cat] sub]. simpl.
  destruct (fact_exists st (fingerprint fn_txn_fact_fp s mn)).
  { intros [= <- <-]. by left. }
  destruct (insert_row row_fault st s mn cat sub (fingerprint fn_txn_fact_fp s mn))
    as [st1|err] eqn:Hins.
  - intros [= <- <-] He.
    apply insert_row_ok in Hins
      as (_ & _ & _ & _ & _ & _ & (e0 & Henr & Hcat & Hsub) & _).
    rewrite Henr in He. apply elem_of_app in He as [He | He]; [by left|].
    apply list_elem_of_singleton in He as ->. by right.
  - destruct (is_duplicate err); [|done]. intros [= <- <-]. by left.
Qed.

Lemma pair_consistent_ext st st' cat sub :
  dim_subcategory st' = dim_subcategory st ->
  pair_consistent st cat sub -> pair_consistent st' cat sub.
Proof.
  intros Hd H sc Hsc. destruct (H sc Hsc) as (c & Hc & Hb).
  exists c. split; [done|]. by rewrite (subcategory_belongs_ext st st' sc c Hd).
Qed.

Lemma load_rows_consistent rs rows st n st' n' :
  rows_load (Ok rs) st n rows = Next st' n' ->
  (forall s, s ∈ rows ->
     pair_consistent st
       (Some (if PyStr.truthy (categorize rs s).1.2
              then (categorize rs s).1.2 else "others"%string))
       (categorize rs s).2) ->
  (forall e, e ∈ txn_enriched st -> enrichment_consistent st e) ->
  forall e, e ∈ txn_enriched st' -> enrichment_consistent st' e.
Proof.
  revert st n. induction rows as [|s rest IH]; intros st n; simpl.
  - intros [= <- <-] _ Hinv. done.
  - destruct (row_load (Ok rs) st n s) as [st1 n1|err] eqn:Hrow; [|done].
    intros Hrest Hpairs Hinv.
    pose proof Hrow as Hframe. apply load_row_next in Hframe as (Hd & _).
    apply (IH st1 n1 Hrest).
    + intros s' Hs'. apply (pair_consistent_ext st st1 _ _ Hd).
      apply Hpairs, elem_of_cons. by right.
    + intros e He. unfold enrichment_consistent.
      apply (pair_consistent_ext st st1 _ _ Hd).
      destruct (load_row_enriched _ _ _ _ _ _ _ Hrow He) as [Hold | [-> ->]].
      * by apply Hinv.
      * apply Hpairs, elem_of_cons. by left.
Qed.

Lemma update_conflicting_elem tenant applies hash upd rows rid rows' r' :
  update_conflicting tenant applies hash upd rows = Some (rid, rows') ->
  r' ∈ rows' -> r' ∈ rows \/ exists r, r ∈ rows /\ r' = upd r.
Proof.
  revert rid rows'. induction rows as [|r rest IH]; intros rid rows' H Hin;
    simpl in H; [done|].
  destruct (conflicts tenant applies hash r).
  - injection H as <- <-. apply elem_of_cons in Hin as [-> | Hin].
    + right. exists r. split; [apply elem_of_cons; by left | done].
    + left. apply elem_of_cons. by right.
  - destruct (update_conflicting tenant applies hash upd rest)
      as [[rid0 rest']|] eqn:Hrest; [|done].
    injection H as <- <-. apply elem_of_cons in Hin as [-> | Hin].
    + left. apply elem_of_cons. by left.
    + destruct (IH _ _ eq_refl Hin) as [Hold | (r0 & Hr0 & ->)].
      * left. apply elem_of_cons. by right.
      * right. exists r0. split; [apply elem_of_cons; by right | done].
Qed.

Lemma subcategory_exists_belongs st sc cat :
  subcategory_exists st sc cat = true -> subcategory_belongs st sc cat = true.
Proof.
  unfold subcategory_exists, subcategory_belongs.
  rewrite !existsb_exists. intros (x & Hx & Hb). exists x. split; [done|].
  by apply andb_true_iff in Hb as [-> _].
Qed.

Lemma upsert_rule_consistent now new_id st applies pattern category subcategory
    prio creator tenant src rid st' :
  upsert_rule sha1_hexdigest now new_id st applies pattern category subcategory
    prio creator tenant src = (rid, st') ->
  pair_consistent st (Some category) subcategory ->
  (forall r, r ∈ merchant_rules st ->
             pair_consistent st (category_code r) (subcategory_code r)) ->
  dim_subcategory st' = dim_subcategory st
  /\ forall r, r ∈ merchant_rules st' ->
               pair_consistent st' (category_code r) (subcategory_code r).
Proof.
  unfold upsert_rule. intros H Hpair Hinv.
  destruct (update_conflicting _ _ _ _ _) as [[rid0 rows]|] eqn:Hupd;
    injection H as <- <-; (split; [done|]); simpl; intros r Hr;
    apply (pair_consistent_ext st); try done.
  - destruct (update_conflicting_elem _ _ _ _ _ _ _ _ Hupd Hr)
      as [Hold | (r0 & _ & ->)]; [by apply Hinv | done].
  - apply elem_of_app in Hr as [Hold | Hnew]; [by apply Hinv|].
    by apply list_elem_of_singleton in Hnew as ->.
Qed.

(** C8, amended: the learning path writes a rule's subcategory only when
    it belongs to the rule's category, so it keeps the rules consistent;
    the loader copies the pair of the matched rule (or of the keyword
    fallback) into the Enrichment without looking at the subcategory's
    parent, so every Enrichment is consistent when the rules in use and the
    three pairs of the credit fallback are. *)
Theorem category_invariant_preserved :
  (forall query_error now today_start new_id st c user_id merchant_name
          description category subcategory tenant res st' c',
     learn_from_edit sha1_hexdigest query_error now today_start new_id st c
       user_id merchant_name description category subcategory tenant
     = (res, st', c') ->
     (forall r, r ∈ merchant_rules st ->
                pair_consistent st (category_code r) (subcategory_code r)) ->
     forall r, r ∈ merchant_rules st' ->
               pair_consistent st' (category_code r) (subcategory_code r))
  /\ (forall rs st user_id inserted st',
        user_load (Ok rs) st user_id = (Ok inserted, st') ->
        (forall d, d ∈ rs ->
           pair_consistent st (category_code (rule d)) (subcategory_code (rule d))) ->
        credit_pairs_consistent st ->
        (forall e, e ∈ txn_enriched st -> enrichment_consistent st e) ->
        forall e, e ∈ txn_enriched st' -> enrichment_consistent st' e).
Proof.
  split.
  - intros query_error now today_start new_id st c user_id merchant_name
      description category subcategory tenant res st' c' H Hinv.
    unfold learn_from_edit in H.
    destruct category as [cc|]; [|by injection H as <- <- <-].
    destruct (negb (PyStr.truthy cc)); [by injection H as <- <- <-|].
    destruct (negb (_check_rate_limit _ _ _ _ _)); [by injection H as <- <- <-|].
    destruct (negb (category_exists st cc)); [by injection H as <- <- <-|].
    destruct (bool_decide (tenant = Some ""%string)); [by injection H as <- <- <-|].
    assert (Hpair : pair_consistent st (Some cc) (checked_subcategory st cc subcategory)).
    { intros sc Hsc. exists cc. split; [done|].
      unfold checked_subcategory in Hsc. destruct subcategory as [sc0|]; [|done].
      destruct (PyStr.truthy sc0 && subcategory_exists st sc0 cc) eqn:E; [|done].
      injection Hsc as ->. apply andb_true_iff in E as [_ E].
      by apply subcategory_exists_belongs. }
    destruct (if PyStr.otruthy merchant_name then merchant_pattern merchant_name
              else None) as [pattern|].
    + destruct (upsert_rule _ _ _ _ _ _ _ _ _ _ _ _) as [rid st1] eqn:Hup.
      injection H as <- <- <-.
      by apply (upsert_rule_consistent _ _ _ _ _ _ _ _ _ _ _ _ _ Hup Hpair Hinv).
    + destruct (if PyStr.otruthy description then desc_pattern description
                else None) as [pattern|]; [|by injection H as <- <- <-].
      destruct (upsert_rule _ _ _ _ _ _ _ _ _ _ _ _) as [rid st1] eqn:Hup.
      injection H as <- <- <-.
      by apply (upsert_rule_consistent _ _ _ _ _ _ _ _ _ _ _ _ _ Hup Hpair Hinv).
  - intros rs st user_id inserted st' H Hrules (Hp1 & Hp2 & Hp3) Hinv.
    unfold load_staging_for_user in H.
    destruct (rows_load (Ok rs) st 0%nat (staging_rows_for st user_id))
      as [st1 n1|err] eqn:Hrun; [|done].
    injection H as <- <-.
    apply (load_rows_consistent _ _ _ _ _ _ Hrun); [|done].
    intros s _.
    destruct (categorize rs s) as [[mn cat] sub] eqn:Hc. simpl.
    apply categorize_pair in Hc
      as [(x & Hx & Hcat & Hsub & Htruthy)
         | [[-> ->] | [[-> ->] | [[-> ->] | ->]]]].
    + rewrite Htruthy, <- Hcat, <- Hsub. by apply Hrules.
    + exact Hp1.
    + exact Hp2.
    + exact Hp3.
    + intros sc Hsc. discriminate Hsc.
Qed.

End CategoryInvariant.

(** C8 fails as stated: with a rule whose subcategory belongs to another
    category, the loader writes an Enrichment of category "shopping" with the
    subcategory "food_delivery", whose parent is "nightlife". *)
Lemma loader_writes_mismatched_subcategory :
  let st' :=
    (load_staging_for_user sample_re_search sample_ratio_080 sample_extract
       sample_normalize sample_infer sample_fp no_fault
       (Ok [to_dict rule_mismatched]) one_row_store "u1").2 in
  exists e,
    txn_enriched st' = [e]
    /\ TxnEnriched.category_code e = Some "shopping"%string
    /\ TxnEnriched.subcategory_code e = Some "food_delivery"%string
    /\ subcategory_belongs st' "food_delivery" "nightlife" = true
    /\ subcategory_belongs st' "food_delivery" "shopping" = false
    /\ ~ enrichment_consistent st' e.
Proof.
  eexists. split_and!; [reflexivity | reflexivity | reflexivity | reflexivity
                        | reflexivity |].
  intros H. destruct (H "food_delivery"%string eq_refl) as (cat & Hcat & Hb).
  injection Hcat as <-. discriminate Hb.
Qed.

Lemma category_invariant_preserved_witness :
  let st' :=
    (load_staging_for_user sample_re_search sample_ratio_080 sample_extract
       sample_normalize sample_infer sample_fp no_fault
       (Ok [to_dict rule_matched_pair]) reference_store "u1").2 in
  length (txn_enriched st') = 1%nat
  /\ Forall (enrichment_consistent st') (txn_enriched st').
Proof.
  split; [reflexivity|]. apply Forall_forall.
  apply (proj2 (category_invariant_preserved sample_re_search sample_ratio_080
                  sample_extract sample_normalize sample_infer sample_fp
                  no_fault sample_hash)
           [to_dict rule_matched_pair] reference_store "u1" 1%nat).
  - reflexivity.
  - intros d Hd. apply list_elem_of_singleton in Hd as ->.
    intros sc [= <-]. exists "nightlife"%string. split; reflexivity.
  - split_and!; intros sc [= <-]; eexists; split; reflexivity.
  - intros e He. by apply elem_of_nil in He.
Defined.

(** The credit fallback is copied in the same way: with a dimension in which
    "p2p_personal" is filed under another category, an unmatched credit gets
    an Enrichment that breaks the invariant. *)
Example credit_fallback_pair_is_not_checked :
  let st :=
    {| merchant_rules := [];
       dim_category := [cat_shopping];
       dim_subcategory := [sample_subcategory "p2p_personal" "shopping"];
       txn_staging :=
         [{| TxnStaging.staging_id := "c1";
             TxnStaging.upload_id := "up1";
             TxnStaging.user_id := "u1";
             TxnStaging.raw_txn_id := None;
             TxnStaging.txn_date := 20000;
             TxnStaging.description_raw := Some "REFUND"%string;
             TxnStaging.amount := 1000;
             TxnStaging.direction := Credit;
             TxnStaging.currency := None;
             TxnStaging.merchant_raw := None;
             TxnStaging.account_ref := None;
             TxnStaging.parsed_ok := true |}];
       txn_fact := [];
       txn_enriched := [] |} in
  let st' :=
    (load_staging_for_user sample_re_search sample_ratio_070 sample_extract
       sample_normalize sample_infer sample_fp no_fault (Ok []) st "u1").2 in
  (TxnEnriched.category_code <$> txn_enriched st') = [Some "transfers"%string]
  /\ (TxnEnriched.subcategory_code <$> txn_enriched st') = [Some "p2p_personal"%string]
  /\ subcategory_belongs st' "p2p_personal" "transfers" = false.
Proof. split_and!; reflexivity. Qed.

(** * Further properties *)

(** ** The cache *)

Lemma get_after_set (now now' : Z) (c : gmap string cache_entry)
    (k k' : string) (d : list RuleDict) :
  _get_from_cache now' (_set_cache now c k d) k'
  = if decide (k' = k)
    then (if (now' <? now + 600)%Z then Some d else None)
    else _get_from_cache now' c k'.
Proof.
  unfold _get_from_cache, _is_cache_valid, _set_cache, _cache_ttl_seconds.
  destruct (decide (k' = k)) as [->|Hne].
  - rewrite lookup_insert_eq. simpl. by destruct (now' <? now + 600)%Z.
  - by rewrite lookup_insert_ne.
Qed.

(** X1: an entry written at [now] is read back until [now + 600] seconds
    and no longer from then on, whatever was stored under the key before,
    fresh or expired; writing it leaves the other keys as they read
    before, and a second write to the key replaces the first, data and
    expiry. *)
Theorem cache_set_then_get (now now' later : Z) (c : gmap string cache_entry)
    (k k' : string) (d d' : list RuleDict) :
  _get_from_cache now' (_set_cache now c k d) k'
  = (if decide (k' = k)
     then (if (now' <? now + 600)%Z then Some d else None)
     else _get_from_cache now' c k')
  /\ _get_from_cache now' (_set_cache later (_set_cache now c k d) k d') k
     = (if (now' <? later + 600)%Z then Some d' else None).
Proof.
  split; [apply get_after_set|].
  by rewrite get_after_set, decide_True.
Qed.

(** X2: [clear_cache] with a non-empty key forgets that key and nothing
    else; with no key, or with the empty string, it forgets every key. *)
Theorem clear_cache_forgets (now : Z) (c : gmap string cache_entry)
    (key : option string) (k' : string) :
  _get_from_cache now (clear_cache c key) k'
  = match key with
    | Some k =>
        if PyStr.truthy k
        then (if decide (k' = k) then None else _get_from_cache now c k')
        else None
    | None => None
    end.
Proof.
  unfold _get_from_cache, _is_cache_valid, clear_cache.
  destruct key as [k|]; [|by rewrite lookup_empty].
  destruct (PyStr.truthy k); [|by rewrite lookup_empty].
  destruct (decide (k' = k)) as [->|Hne].
  - by rewrite lookup_delete_eq.
  - by rewrite lookup_delete_ne.
Qed.

(** ** Fetching the rules *)

(** X3: a fetch that goes to the store returns exactly the active rules that
    are global or belong to the tenant asked for (only the global ones when
    no tenant is given), each once, in the order of the query, with no
    matcher key set. *)
Theorem fresh_fetch_is_scoped (now : Z) (c : gmap string cache_entry)
    (table : list MerchantRule) (tenant : option string) (use_cache : bool) :
  (if use_cache then _get_from_cache now c (merchant_rules_key tenant) else None)
    = None ->
  exists rules,
    (get_merchant_rules now c (Ok table) tenant use_cache).1 = Ok rules
    /\ rule <$> rules ≡ₚ filter (fun r => in_scope tenant r = true) table
    /\ StronglySorted rule_before (rule <$> rules)
    /\ (forall d, d ∈ rules ->
          active (rule d) = true
          /\ (tenant_id (rule d) = None
              \/ (PyStr.otruthy tenant = true /\ tenant_id (rule d) = tenant))
          /\ matched_text d = None /\ fuzzy_score d = None).
Proof.
  intros Hmiss. unfold get_merchant_rules. rewrite Hmiss. simpl.
  exists (query_rules tenant table). split_and!.
  - done.
  - unfold query_rules. rewrite <- list_fmap_compose.
    change (rule ∘ to_dict) with (@id MerchantRule). rewrite list_fmap_id.
    apply merge_sort_Permutation.
  - apply query_rules_sorted.
  - intros d Hd. apply query_rules_elem in Hd as (r & -> & _ & Hs). simpl.
    unfold in_scope in Hs. apply andb_true_iff in Hs as [Hact Hten].
    split_and!; [done | | done | done].
    destruct (PyStr.otruthy tenant).
    + apply orb_true_iff in Hten as [H | H]; apply bool_decide_eq_true in H;
        [by right | by left].
    + apply bool_decide_eq_true in Hten. by left.
Qed.

Lemma fresh_fetch_is_scoped_witness :
  exists rules,
    (get_merchant_rules 0 ∅ (Ok sample_table) (Some "t1"%string) true).1 = Ok rules
    /\ rule <$> rules
       ≡ₚ filter (fun r => in_scope (Some "t1"%string) r = true) sample_table
    /\ StronglySorted rule_before (rule <$> rules)
    /\ (forall d, d ∈ rules ->
          active (rule d) = true
          /\ (tenant_id (rule d) = None
              \/ (PyStr.otruthy (Some "t1"%string) = true
                  /\ tenant_id (rule d) = Some "t1"%string))
          /\ matched_text d = None /\ fuzzy_score d = None).
Proof.
  apply (fresh_fetch_is_scoped 0 ∅ sample_table (Some "t1"%string) true).
  reflexivity.
Defined.

(** X4: once a fetch has filled the cache at [now], every call for the same
    scope before [now + 600] returns that list and leaves the cache alone,
    whatever the store holds or raises by then; from [now + 600] on the
    store is read again. *)
Theorem cached_rules_hide_the_store (now now' : Z) (c : gmap string cache_entry)
    (table : list MerchantRule) (later : result (list MerchantRule))
    (tenant : option string) :
  _get_from_cache now c (merchant_rules_key tenant) = None ->
  let first := get_merchant_rules now c (Ok table) tenant true in
  first.1 = Ok (query_rules tenant table)
  /\ ((now' < now + 600)%Z ->
      get_merchant_rules now' first.2 later tenant true = first)
  /\ ((now + 600 <= now')%Z ->
      (get_merchant_rules now' first.2 later tenant true).1
      = match later with
        | Ok rows => Ok (query_rules tenant rows)
        | Raise e => Raise e
        end).
Proof.
  intros Hmiss first. unfold first, get_merchant_rules. rewrite Hmiss. simpl.
  split_and!; [done | |].
  - intros Hlt. rewrite get_after_set, decide_True by done.
    by rewrite (proj2 (Z.ltb_lt _ _) Hlt).
  - intros Hge. rewrite get_after_set, decide_True by done.
    rewrite (proj2 (Z.ltb_ge _ _) Hge). by destruct later.
Qed.

Lemma cached_rules_hide_the_store_witness :
  let first := get_merchant_rules 0 ∅ (Ok sample_table) None true in
  first.1 = Ok (query_rules None sample_table)
  /\ ((599 < 0 + 600)%Z ->
      get_merchant_rules 599 first.2 (Raise store_down) None true = first)
  /\ ((0 + 600 <= 599)%Z ->
      (get_merchant_rules 599 first.2 (Raise store_down) None true).1
      = Raise store_down).
Proof.
  apply (cached_rules_hide_the_store 0 599 ∅ sample_table (Raise store_down) None).
  reflexivity.
Defined.

(** ** The matcher on missing input *)

Section MatcherEdges.

Variable re_search : string -> string -> re_outcome.
Variable seq_ratio : string -> string -> Q.

Lemma try_rule_without_merchant (m d : option string) (x hit : RuleDict) :
  PyStr.otruthy m = false ->
  try_rule re_search m d x = Some hit ->
  applies_to (rule x) = Description
  /\ exists t g0 groups,
       d = Some t /\ PyStr.truthy t = true
       /\ re_search (pattern_regex (rule x)) t = ReMatch g0 groups
       /\ hit = set_matched_text x (if groups then g0 else PyStr.take 50 t).
Proof.
  unfold try_rule. intros Hm H.
  destruct (negb (PyStr.truthy (pattern_regex (rule x)))); [done|].
  destruct (applies_to (rule x)).
  - destruct m as [mm|]; [|done]. simpl in Hm. by rewrite Hm in H.
  - split; [done|]. destruct d as [t|]; [|done].
    destruct (PyStr.truthy t) eqn:Ht; [|done].
    destruct (re_search (pattern_regex (rule x)) t) as [g0 groups| |] eqn:Hs;
      [|done|done].
    injection H as <-. by exists t, g0, groups.
Qed.

(** X5: without a merchant name ([None] or empty) the fuzzy fallback is not
    tried and merchant rules are not looked at: a match is the regex match
    of a description rule on a non-empty description, and with no
    description either there is no match. *)
Theorem match_without_merchant (rules : list RuleDict) (m d : option string) :
  PyStr.otruthy m = false ->
  (forall hit, match_rules re_search seq_ratio rules m d = Some hit ->
     exists x t g0 groups,
       x ∈ rules /\ applies_to (rule x) = Description
       /\ d = Some t /\ PyStr.truthy t = true
       /\ re_search (pattern_regex (rule x)) t = ReMatch g0 groups
       /\ hit = set_matched_text x (if groups then g0 else PyStr.take 50 t))
  /\ (PyStr.otruthy d = false ->
      match_rules re_search seq_ratio rules m d = None).
Proof.
  intros Hm.
  assert (Hrules : match_rules re_search seq_ratio rules m d
                   = match_regex re_search rules m d).
  { unfold match_rules. destruct (match_regex re_search rules m d); [done|].
    destruct m as [mm|]; [|done]. simpl in Hm. by rewrite Hm. }
  rewrite Hrules. split.
  - intros hit Hhit.
    apply match_regex_some in Hhit as (l1 & x & l2 & -> & _ & Hx).
    destruct (try_rule_without_merchant m d x hit Hm Hx)
      as (Happ & t & g0 & groups & Hd & Ht & Hs & Hhit).
    exists x, t, g0, groups. split_and!; try done.
    apply elem_of_app. right. apply elem_of_cons. by left.
  - intros Hd. apply match_regex_none. apply Forall_forall. intros x _.
    destruct (try_rule re_search m d x) as [hit|] eqn:Hx; [|done].
    destruct (try_rule_without_merchant m d x hit Hm Hx)
      as (_ & t & _ & _ & -> & Ht & _). simpl in Hd. congruence.
Qed.

(** X6: a match is one of the rules it was given, with its columns as they
    are: either the rule's own turn of the regex loop returned it, or no
    rule regex-matched and it is a fuzzy hit on the merchant name, scored
    above 0.75 and carrying the name as matched text. *)
Theorem match_returns_given_rule (rules : list RuleDict) (m d : option string)
    (hit : RuleDict) :
  match_rules re_search seq_ratio rules m d = Some hit ->
  exists x,
    x ∈ rules /\ rule hit = rule x /\ is_Some (matched_text hit)
    /\ (try_rule re_search m d x = Some hit
        \/ exists name s,
             m = Some name
             /\ match_regex re_search rules m d = None
             /\ hit = fuzzy_hit name x s
             /\ (best_score_threshold < s)%Q).
Proof.
  unfold match_rules.
  destruct (match_regex re_search rules m d) as [h|] eqn:Hwalk.
  - intros [= ->].
    apply match_regex_some in Hwalk as (l1 & x & l2 & -> & _ & Hx).
    exists x. split_and!.
    + apply elem_of_app. right. apply elem_of_cons. by left.
    + by eapply try_rule_rule.
    + unfold try_rule in Hx. repeat (case_match; simplify_eq/=; try done).
    + by left.
  - destruct m as [name|]; [|done]. destruct (PyStr.truthy name); [|done].
    unfold _fuzzy_match_merchant. intros Hf.
    destruct (fuzzy_loop_spec seq_ratio name (PyStr.strip (PyStr.upper name))
                rules None best_score_threshold)
      as [[Heq _] | (l1 & x & l2 & s & -> & _ & Hlt & Heq & _)]; [congruence|].
    rewrite Heq in Hf. injection Hf as <-.
    exists x. split_and!.
    + apply elem_of_app. right. apply elem_of_cons. by left.
    + done.
    + by eexists.
    + right. by exists name, s.
Qed.

End MatcherEdges.

Lemma match_without_merchant_witness :
  match_rules sample_re_search sample_ratio_080 [to_dict rule_amazon_10]
    (Some ""%string) None = None.
Proof.
  apply (match_without_merchant sample_re_search sample_ratio_080
           [to_dict rule_amazon_10] (Some ""%string) None eq_refl).
  reflexivity.
Defined.

Lemma match_returns_given_rule_witness :
  exists x,
    x ∈ [to_dict rule_amazon_10]
    /\ rule (fuzzy_hit "AMAZN" (to_dict rule_amazon_10) (80 # 100)) = rule x
    /\ is_Some (matched_text (fuzzy_hit "AMAZN" (to_dict rule_amazon_10) (80 # 100)))
    /\ (try_rule sample_re_search (Some "AMAZN"%string) None x
        = Some (fuzzy_hit "AMAZN" (to_dict rule_amazon_10) (80 # 100))
        \/ exists name s,
             Some "AMAZN"%string = Some name
             /\ match_regex sample_re_search [to_dict rule_amazon_10]
                  (Some "AMAZN"%string) None = None
             /\ fuzzy_hit "AMAZN" (to_dict rule_amazon_10) (80 # 100)
                = fuzzy_hit name x s
             /\ (best_score_threshold < s)%Q).
Proof.
  apply (match_returns_given_rule sample_re_search sample_ratio_080
           [to_dict rule_amazon_10] (Some "AMAZN"%string) None).
  reflexivity.
Defined.

(** ** Facts about the string helpers *)

Lemma all_chars_app P s1 s2 :
  all_chars P (s1 ++ s2)%string = all_chars P s1 && all_chars P s2.
Proof.
  induction s1 as [|c s1 IH]; simpl; [done|].
  by rewrite IH, andb_assoc.
Qed.

Lemma all_chars_impl (P Q : ascii -> bool) s :
  (forall c, P c = true -> Q c = true) ->
  all_chars P s = true -> all_chars Q s = true.
Proof.
  intros HPQ. induction s as [|c s IH]; simpl; [done|].
  intros H. apply andb_true_iff in H as [Hc Hs].
  by rewrite (HPQ c Hc), IH.
Qed.

Lemma all_chars_map_chars P f s :
  (forall c, P (f c) = true) -> all_chars P (PyStr.map_chars f s) = true.
Proof.
  intros Hf. induction s as [|c s IH]; simpl; [done|]. by rewrite Hf, IH.
Qed.

Lemma all_chars_map_chars_impl (P Q : ascii -> bool) f s :
  (forall c, P c = true -> Q (f c) = true) ->
  all_chars P s = true -> all_chars Q (PyStr.map_chars f s) = true.
Proof.
  intros Hf. induction s as [|c s IH]; simpl; [done|].
  intros H. apply andb_true_iff in H as [Hc Hs]. by rewrite (Hf c Hc), IH.
Qed.

Lemma upper_char_not_lower c : negb (PyStr.is_lower (PyStr.upper_char c)) = true.
Proof. by destruct c as [[] [] [] [] [] [] [] []]. Qed.

Lemma alnum_not_space c : PyStr.is_alnum c = true -> PyStr.is_space c = false.
Proof. by destruct c as [[] [] [] [] [] [] [] []]. Qed.

Lemma alnum_not_special c :
  PyStr.is_alnum c = true -> is_regex_special c = false.
Proof. by destruct c as [[] [] [] [] [] [] [] []]. Qed.

Lemma alnum_upper_char c :
  PyStr.is_alnum c = true -> PyStr.is_alnum (PyStr.upper_char c) = true.
Proof. by destruct c as [[] [] [] [] [] [] [] []]. Qed.

Lemma re_escape_char_alnum c :
  PyStr.is_alnum c = true -> re_escape_char c = String c "".
Proof. unfold re_escape_char. by intros ->. Qed.

Lemma re_escape_alnum s : all_chars PyStr.is_alnum s = true -> re_escape s = s.
Proof.
  induction s as [|c s IH]; simpl; [done|].
  intros H. apply andb_true_iff in H as [Hc Hs].
  by rewrite (re_escape_char_alnum c Hc), (IH Hs).
Qed.

(** The characters [sub_non_alnum] lets through are those of the class, and
    the space it puts in. *)
Lemma sub_non_alnum_chars P b s :
  P " "%char = true ->
  all_chars (fun c => negb (PyStr.is_alnum c) || P c) s = true ->
  all_chars P (PyStr.sub_non_alnum b s) = true.
Proof.
  intros Hsp. revert b. induction s as [|c s IH]; intros b; simpl; [done|].
  intros H. apply andb_true_iff in H as [Hc Hs].
  destruct (PyStr.is_alnum c) eqn:E; simpl in *.
  - by rewrite Hc, IH.
  - destruct b; simpl; [by apply IH | by rewrite Hsp, IH].
Qed.

(** The tokens of [split] are made of the non-space characters of the text
    and are not empty. *)
Lemma split_from_chars P cur s :
  all_chars (fun c => PyStr.is_space c || P c) s = true ->
  all_chars P cur = true ->
  Forall (fun t => all_chars P t = true /\ PyStr.truthy t = true)
    (PyStr.split_from cur s).
Proof.
  revert cur. induction s as [|c s IH]; intros cur; simpl.
  - intros _ Hcur. destruct (PyStr.truthy cur) eqn:E; by repeat constructor.
  - intros H Hcur. apply andb_true_iff in H as [Hc Hs].
    destruct (PyStr.is_space c) eqn:E; simpl in *.
    + destruct (PyStr.truthy cur) eqn:Et.
      * constructor; [done|]. by apply IH.
      * by apply IH.
    + apply IH; [done|]. rewrite all_chars_app. simpl. by rewrite Hcur, Hc.
Qed.

Lemma split_chars P s :
  all_chars (fun c => PyStr.is_space c || P c) s = true ->
  Forall (fun t => all_chars P t = true /\ PyStr.truthy t = true) (PyStr.split s).
Proof. intros H. by apply split_from_chars. Qed.

(** The tokens both pattern builders work on are alphanumeric. *)
Lemma tokens_alnum s :
  Forall (fun t => all_chars PyStr.is_alnum t = true /\ PyStr.truthy t = true)
    (PyStr.split (PyStr.sub_non_alnum false s)).
Proof.
  apply split_chars.
  apply (sub_non_alnum_chars (fun c => PyStr.is_space c || PyStr.is_alnum c));
    [done|].
  induction s as [|c s IH]; simpl; [done|]. rewrite IH.
  by destruct (PyStr.is_alnum c), (PyStr.is_space c).
Qed.

Lemma tokens_of_upper_not_lower s :
  Forall (fun t => all_chars (fun c => negb (PyStr.is_lower c)) t = true
                   /\ PyStr.truthy t = true)
    (PyStr.split (PyStr.sub_non_alnum false (PyStr.upper s))).
Proof.
  apply split_chars.
  apply (all_chars_impl (fun c => negb (PyStr.is_lower c))); [by intros c ->; destruct (PyStr.is_space c)|].
  apply sub_non_alnum_chars; [done|].
  apply (all_chars_impl (fun c => negb (PyStr.is_lower c)));
    [by intros c ->; destruct (negb (PyStr.is_alnum c))|].
  apply all_chars_map_chars, upper_char_not_lower.
Qed.

(** ** The pattern builders *)

Lemma stopword_filter_on_upper (tokens : list string) :
  Forall (fun t => all_chars (fun c => negb (PyStr.is_lower c)) t = true) tokens ->
  List.filter
    (fun t => negb (bool_decide (t ∈ STOPWORDS)) && (2 <=? String.length t)%nat)
    tokens
  = List.filter (fun t => (2 <=? String.length t)%nat) tokens.
Proof.
  assert (Hstop : Forall (fun w => all_chars (fun c => negb (PyStr.is_lower c)) w
                                   = false) STOPWORDS).
  { unfold STOPWORDS. repeat constructor. }
  induction tokens as [|t rest IH]; [done|].
  intros Htok. apply Forall_cons in Htok as [Ht Hrest].
  assert (Hnot : bool_decide (t ∈ STOPWORDS) = false).
  { apply bool_decide_eq_false. intros Hin.
    rewrite Forall_forall in Hstop. specialize (Hstop t Hin). congruence. }
  cbn [List.filter]. rewrite Hnot. cbn [negb andb]. by rewrite (IH Hrest).
Qed.

Lemma re_escape_tokens (tokens : list string) :
  Forall (fun t => all_chars PyStr.is_alnum t = true /\ PyStr.truthy t = true)
    tokens ->
  re_escape <$> tokens = tokens.
Proof.
  induction 1 as [|t rest [Ht _] _ IH]; [done|].
  by rewrite fmap_cons, (re_escape_alnum t Ht), IH.
Qed.

Lemma Forall_filter_list {A} (P : A -> Prop) (f : A -> bool) (l : list A) :
  Forall P l -> Forall P (List.filter f l).
Proof.
  induction 1 as [|x rest Hx _ IH]; simpl; [done|].
  destruct (f x); [by constructor | done].
Qed.

(** X7: [desc_pattern] in closed form.  The stop-word filter removes
    nothing, because the tokens are upper-cased before they are compared
    with the lower-case [STOPWORDS], and escaping changes nothing, because
    the tokens are alphanumeric: the pattern is made of the first three
    tokens of two characters or more, stop words included, and there is no
    pattern when fewer than two such tokens exist. *)
Theorem desc_pattern_keeps_stopwords (description : string) :
  desc_pattern (Some description)
  = let tokens :=
      List.filter (fun t => (2 <=? String.length t)%nat)
        (PyStr.split (PyStr.sub_non_alnum false (PyStr.upper description))) in
    if negb (PyStr.truthy description) || (length tokens <? 2)%nat then None
    else Some ("(?i).*" ++ PyStr.join ".*" (take 3 tokens) ++ ".*")%string.
Proof.
  unfold desc_pattern, MIN_PATTERN_TOKENS.
  destruct (negb (PyStr.truthy description)); [done|]. simpl orb.
  rewrite stopword_filter_on_upper.
  2:{ eapply Forall_impl; [apply tokens_of_upper_not_lower|]. by intros t [Ht _]. }
  cbv zeta. destruct (_ <? 2)%nat; [done|].
  rewrite re_escape_tokens; [done|].
  apply Forall_take, Forall_filter_list, tokens_alnum.
Qed.

Lemma append_empty_r (s : string) : (s ++ "")%string = s.
Proof.
  induction s as [|c s IH]; [done|].
  change (String c (s ++ "")%string = String c s). by f_equal.
Qed.

Lemma remove_pair_step (a b c d : ascii) (s' : string) :
  PyStr.remove_pair a b (String c (String d s'))
  = if Ascii.eqb c a && Ascii.eqb d b
    then PyStr.remove_pair a b s'
    else String c (PyStr.remove_pair a b (String d s')).
Proof. by destruct s'. Qed.

(** A text in which [a] does not occur is left alone by [remove_pair], and
    the removal goes on after it. *)
Lemma remove_pair_skip (a b : ascii) (t rest : string) :
  all_chars (fun c => negb (Ascii.eqb c a)) t = true ->
  PyStr.remove_pair a b (t ++ rest)%string
  = (t ++ PyStr.remove_pair a b rest)%string.
Proof.
  induction t as [|c t IH]; [done|].
  intros H. simpl in H. apply andb_true_iff in H as [Hc Ht].
  apply negb_true_iff in Hc.
  change ((String c t ++ rest)%string) with (String c (t ++ rest)%string).
  destruct (t ++ rest)%string as [|d s'] eqn:E.
  - destruct t; [|done]. change (rest = ""%string) in E. by subst rest.
  - rewrite remove_pair_step, Hc. cbn [andb]. by rewrite (IH Ht).
Qed.

Lemma join_chars (P : ascii -> bool) (sep : string) (tokens : list string) :
  all_chars P sep = true ->
  Forall (fun t => all_chars P t = true) tokens ->
  all_chars P (PyStr.join sep tokens) = true.
Proof.
  intros Hsep. induction 1 as [|t rest Ht Hrest IH]; [done|].
  destruct rest as [|t' rest]; [done|].
  change (PyStr.join sep (t :: t' :: rest))
    with (t ++ sep ++ PyStr.join sep (t' :: rest))%string.
  by rewrite !all_chars_app, Ht, Hsep, IH.
Qed.

Lemma remove_dot_star_join (tokens : list string) :
  Forall (fun t => all_chars PyStr.is_alnum t = true) tokens ->
  PyStr.remove_pair "."%char "*"%char (PyStr.join ".*" tokens)
  = PyStr.join "" tokens.
Proof.
  assert (Hdot : forall t, all_chars PyStr.is_alnum t = true ->
            all_chars (fun c => negb (Ascii.eqb c "."%char)) t = true).
  { intros t. apply all_chars_impl. intros c Hc.
    by destruct c as [[] [] [] [] [] [] [] []]. }
  induction 1 as [|t rest Ht Hrest IH]; [done|].
  destruct rest as [|t' rest].
  - simpl. rewrite <- (append_empty_r t) at 1.
    rewrite (remove_pair_skip _ _ _ _ (Hdot t Ht)). by rewrite append_empty_r.
  - change (PyStr.join ".*" (t :: t' :: rest))
      with (t ++ ".*" ++ PyStr.join ".*" (t' :: rest))%string.
    change (PyStr.join "" (t :: t' :: rest))
      with (t ++ PyStr.join "" (t' :: rest))%string.
    rewrite (remove_pair_skip _ _ _ _ (Hdot t Ht)).
    change (".*" ++ PyStr.join ".*" (t' :: rest))%string
      with (String "."%char (String "*"%char (PyStr.join ".*" (t' :: rest)))).
    cbn [PyStr.remove_pair Ascii.eqb Bool.eqb andb]. by rewrite IH.
Qed.

Lemma remove_chars_none drop s :
  all_chars (fun c => negb (drop c)) s = true -> PyStr.remove_chars drop s = s.
Proof.
  induction s as [|c s IH]; simpl; [done|].
  intros H. apply andb_true_iff in H as [Hc Hs].
  apply negb_true_iff in Hc. by rewrite Hc, IH.
Qed.

Lemma strip_no_space s :
  all_chars (fun c => negb (PyStr.is_space c)) s = true -> PyStr.strip s = s.
Proof.
  intros H. unfold PyStr.strip.
  assert (Hr : PyStr.rstrip s = s).
  { induction s as [|c s IH]; simpl; [done|].
    simpl in H. apply andb_true_iff in H as [Hc Hs].
    apply negb_true_iff in Hc. by rewrite Hc, IH. }
  rewrite Hr. destruct s as [|c s]; simpl; [done|].
  simpl in H. apply andb_true_iff in H as [Hc _].
  apply negb_true_iff in Hc. by rewrite Hc.
Qed.

(** X8: [merchant_pattern] in closed form, and what the fuzzy matcher reads
    in it.  A pattern exists when the stripped name has three characters or
    more and an alphanumeric token; it is the tokens joined by [.*] between
    two word boundaries, with nothing escaped; the text
    [_fuzzy_match_merchant] extracts from it is the tokens in upper case,
    run together without spaces. *)
Theorem merchant_pattern_shape (name : option string) (p : string) :
  merchant_pattern name = Some p ->
  exists n tokens,
    name = Some n
    /\ (3 <= String.length (PyStr.strip n))%nat
    /\ tokens = PyStr.split (PyStr.sub_non_alnum false (PyStr.strip n))
    /\ tokens <> []
    /\ Forall (fun t => all_chars PyStr.is_alnum t = true /\ PyStr.truthy t = true)
         tokens
    /\ p = ("(?i)" ++ backslash ++ "b" ++ PyStr.join ".*" tokens
            ++ backslash ++ "b")%string
    /\ pattern_text_of p = PyStr.upper (PyStr.join "" tokens).
Proof.
  unfold merchant_pattern, MIN_MERCHANT_LENGTH. intros H.
  destruct name as [n|]; [|done].
  destruct (negb (PyStr.truthy n) || _) eqn:Hguard; [done|].
  apply orb_false_iff in Hguard as [_ Hlen]. apply Nat.ltb_ge in Hlen.
  pose proof (tokens_alnum (PyStr.strip n)) as Htok.
  set (tokens := PyStr.split (PyStr.sub_non_alnum false (PyStr.strip n))) in *.
  destruct tokens as [|t rest] eqn:Etok; [done|].
  rewrite <- Etok in *. rewrite (re_escape_tokens tokens Htok) in H.
  injection H as <-.
  exists n, tokens. split_and!; try done; [by rewrite Etok|].
  assert (Halnum : Forall (fun t => all_chars PyStr.is_alnum t = true) tokens).
  { eapply Forall_impl; [exact Htok|]. by intros ? [? _]. }
  unfold pattern_text_of.
  change (strip_inline_flag
            ("(?i)" ++ backslash ++ "b" ++ PyStr.join ".*" tokens
             ++ backslash ++ "b")%string)
    with (String (ascii_of_nat 92)
            (String "b"%char (PyStr.join ".*" tokens ++ backslash ++ "b")%string)).
  cbn [PyStr.remove_pair].
  replace (Ascii.eqb (ascii_of_nat 92) (ascii_of_nat 92) && Ascii.eqb "b" "b")
    with true by done.
  rewrite remove_pair_skip.
  2:{ apply join_chars; [done|].
      eapply Forall_impl; [exact Halnum|]. intros s. apply all_chars_impl.
      intros c Hc. by destruct c as [[] [] [] [] [] [] [] []]. }
  change (PyStr.remove_pair (ascii_of_nat 92) "b" (backslash ++ "b")%string)
    with ""%string.
  rewrite append_empty_r, (remove_dot_star_join tokens Halnum).
  assert (Hjoin : all_chars PyStr.is_alnum (PyStr.join "" tokens) = true).
  { by apply join_chars. }
  rewrite remove_chars_none.
  2:{ eapply all_chars_impl; [|exact Hjoin]. intros c Hc.
      by rewrite (alnum_not_special c Hc). }
  apply strip_no_space.
  apply (all_chars_map_chars_impl PyStr.is_alnum); [|exact Hjoin].
  intros c Hc. by destruct c as [[] [] [] [] [] [] [] []].
Qed.

Lemma merchant_pattern_shape_witness :
  exists n tokens,
    Some "Amazon Pay"%string = Some n
    /\ (3 <= String.length (PyStr.strip n))%nat
    /\ tokens = PyStr.split (PyStr.sub_non_alnum false (PyStr.strip n))
    /\ tokens <> []
    /\ Forall (fun t => all_chars PyStr.is_alnum t = true /\ PyStr.truthy t = true)
         tokens
    /\ ("(?i)" ++ backslash ++ "bAmazon.*Pay" ++ backslash ++ "b")%string
       = ("(?i)" ++ backslash ++ "b" ++ PyStr.join ".*" tokens
          ++ backslash ++ "b")%string
    /\ pattern_text_of ("(?i)" ++ backslash ++ "bAmazon.*Pay" ++ backslash ++ "b")
       = PyStr.upper (PyStr.join "" tokens).
Proof.
  apply (merchant_pattern_shape (Some "Amazon Pay"%string)
           ("(?i)" ++ backslash ++ "bAmazon.*Pay" ++ backslash ++ "b")%string).
  reflexivity.
Defined.

(** ** Learning from an edit *)

Section LearningMore.

Variable sha1_hexdigest : string -> string.

Lemma merchant_pattern_falsy (m : option string) :
  PyStr.otruthy m = false -> merchant_pattern m = None.
Proof.
  destruct m as [n|]; [|done]. simpl. intros Hn.
  unfold merchant_pattern. by rewrite Hn.
Qed.

Lemma desc_pattern_falsy (d : option string) :
  PyStr.otruthy d = false -> desc_pattern d = None.
Proof.
  destruct d as [n|]; [|done]. simpl. intros Hn.
  unfold desc_pattern. by rewrite Hn.
Qed.

(** X9: [learn_from_edit] declines, returning [None] and leaving the rules
    and the cache as they are, when no category is given, when the category
    is not an active row of the dimension, and when neither the merchant
    name nor the description gives a pattern. *)
Theorem learn_from_edit_declines (query_error : option exn)
    (now today_start : Z) (new_id : string) (st : Store)
    (c : gmap string cache_entry) (user_id : string)
    (merchant_name description category subcategory tenant : option string) :
  PyStr.otruthy category = false
  \/ category_exists st (default ""%string category) = false
  \/ (merchant_pattern merchant_name = None /\ desc_pattern description = None) ->
  learn_from_edit sha1_hexdigest query_error now today_start new_id st c
    user_id merchant_name description category subcategory tenant
  = (None, st, c).
Proof.
  intros H. unfold learn_from_edit.
  destruct category as [cc|]; [|done]. simpl in H.
  destruct (PyStr.truthy cc) eqn:Hcc; [|done]. simpl.
  destruct (negb (_check_rate_limit _ _ _ _ _)); [done|].
  destruct (category_exists st cc) eqn:Hex; [|done]. simpl.
  destruct (bool_decide (tenant = Some ""%string)); [done|].
  destruct H as [H | [H | [Hm Hd]]]; [done | done |].
  rewrite Hm, Hd. by destruct (PyStr.otruthy merchant_name),
    (PyStr.otruthy description).
Qed.

(** X10: when a rule of the same scope, field and pattern hash exists, the
    upsert returns its id and overwrites it in place: category, subcategory,
    priority, creator and source come from the call and the rule is active
    again, while its id, pattern, tenant and creation time stay; no row is
    added and the other rows are untouched. *)
Theorem upsert_rule_overwrites (now : Z) (new_id : string) (st : Store)
    (applies : applies_to_t) (pattern category : string)
    (subcategory : option string) (prio : Z) (creator : string)
    (tenant : option string) (src : source_t)
    (l1 l2 : list MerchantRule) (r0 : MerchantRule) :
  merchant_rules st = l1 ++ r0 :: l2 ->
  Forall (fun r => conflicts tenant applies (sha1_hexdigest pattern) r = false) l1 ->
  conflicts tenant applies (sha1_hexdigest pattern) r0 = true ->
  upsert_rule sha1_hexdigest now new_id st applies pattern category subcategory
    prio creator tenant src
  = (rule_id r0,
     with_merchant_rules st
       (l1 ++ {| rule_id := rule_id r0;
                 priority := prio;
                 applies_to := applies_to r0;
                 pattern_regex := pattern_regex r0;
                 pattern_hash := pattern_hash r0;
                 category_code := Some category;
                 subcategory_code := subcategory;
                 created_by := Some creator;
                 tenant_id := tenant_id r0;
                 source := src;
                 active := true;
                 created_at := created_at r0 |} :: l2)).
Proof.
  intros Hrows Hl1 Hr0. unfold upsert_rule, _pattern_hash. rewrite Hrows.
  by rewrite (update_conflicting_first _ _ _ _ l1 r0 l2 Hl1 Hr0).
Qed.

Lemma learn_from_edit_result (query_error : option exn)
    (now today_start : Z) (new_id : string) (st st' : Store)
    (c c' : gmap string cache_entry) (user_id rid : string)
    (merchant_name description category subcategory tenant : option string) :
  learn_from_edit sha1_hexdigest query_error now today_start new_id st c
    user_id merchant_name description category subcategory tenant
  = (Some rid, st', c') ->
  c' = ∅
  /\ dim_category st' = dim_category st
  /\ dim_subcategory st' = dim_subcategory st
  /\ txn_fact st' = txn_fact st
  /\ txn_enriched st' = txn_enriched st
  /\ (length (merchant_rules st) <= length (merchant_rules st')
      <= S (length (merchant_rules st)))%nat
  /\ (forall r, r ∈ merchant_rules st -> rule_id r <> rid ->
                r ∈ merchant_rules st')
  /\ exists r cc,
       r ∈ merchant_rules st' /\ rule_id r = rid
       /\ category = Some cc
       /\ active r = true /\ source r = Learned
       /\ created_by r = Some user_id /\ tenant_id r = tenant
       /\ category_code r = Some cc
       /\ subcategory_code r = checked_subcategory st cc subcategory
       /\ ((exists p, merchant_pattern merchant_name = Some p
                      /\ applies_to r = Merchant
                      /\ priority r = USER_RULE_PRIORITY
                      /\ pattern_hash r = Some (sha1_hexdigest p))
           \/ (merchant_pattern merchant_name = None
               /\ exists p, desc_pattern description = Some p
                            /\ applies_to r = Description
                            /\ priority r = DESC_RULE_PRIORITY
                            /\ pattern_hash r = Some (sha1_hexdigest p))).
Proof.
  unfold learn_from_edit. intros H.
  destruct category as [cc|]; [|done].
  destruct (negb (PyStr.truthy cc)); [done|].
  destruct (negb (_check_rate_limit _ _ _ _ _)); [done|].
  destruct (negb (category_exists st cc)); [done|].
  destruct (bool_decide (tenant = Some ""%string)); [done|].
  assert (Hup : forall applies p prio,
    (let '(rid0, st0) :=
       upsert_rule sha1_hexdigest now new_id st applies p cc
         (checked_subcategory st cc subcategory) prio user_id tenant Learned in
     (Some rid0, st0, clear_cache c None)) = (Some rid, st', c') ->
    c' = ∅
    /\ dim_category st' = dim_category st
    /\ dim_subcategory st' = dim_subcategory st
    /\ txn_fact st' = txn_fact st
    /\ txn_enriched st' = txn_enriched st
    /\ (length (merchant_rules st) <= length (merchant_rules st')
        <= S (length (merchant_rules st)))%nat
    /\ (forall r, r ∈ merchant_rules st -> rule_id r <> rid ->
                  r ∈ merchant_rules st')
    /\ exists r,
         r ∈ merchant_rules st' /\ rule_id r = rid
         /\ active r = true /\ source r = Learned
         /\ created_by r = Some user_id /\ tenant_id r = tenant
         /\ category_code r = Some cc
         /\ subcategory_code r = checked_subcategory st cc subcategory
         /\ applies_to r = applies /\ priority r = prio
         /\ pattern_hash r = Some (sha1_hexdigest p)).
  { intros applies p prio. unfold upsert_rule, _pattern_hash.
    destruct (update_conflicting _ _ _ _ _) as [[rid0 rows]|] eqn:Hupd.
    - intros [= <- <- <-].
      apply update_conflicting_spec in Hupd
        as (l1 & r0 & l2 & Hrows & _ & Hr0 & -> & ->).
      simpl. rewrite Hrows, !length_app. simpl.
      split_and!; try done; try lia.
      + intros r Hr Hid. apply elem_of_app in Hr as [Hr | Hr].
        * apply elem_of_app. by left.
        * apply elem_of_cons in Hr as [-> | Hr]; [done|].
          apply elem_of_app. right. apply elem_of_cons. by right.
      + exists (do_update cc (checked_subcategory st cc subcategory) prio
                  user_id Learned r0).
        unfold conflicts, same_scope in Hr0.
        apply andb_true_iff in Hr0 as [Hr0 Hhash].
        apply andb_true_iff in Hr0 as [Hten Happ].
        apply bool_decide_eq_true in Happ, Hten, Hhash.
        simpl. split_and!; try done.
        apply elem_of_app. right. apply elem_of_cons. by left.
    - intros [= <- <- <-]. simpl. rewrite !length_app. simpl.
      split_and!; try done; try lia.
      + intros r Hr _. apply elem_of_app. by left.
      + eexists. split; [apply elem_of_app; right; apply elem_of_cons; by left|].
        by simpl. }
  destruct (if PyStr.otruthy merchant_name then merchant_pattern merchant_name
            else None) as [p|] eqn:Hm.
  - apply Hup in H as (Hc & Hdc & Hds & Hf & He & [Hlen1 Hlen2] & Hkeep & r & Hr).
    split_and!; try done. exists r, cc.
    destruct Hr as (? & ? & ? & ? & ? & ? & ? & ? & ? & ? & ?).
    split_and!; try done.
    left. exists p. split_and!; try done.
    by destruct (PyStr.otruthy merchant_name).
  - assert (Hnone : merchant_pattern merchant_name = None).
    { destruct (PyStr.otruthy merchant_name) eqn:E; [done|].
      by apply merchant_pattern_falsy. }
    destruct (if PyStr.otruthy description then desc_pattern description
              else None) as [p|] eqn:Hd; [|done].
    apply Hup in H as (Hc & Hdc & Hds & Hf & He & [Hlen1 Hlen2] & Hkeep & r & Hr).
    split_and!; try done. exists r, cc.
    destruct Hr as (? & ? & ? & ? & ? & ? & ? & ? & ? & ? & ?).
    split_and!; try done.
    right. split; [done|]. exists p. split_and!; try done.
    by destruct (PyStr.otruthy description).
Qed.

(** X11: what a successful [learn_from_edit] leaves behind.  The cache is
    empty; the rule of the returned id is in the store, active, learned,
    owned by the actor, in the tenant of the call, with the category of the
    call and the checked subcategory; it is a merchant rule of priority 10
    on the merchant pattern when the name gives one, else a description
    rule of priority 12; at most one row was added and every rule with
    another id is still there. *)
Theorem learn_from_edit_writes_rule (query_error : option exn)
    (now today_start : Z) (new_id : string) (st st' : Store)
    (c c' : gmap string cache_entry) (user_id rid : string)
    (merchant_name description category subcategory tenant : option string) :
  learn_from_edit sha1_hexdigest query_error now today_start new_id st c
    user_id merchant_name description category subcategory tenant
  = (Some rid, st', c') ->
  c' = ∅
  /\ dim_category st' = dim_category st
  /\ dim_subcategory st' = dim_subcategory st
  /\ txn_fact st' = txn_fact st
  /\ txn_enriched st' = txn_enriched st
  /\ (length (merchant_rules st) <= length (merchant_rules st')
      <= S (length (merchant_rules st)))%nat
  /\ (forall r, r ∈ merchant_rules st -> rule_id r <> rid ->
                r ∈ merchant_rules st')
  /\ exists r cc,
       r ∈ merchant_rules st' /\ rule_id r = rid
       /\ category = Some cc
       /\ active r = true /\ source r = Learned
       /\ created_by r = Some user_id /\ tenant_id r = tenant
       /\ category_code r = Some cc
       /\ subcategory_code r = checked_subcategory st cc subcategory
       /\ ((exists p, merchant_pattern merchant_name = Some p
                      /\ applies_to r = Merchant
                      /\ priority r = USER_RULE_PRIORITY
                      /\ pattern_hash r = Some (sha1_hexdigest p))
           \/ (merchant_pattern merchant_name = None
               /\ exists p, desc_pattern description = Some p
                            /\ applies_to r = Description
                            /\ priority r = DESC_RULE_PRIORITY
                            /\ pattern_hash r = Some (sha1_hexdigest p))).
Proof. apply learn_from_edit_result. Qed.

(** X27: a learned rule takes effect at once.  After a successful
    [learn_from_edit] the next fetch for the same tenant, at any time and
    with or without the cache, reads the store and returns the rule, with
    the category of the edit. *)
Theorem learned_rule_is_served_next (query_error : option exn)
    (now today_start now' : Z) (new_id : string) (st st' : Store)
    (c c' : gmap string cache_entry) (user_id rid : string)
    (merchant_name description category subcategory tenant : option string)
    (use_cache : bool) :
  learn_from_edit sha1_hexdigest query_error now today_start new_id st c
    user_id merchant_name description category subcategory tenant
  = (Some rid, st', c') ->
  exists d,
    d ∈ query_rules tenant (merchant_rules st')
    /\ (get_merchant_rules now' c' (Ok (merchant_rules st')) tenant use_cache).1
       = Ok (query_rules tenant (merchant_rules st'))
    /\ rule_id (rule d) = rid
    /\ category_code (rule d) = category
    /\ matched_text d = None.
Proof.
  intros H. pose proof H as Hrun.
  apply learn_from_edit_result in H
    as (-> & _ & _ & _ & _ & _ & _ & r & cc & Hr & Hid & -> & Hact & _ & _ & Hten
        & Hcat & _).
  exists (to_dict r). split_and!; try done.
  - apply query_rules_elem. exists r. split_and!; try done.
    assert (Hne : tenant <> Some ""%string).
    { intros ->. unfold learn_from_edit in Hrun.
      destruct (negb (PyStr.truthy cc)); [done|].
      destruct (negb (_check_rate_limit _ _ _ _ _)); [done|].
      by destruct (negb (category_exists st cc)). }
    unfold in_scope. rewrite Hact, Hten. simpl.
    destruct tenant as [[|a t]|]; [done | |]; simpl;
      by rewrite ?bool_decide_true.
  - unfold get_merchant_rules, _get_from_cache, _is_cache_valid.
    rewrite lookup_empty. by destruct use_cache.
Qed.

(** X12: [learn_from_description_pattern] is [learn_from_edit] called
    without a merchant name: same result, same store, same cache. *)
Theorem learn_from_description_is_learn_without_merchant
    (query_error : option exn) (now today_start : Z) (new_id : string)
    (st : Store) (c : gmap string cache_entry) (user_id : string)
    (description category subcategory tenant : option string) :
  learn_from_description_pattern sha1_hexdigest query_error now today_start
    new_id st c user_id description category subcategory tenant
  = learn_from_edit sha1_hexdigest query_error now today_start new_id st c
      user_id None description category subcategory tenant.
Proof.
  unfold learn_from_description_pattern, learn_from_edit.
  destruct category as [cc|]; simpl; [|by rewrite orb_true_r].
  destruct (PyStr.truthy cc) eqn:Hcc; simpl; [|by rewrite orb_true_r].
  rewrite orb_false_r.
  destruct (PyStr.otruthy description) eqn:Hd; simpl.
  - destruct (negb (_check_rate_limit _ _ _ _ _)); [done|].
    destruct (negb (category_exists st cc)); [done|].
    destruct (desc_pattern description) as [p|];
      by destruct (bool_decide (tenant = Some ""%string)).
  - destruct (negb (_check_rate_limit _ _ _ _ _)); [done|].
    destruct (negb (category_exists st cc)); [done|].
    by destruct (bool_decide (tenant = Some ""%string)).
Qed.

End LearningMore.

Lemma learn_from_edit_declines_witness :
  learn_from_edit sample_hash None 2000 0 "new" empty_store ∅
    "u1" (Some "Make My Trip") None (Some "travel") None None
  = (None, empty_store, ∅)
  /\ learn_from_edit sample_hash None 2000 0 "new" empty_store ∅
       "u1" (Some "!!") (Some "UPI") (Some "shopping") None None
     = (None, empty_store, ∅).
Proof.
  split.
  - apply learn_from_edit_declines. right. left. reflexivity.
  - apply learn_from_edit_declines. right. right. split; reflexivity.
Defined.

Lemma upsert_rule_overwrites_witness :
  upsert_rule sample_hash 2000 "new" tenant_store Merchant "AMAZON" "shopping"
    None USER_RULE_PRIORITY "u1" (Some "t1") Learned
  = ("rt1"%string,
     with_merchant_rules tenant_store
       [rule_amazon_10;
        {| rule_id := "rt1";
           priority := USER_RULE_PRIORITY;
           applies_to := Merchant;
           pattern_regex := "AMAZON";
           pattern_hash := Some "AMAZON"%string;
           category_code := Some "shopping"%string;
           subcategory_code := None;
           created_by := Some "u1"%string;
           tenant_id := Some "t1"%string;
           source := Learned;
           active := true;
           created_at := 7 |}]).
Proof.
  apply (upsert_rule_overwrites sample_hash 2000 "new" tenant_store Merchant
           "AMAZON" "shopping" None USER_RULE_PRIORITY "u1" (Some "t1"%string)
           Learned [rule_amazon_10] [] rule_t1_inactive).
  - reflexivity.
  - constructor; [reflexivity | constructor].
  - reflexivity.
Defined.

Lemma learn_from_edit_writes_rule_witness :
  exists r,
    r ∈ merchant_rules
          (learn_from_edit sample_hash None 2000 0 "new" tenant_store ∅ "u1"
             (Some "Amazon Pay") None (Some "shopping") (Some "food_delivery")
             None).1.2
    /\ rule_id r = "new"%string
    /\ subcategory_code r = None
    /\ applies_to r = Merchant.
Proof.
  destruct (learn_from_edit_writes_rule sample_hash None 2000 0 "new"
              tenant_store
              (learn_from_edit sample_hash None 2000 0 "new" tenant_store ∅ "u1"
                 (Some "Amazon Pay") None (Some "shopping")
                 (Some "food_delivery") None).1.2
              ∅ ∅ "u1" "new" (Some "Amazon Pay") None (Some "shopping")
              (Some "food_delivery") None eq_refl)
    as (_ & _ & _ & _ & _ & _ & _ & r & cc & Hr & Hid & Hcc & _ & _ & _ & _ & _
        & Hsub & Hpat).
  exists r. injection Hcc as <-. split_and!; [exact Hr | exact Hid | exact Hsub |].
  destruct Hpat as [(p & _ & Happ & _) | (Hnone & _)];
    [exact Happ | discriminate Hnone].
Defined.

Lemma learned_rule_is_served_next_witness :
  exists d,
    d ∈ query_rules (Some "t1"%string)
          (merchant_rules
             (learn_from_edit sample_hash None 2000 0 "new" tenant_store
                stale_cache "u1" (Some "Amazon Pay") None (Some "shopping")
                None (Some "t1")).1.2)
    /\ rule_id (rule d) = "new"%string
    /\ category_code (rule d) = Some "shopping"%string.
Proof.
  destruct (learned_rule_is_served_next sample_hash None 2000 0 2001 "new"
              tenant_store
              (learn_from_edit sample_hash None 2000 0 "new" tenant_store
                 stale_cache "u1" (Some "Amazon Pay") None (Some "shopping")
                 None (Some "t1")).1.2
              stale_cache ∅ "u1" "new" (Some "Amazon Pay"%string) None
              (Some "shopping"%string) None (Some "t1"%string) true eq_refl)
    as (d & Hd & _ & Hid & Hcat & _).
  exists d. split_and!; [exact Hd | exact Hid | exact Hcat].
Defined.

(** ** The category dimension *)

Lemma category_lookup_elem st code :
  existsb (fun c => bool_decide (DimCategory.category_code c = code))
    (dim_category st) = true
  <-> code ∈ category_codes st.
Proof.
  unfold category_codes. rewrite existsb_exists, list_elem_of_fmap. split.
  - intros (x & Hx & Hb). apply bool_decide_eq_true in Hb.
    exists x. split; [done|]. by apply list_elem_of_In.
  - intros (x & -> & Hx). exists x. split; [by apply list_elem_of_In|].
    by apply bool_decide_eq_true.
Qed.

(** X13: [ensure_category] on a non-empty code leaves a dimension that has
    the code: it adds one active row, with the bucket of [txn_type_map] or
    "wants", when no row of that code exists, active or not, and does
    nothing otherwise; the rows that were there stay in front, a second
    call changes nothing, and codes that were distinct stay distinct. *)
Theorem ensure_category_ensures (st : Store) (cat_code : string) :
  PyStr.truthy cat_code = true ->
  cat_code ∈ category_codes (ensure_category st cat_code)
  /\ (cat_code ∈ category_codes st -> ensure_category st cat_code = st)
  /\ (cat_code ∉ category_codes st ->
      exists row,
        dim_category (ensure_category st cat_code) = dim_category st ++ [row]
        /\ DimCategory.category_code row = cat_code
        /\ DimCategory.active row = true
        /\ DimCategory.display_order row = 100%Z
        /\ DimCategory.txn_type row = dict_get txn_type_map cat_code "wants")
  /\ dim_category st `prefix_of` dim_category (ensure_category st cat_code)
  /\ ensure_category (ensure_category st cat_code) cat_code
     = ensure_category st cat_code
  /\ (NoDup (category_codes st) ->
      NoDup (category_codes (ensure_category st cat_code))).
Proof.
  intros Htruthy.
  assert (Hin : cat_code ∈ category_codes st -> ensure_category st cat_code = st).
  { intros H. unfold ensure_category. rewrite Htruthy. simpl.
    by rewrite (proj2 (category_lookup_elem st cat_code) H). }
  assert (Hout : cat_code ∉ category_codes st ->
            exists row,
              dim_category (ensure_category st cat_code) = dim_category st ++ [row]
              /\ DimCategory.category_code row = cat_code
              /\ DimCategory.active row = true
              /\ DimCategory.display_order row = 100%Z
              /\ DimCategory.txn_type row = dict_get txn_type_map cat_code "wants").
  { intros H. unfold ensure_category. rewrite Htruthy. simpl.
    destruct (existsb _ (dim_category st)) eqn:E.
    - exfalso. by apply H, category_lookup_elem.
    - eexists. by split_and!. }
  assert (Hhas : cat_code ∈ category_codes (ensure_category st cat_code)).
  { destruct (decide (cat_code ∈ category_codes st)) as [H | H].
    - by rewrite (Hin H).
    - destruct (Hout H) as (row & Hrows & Hcode & _).
      unfold category_codes. rewrite Hrows, fmap_app. apply elem_of_app. right.
      simpl. rewrite Hcode. apply elem_of_cons. by left. }
  split_and!; try done.
  - destruct (decide (cat_code ∈ category_codes st)) as [H | H].
    + by rewrite (Hin H).
    + destruct (Hout H) as (row & -> & _). by apply prefix_app_r.
  - unfold ensure_category at 1. rewrite Htruthy. simpl.
    by rewrite (proj2 (category_lookup_elem _ cat_code) Hhas).
  - intros Hnd. destruct (decide (cat_code ∈ category_codes st)) as [H | H].
    + by rewrite (Hin H).
    + destruct (Hout H) as (row & Hrows & Hcode & _).
      unfold category_codes. rewrite Hrows, fmap_app. simpl. rewrite Hcode.
      apply NoDup_app. split_and!; [done | | apply NoDup_singleton].
      intros x Hx Hx'. apply list_elem_of_singleton in Hx'. by subst x.
Qed.

Lemma ensure_category_ensures_witness :
  "travel"%string ∈ category_codes (ensure_category empty_store "travel")
  /\ length (dim_category (ensure_category empty_store "travel")) = 3%nat
  /\ ensure_category empty_store "shopping" = empty_store.
Proof.
  destruct (ensure_category_ensures empty_store "travel" eq_refl) as (H & _).
  split_and!; [exact H | reflexivity | reflexivity].
Defined.

(** ** What a load leaves in the store *)

Section LoaderMore.

Variable re_search : string -> string -> re_outcome.
Variable seq_ratio : string -> string -> Q.
Variable extract_merchant_from_description : string -> option string.
Variable normalize_merchant_name : string -> string.
Variable _infer_category_from_keywords : string -> string.
Variable fn_txn_fact_fp :
  string -> Z -> Z -> direction_t -> string -> string -> string -> string.
Variable row_fault : TxnStaging.t -> option exn.

Local Abbreviation row_load :=
  (load_row re_search seq_ratio extract_merchant_from_description
     normalize_merchant_name _infer_category_from_keywords fn_txn_fact_fp
     row_fault).
Local Abbreviation rows_load :=
  (load_rows re_search seq_ratio extract_merchant_from_description
     normalize_merchant_name _infer_category_from_keywords fn_txn_fact_fp
     row_fault).
Local Abbreviation user_load :=
  (load_staging_for_user re_search seq_ratio extract_merchant_from_description
     normalize_merchant_name _infer_category_from_keywords fn_txn_fact_fp
     row_fault).

Local Arguments load_row : simpl never.

Lemma str_or_truthy a b : PyStr.truthy b = true -> PyStr.truthy (str_or a b) = true.
Proof. unfold str_or. by destruct (PyStr.truthy a) eqn:E. Qed.

Lemma fact_exists_elem st fp :
  fact_exists st fp = true <-> fp ∈ fingerprints st.
Proof.
  unfold fact_exists, fingerprints.
  rewrite existsb_exists, list_elem_of_omap. split.
  - intros (f & Hf & Hb). apply bool_decide_eq_true in Hb.
    exists f. split; [by apply list_elem_of_In | done].
  - intros (f & Hf & Hfp). exists f. split; [by apply list_elem_of_In|].
    by apply bool_decide_eq_true.
Qed.

Lemma subcategory_known_elem st sc :
  subcategory_known st sc = true
  <-> sc ∈ (DimSubcategory.subcategory_code <$> dim_subcategory st).
Proof.
  unfold subcategory_known. rewrite existsb_exists, list_elem_of_fmap. split.
  - intros (x & Hx & Hb). apply bool_decide_eq_true in Hb.
    exists x. split; [done | by apply list_elem_of_In].
  - intros (x & -> & Hx). exists x. split; [by apply list_elem_of_In|].
    by apply bool_decide_eq_true.
Qed.

(** The store a successful write of one row leaves. *)
Lemma insert_row_value st s mn cat sub fp st' :
  insert_row row_fault st s mn cat sub fp = Ok st' ->
  exists f e code,
    st' = with_fact_and_enriched (ensure_category st code) f e
    /\ PyStr.truthy code = true
    /\ fact_exists st fp = false
    /\ TxnFact.txn_id f = length (txn_fact st)
    /\ TxnFact.dedupe_fp f = Some fp
    /\ loaded_pair (TxnStaging.user_id s) f e
    /\ TxnEnriched.category_code e = Some code
    /\ (forall sc, TxnEnriched.subcategory_code e = Some sc ->
                   subcategory_known st sc = true).
Proof.
  unfold insert_row. intros H.
  destruct (row_fault s); [done|].
  destruct (fact_exists st fp) eqn:Hfp; [done|].
  set (code := if PyStr.truthy cat then cat else "others"%string) in *.
  assert (Hcode : PyStr.truthy code = true).
  { unfold code. by destruct (PyStr.truthy cat) eqn:E. }
  assert (Hsame : dim_subcategory (ensure_category st code) = dim_subcategory st).
  { unfold ensure_category. by repeat case_match. }
  assert (Hknown : forall sc, sub = Some sc -> subcategory_known st sc = true).
  { intros sc ->. unfold subcategory_known in *. rewrite Hsame in H.
    by destruct (existsb _ (dim_subcategory st)). }
  assert (Hst : exists f e,
            st' = with_fact_and_enriched (ensure_category st code) f e
            /\ TxnFact.txn_id f = length (txn_fact st)
            /\ TxnFact.dedupe_fp f = Some fp
            /\ loaded_pair (TxnStaging.user_id s) f e
            /\ TxnEnriched.category_code e = Some code
            /\ TxnEnriched.subcategory_code e = sub).
  { assert (Hcur : PyStr.truthy
                     match TxnStaging.currency s with
                     | Some cur => str_or cur "INR"
                     | None => "INR"%string
                     end = true).
    { destruct (TxnStaging.currency s) as [cur|]; [|done]. by apply str_or_truthy. }
    destruct sub as [sc|].
    - destruct (subcategory_known (ensure_category st code) sc); [|done].
      injection H as <-. do 2 eexists. split; [reflexivity|].
      unfold loaded_pair. simpl. by split_and!.
    - injection H as <-. do 2 eexists. split; [reflexivity|].
      unfold loaded_pair. simpl. by split_and!. }
  destruct Hst as (f & e & -> & Hid & Hf & Hpair & He & Hsub).
  exists f, e, code. split_and!.
  - done.
  - done.
  - done.
  - done.
  - done.
  - done.
  - done.
  - intros sc Hsc. apply Hknown. congruence.
Qed.

(** One turn of the loop: nothing, or one fact and its enrichment. *)
Lemma load_row_writes rules st n s st' n' :
  row_load rules st n s = Next st' n' ->
  (st' = st /\ n' = n)
  \/ (n' = S n
      /\ exists f e code fp,
           st' = with_fact_and_enriched (ensure_category st code) f e
           /\ PyStr.truthy code = true
           /\ (fp ∉ fingerprints st)
           /\ TxnFact.txn_id f = length (txn_fact st)
           /\ TxnFact.dedupe_fp f = Some fp
           /\ loaded_pair (TxnStaging.user_id s) f e
           /\ TxnEnriched.category_code e = Some code
           /\ (forall sc, TxnEnriched.subcategory_code e = Some sc ->
                          subcategory_known st sc = true)).
Proof.
  unfold load_row. destruct rules as [rs | e0]; [|done].
  destruct (_extract_and_categorize _ _ _ _ _ _ _ _ _) as [[mn cat] sub].
  set (fp := fingerprint fn_txn_fact_fp s mn).
  destruct (fact_exists st fp) eqn:Hfp.
  { intros [= <- <-]. by left. }
  destruct (insert_row row_fault st s mn cat sub fp) as [st1 | err] eqn:Hins.
  - intros [= <- <-]. right. split; [done|].
    apply insert_row_value in Hins
      as (f & e & code & -> & Hcode & _ & Hid & Hf & Hpair & He & Hsub).
    exists f, e, code, fp. split_and!; try done.
    intros Hin. apply fact_exists_elem in Hin. congruence.
  - destruct (is_duplicate err); [|done]. intros [= <- <-]. by left.
Qed.

Lemma ensure_category_rows st code :
  merchant_rules (ensure_category st code) = merchant_rules st
  /\ dim_subcategory (ensure_category st code) = dim_subcategory st
  /\ txn_staging (ensure_category st code) = txn_staging st
  /\ txn_fact (ensure_category st code) = txn_fact st
  /\ txn_enriched (ensure_category st code) = txn_enriched st
  /\ dim_category st `prefix_of` dim_category (ensure_category st code).
Proof.
  unfold ensure_category. repeat case_match; split_and!; try done.
  simpl. by apply prefix_app_r.
Qed.

(** An invariant of the store and the count that every turn keeps holds
    after the loop. *)
Lemma load_rows_invariant (P : Store -> nat -> Prop) rules rows :
  (forall st n s st' n',
     s ∈ rows -> P st n -> row_load rules st n s = Next st' n' -> P st' n') ->
  forall st n st' n',
    P st n -> rows_load rules st n rows = Next st' n' -> P st' n'.
Proof.
  induction rows as [|s rest IH]; intros Hstep st n st' n' HP Hrun.
  - simpl in Hrun. by injection Hrun as <- <-.
  - simpl in Hrun.
    destruct (row_load rules st n s) as [st1 n1 | e] eqn:Hrow; [|done].
    eapply IH; [| |exact Hrun].
    + intros ? ? s0 ? ? Hs0. apply Hstep. apply elem_of_cons. by right.
    + eapply (Hstep st n s); [apply elem_of_cons; by left | done | done].
Qed.

Lemma load_rows_count rules rows st n st' n' :
  rows_load rules st n rows = Next st' n' ->
  (n <= n' <= n + length rows)%nat.
Proof.
  revert st n. induction rows as [|s rest IH]; intros st n Hrun; simpl in Hrun.
  - injection Hrun as <- <-. simpl. lia.
  - destruct (row_load rules st n s) as [st1 n1 | e] eqn:Hrow; [|done].
    apply IH in Hrun. simpl.
    apply load_row_writes in Hrow as [[_ ->] | [-> _]]; lia.
Qed.

Lemma staging_rows_for_user st u s :
  s ∈ staging_rows_for st u -> TxnStaging.user_id s = u /\ s ∈ txn_staging st.
Proof.
  unfold staging_rows_for. intros H. apply list_elem_of_In, filter_In in H
    as [Hin Hb]. apply andb_true_iff in Hb as [Hu _].
  apply bool_decide_eq_true in Hu. split; [done | by apply list_elem_of_In].
Qed.

(** X14: a load that returns a count [n] appends exactly [n] facts and [n]
    enrichments, one pair for each inserted row, and [n] is at most the
    number of parsed staging rows of the user.  Each fact belongs to the
    user, is marked as loaded from a file, has a currency and a fingerprint,
    and its enrichment carries its [txn_id] and no rule id.  The rules, the
    subcategories and the staging rows are as before; rows that were in
    [txn_fact], [txn_enriched] and [dim_category] stay, in place. *)
Theorem load_staging_appends_pairs (rules : result (list RuleDict))
    (st st' : Store) (user_id : string) (n : nat) :
  user_load rules st user_id = (Ok n, st') ->
  exists fs es,
    txn_fact st' = txn_fact st ++ fs
    /\ txn_enriched st' = txn_enriched st ++ es
    /\ length fs = n
    /\ (n <= length (staging_rows_for st user_id))%nat
    /\ Forall2 (loaded_pair user_id) fs es
    /\ merchant_rules st' = merchant_rules st
    /\ dim_subcategory st' = dim_subcategory st
    /\ txn_staging st' = txn_staging st
    /\ dim_category st `prefix_of` dim_category st'.
Proof.
  unfold load_staging_for_user. intros H.
  destruct (rows_load rules st 0 (staging_rows_for st user_id))
    as [st1 n1 | e] eqn:Hrun; [|done].
  injection H as <- <-.
  pose proof (load_rows_count _ _ _ _ _ _ Hrun) as Hcount.
  pose (P := fun (st1 : Store) (n1 : nat) =>
    exists fs es,
      txn_fact st1 = txn_fact st ++ fs
      /\ txn_enriched st1 = txn_enriched st ++ es
      /\ length fs = n1
      /\ Forall2 (loaded_pair user_id) fs es
      /\ merchant_rules st1 = merchant_rules st
      /\ dim_subcategory st1 = dim_subcategory st
      /\ txn_staging st1 = txn_staging st
      /\ dim_category st `prefix_of` dim_category st1).
  assert (HP : P st1 n1).
  { eapply (load_rows_invariant P); [| |exact Hrun].
    - intros sa na s sb nb Hs (fs & es & Hf & He & Hlen & Hpairs & Hr & Hd & Hg & Hc)
        Hrow.
      apply staging_rows_for_user in Hs as [Hu _].
      apply load_row_writes in Hrow as [[-> ->] | [-> Hw]].
      { by exists fs, es. }
      destruct Hw as (f & e & code & fp & -> & _ & _ & _ & _ & Hpair & _ & _).
      destruct (ensure_category_rows sa code) as (Er & Ed & Es & Ef & Ee & Ec).
      exists (fs ++ [f]), (es ++ [e]). simpl.
      rewrite Ef, Ee, Er, Ed, Es, Hf, He, Hr, Hd, Hg, !length_app,
        <- !(assoc_L (++)).
      simpl. split_and!; try done; try lia.
      + apply Forall2_app; [done|]. constructor; [|constructor]. by rewrite <- Hu.
      + by etrans.
    - exists [], []. rewrite !app_nil_r. by split_and!. }
  destruct HP as (fs & es & ? & ? & ? & ? & ? & ? & ? & ?).
  exists fs, es. split_and!; try done. simpl in Hcount. lia.
Qed.

Lemma fingerprints_snoc st code f e fp :
  TxnFact.dedupe_fp f = Some fp ->
  fingerprints (with_fact_and_enriched (ensure_category st code) f e)
  = fingerprints st ++ [fp].
Proof.
  intros Hf. destruct (ensure_category_rows st code) as (_ & _ & _ & Ef & _).
  unfold fingerprints. simpl. rewrite Ef, omap_app. simpl. by rewrite Hf.
Qed.

(** X15: the loader never writes a fingerprint twice.  If the fingerprints
    of [txn_fact] are pairwise distinct before a load they are so after it,
    whatever the load returns, also when two staging rows of the batch have
    the same fingerprint. *)
Theorem load_staging_keeps_fingerprints_distinct
    (rules : result (list RuleDict)) (st : Store) (user_id : string) :
  NoDup (fingerprints st) ->
  NoDup (fingerprints (user_load rules st user_id).2).
Proof.
  intros Hnd. unfold load_staging_for_user.
  destruct (rows_load rules st 0 (staging_rows_for st user_id))
    as [st1 n1 | e] eqn:Hrun; [|done].
  simpl.
  eapply (load_rows_invariant (fun st1 _ => NoDup (fingerprints st1)));
    [|exact Hnd|exact Hrun].
  intros sa na s sb nb _ Hsa Hrow.
  apply load_row_writes in Hrow as [[-> _] | [_ Hw]]; [done|].
  destruct Hw as (f & e & code & fp & -> & _ & Hfresh & _ & Hf & _).
  rewrite (fingerprints_snoc _ _ _ _ _ Hf).
  apply NoDup_app. split_and!; [done | | apply NoDup_singleton].
  intros x Hx Hx'. apply list_elem_of_singleton in Hx'. by subst x.
Qed.

Lemma ensure_category_elem st code :
  PyStr.truthy code = true -> code ∈ category_codes (ensure_category st code).
Proof.
  intros Hcode. unfold ensure_category. rewrite Hcode. simpl.
  destruct (existsb _ (dim_category st)) eqn:E.
  - by apply category_lookup_elem.
  - unfold category_codes. simpl. rewrite fmap_app. apply elem_of_app. right.
    simpl. apply elem_of_cons. by left.
Qed.

Lemma references_resolve_mono sa sb e :
  dim_category sa `prefix_of` dim_category sb ->
  dim_subcategory sb = dim_subcategory sa ->
  references_resolve sa e -> references_resolve sb e.
Proof.
  intros [k Hk] Hsub [(code & He & Hcode & Hin) Hsc]. split.
  - exists code. split_and!; try done.
    unfold category_codes in *. rewrite Hk, fmap_app. apply elem_of_app. by left.
  - intros sc E. rewrite Hsub. by apply Hsc.
Qed.

(** X16: the enrichments a load appends never dangle.  Each has a
    non-empty category code whose row is in [dim_category] when the load
    returns, created by the loader if it was missing, and a subcategory
    code, if any, that is in [dim_subcategory]. *)
Theorem load_staging_references_resolve (rules : result (list RuleDict))
    (st st' : Store) (user_id : string) (n : nat) :
  user_load rules st user_id = (Ok n, st') ->
  exists es,
    txn_enriched st' = txn_enriched st ++ es
    /\ Forall (references_resolve st') es.
Proof.
  unfold load_staging_for_user. intros H.
  destruct (rows_load rules st 0 (staging_rows_for st user_id))
    as [st1 n1 | e] eqn:Hrun; [|done].
  injection H as <- <-.
  eapply (load_rows_invariant (fun st1 _ =>
            exists es, txn_enriched st1 = txn_enriched st ++ es
                       /\ Forall (references_resolve st1) es));
    [| |exact Hrun].
  - intros sa na s sb nb _ (es & He & Hes) Hrow.
    apply load_row_writes in Hrow as [[-> _] | [_ Hw]]; [by exists es|].
    destruct Hw as (f & e & code & fp & -> & Hcode & _ & _ & _ & _ & Hcat & Hsub).
    destruct (ensure_category_rows sa code) as (_ & Ed & _ & _ & Ee & Ec).
    exists (es ++ [e]). simpl. rewrite Ee, He, <- (assoc_L (++)).
    split; [done|]. apply Forall_app. split.
    + eapply Forall_impl; [exact Hes|]. intros e0.
      by apply references_resolve_mono.
    + constructor; [|constructor]. split.
      * exists code. split_and!; try done. unfold category_codes. simpl.
        by apply ensure_category_elem.
      * intros sc Hsc. simpl. rewrite Ed.
        by apply subcategory_known_elem, Hsub.
  - exists []. by rewrite app_nil_r.
Qed.

End LoaderMore.

Lemma load_staging_appends_pairs_witness :
  exists fs es,
    txn_fact
      (load_staging_for_user sample_re_search sample_ratio_080 sample_extract
         sample_normalize sample_infer sample_fp no_fault (Ok [])
         two_row_store "u1").2 = txn_fact two_row_store ++ fs
    /\ txn_enriched
         (load_staging_for_user sample_re_search sample_ratio_080 sample_extract
            sample_normalize sample_infer sample_fp no_fault (Ok [])
            two_row_store "u1").2 = txn_enriched two_row_store ++ es
    /\ length fs = 2%nat
    /\ Forall2 (loaded_pair "u1") fs es.
Proof.
  destruct (load_staging_appends_pairs sample_re_search sample_ratio_080
              sample_extract sample_normalize sample_infer sample_fp no_fault
              (Ok []) two_row_store
              (load_staging_for_user sample_re_search sample_ratio_080
                 sample_extract sample_normalize sample_infer sample_fp no_fault
                 (Ok []) two_row_store "u1").2
              "u1" 2 eq_refl)
    as (fs & es & Hf & He & Hlen & _ & Hpairs & _).
  exists fs, es. split_and!; [exact Hf | exact He | exact Hlen | exact Hpairs].
Defined.

Lemma load_staging_keeps_fingerprints_distinct_witness :
  (load_staging_for_user sample_re_search sample_ratio_080 sample_extract
     sample_normalize sample_infer sample_fp no_fault (Ok [])
     twin_row_store "u1").1 = Ok 1%nat
  /\ NoDup (fingerprints
              (load_staging_for_user sample_re_search sample_ratio_080
                 sample_extract sample_normalize sample_infer sample_fp no_fault
                 (Ok []) twin_row_store "u1").2).
Proof.
  split; [reflexivity|].
  apply (load_staging_keeps_fingerprints_distinct sample_re_search
           sample_ratio_080 sample_extract sample_normalize sample_infer
           sample_fp no_fault (Ok []) twin_row_store "u1").
  vm_compute. constructor.
Defined.

Lemma load_staging_references_resolve_witness :
  ("travel"%string ∉ category_codes one_row_store)
  /\ exists es,
       txn_enriched
         (load_staging_for_user sample_re_search sample_ratio_080
            sample_extract sample_normalize sample_infer sample_fp no_fault
            (Ok [to_dict rule_travel]) one_row_store "u1").2
       = txn_enriched one_row_store ++ es
       /\ Forall
            (references_resolve
               (load_staging_for_user sample_re_search sample_ratio_080
                  sample_extract sample_normalize sample_infer sample_fp
                  no_fault (Ok [to_dict rule_travel]) one_row_store "u1").2)
            es.
Proof.
  split.
  - intros H. apply category_lookup_elem in H. discriminate H.
  - apply (load_staging_references_resolve sample_re_search sample_ratio_080
             sample_extract sample_normalize sample_infer sample_fp no_fault
             (Ok [to_dict rule_travel]) one_row_store _ "u1" 1).
    reflexivity.
Defined.

(** ** The keyword table of the loader *)

Lemma first_keyword_hit_range table text category :
  Etl.first_keyword_hit table text = Some category ->
  category ∈ table.*2.
Proof.
  induction table as [|[keys c] rest IH]; simpl; [done|].
  destruct (PyStr.any_in keys text).
  - intros [= ->]. apply elem_of_cons. by left.
  - intros H. apply elem_of_cons. right. by apply IH.
Qed.

Lemma first_keyword_hit_none table text keys category :
  Etl.first_keyword_hit table text = None ->
  (keys, category) ∈ table ->
  PyStr.any_in keys text = false.
Proof.
  induction table as [|[keys0 c0] rest IH]; simpl; intros Hnone Hin.
  - by apply elem_of_nil in Hin.
  - destruct (PyStr.any_in keys0 text) eqn:E; [done|].
    apply elem_of_cons in Hin as [[= -> ->] | Hin]; [done | by apply IH].
Qed.

(** The categories the keyword function can return. *)
Lemma keyword_categories_of_table :
  Forall (fun c => c ∈ ["nightlife"; "home_needs"; "transport"; "shopping";
                        "bills"; "health"; "loans"; "insurance"; "banks";
                        "govt_tax"; "transfers"]%string)
    Etl.keyword_table.*2.
Proof. repeat constructor. Qed.

Lemma keyword_category_among (text : string) :
  Etl._infer_category_from_keywords text
  ∈ ["nightlife"; "home_needs"; "transport"; "shopping"; "bills"; "health";
     "loans"; "insurance"; "banks"; "govt_tax"; "transfers"]%string.
Proof.
  unfold Etl._infer_category_from_keywords.
  destruct (negb (PyStr.truthy text)); [repeat constructor|].
  destruct (Etl.first_keyword_hit Etl.keyword_table (PyStr.lower text))
    as [c|] eqn:Hhit.
  - apply first_keyword_hit_range in Hhit.
    by apply (proj1 (Forall_forall _ _) keyword_categories_of_table).
  - assert (Htravel : PyStr.any_in Etl.travel_keywords (PyStr.lower text) = false).
    { apply (first_keyword_hit_none _ _ _ "transport"%string Hhit).
      repeat constructor. }
    rewrite Htravel, andb_false_r.
    repeat case_match; repeat constructor.
Qed.

Lemma keyword_category_truthy (text : string) :
  PyStr.truthy (Etl._infer_category_from_keywords text) = true.
Proof.
  pose proof (keyword_category_among text) as H.
  repeat (apply elem_of_cons in H as [-> | H]; [done|]).
  by apply elem_of_nil in H.
Qed.

(** X17: the keyword function returns one of eleven categories, whatever
    the text.  It never returns "travel": the hotel keywords that lead to
    that [return] are tested before, in the table, where they give
    "transport".  It never returns the empty string or "others". *)
Theorem keyword_category_range (text : string) :
  Etl._infer_category_from_keywords text
  ∈ ["nightlife"; "home_needs"; "transport"; "shopping"; "bills"; "health";
     "loans"; "insurance"; "banks"; "govt_tax"; "transfers"]%string
  /\ Etl._infer_category_from_keywords text <> "travel"%string
  /\ Etl._infer_category_from_keywords text <> "others"%string
  /\ PyStr.truthy (Etl._infer_category_from_keywords text) = true.
Proof.
  pose proof (keyword_category_among text) as H.
  split; [exact H|].
  repeat (apply elem_of_cons in H as [-> | H]; [done|]).
  by apply elem_of_nil in H.
Qed.

Lemma lower_char_upper_char (c : ascii) :
  PyStr.lower_char (PyStr.upper_char c) = PyStr.lower_char c.
Proof. by destruct c as [[] [] [] [] [] [] [] []]. Qed.

Lemma upper_char_lower_char (c : ascii) :
  PyStr.upper_char (PyStr.lower_char c) = PyStr.upper_char c.
Proof. by destruct c as [[] [] [] [] [] [] [] []]. Qed.

Lemma lower_upper (s : string) : PyStr.lower (PyStr.upper s) = PyStr.lower s.
Proof.
  induction s as [|c s IH]; [done|].
  unfold PyStr.lower, PyStr.upper in *. simpl.
  by rewrite lower_char_upper_char, IH.
Qed.

Lemma upper_lower (s : string) : PyStr.upper (PyStr.lower s) = PyStr.upper s.
Proof.
  induction s as [|c s IH]; [done|].
  unfold PyStr.lower, PyStr.upper in *. simpl.
  by rewrite upper_char_lower_char, IH.
Qed.

Lemma truthy_upper (s : string) : PyStr.truthy (PyStr.upper s) = PyStr.truthy s.
Proof. by destruct s. Qed.

Lemma truthy_lower (s : string) : PyStr.truthy (PyStr.lower s) = PyStr.truthy s.
Proof. by destruct s. Qed.

(** X18: the keyword function ignores letter case: a text and its
    upper-case form get the same category. *)
Theorem keyword_category_ignores_case (text : string) :
  Etl._infer_category_from_keywords (PyStr.upper text)
  = Etl._infer_category_from_keywords text.
Proof.
  unfold Etl._infer_category_from_keywords.
  by rewrite lower_upper, truthy_upper.
Qed.

Section ClassifierFacts.

Variable re_search : string -> string -> re_outcome.
Variable seq_ratio : string -> string -> Q.
Variable extract_merchant_from_description : string -> option string.
Variable normalize_merchant_name : string -> string.

(** X19: with the keyword function of the source, the classifier of the
    loader always names a category, so the "others" default of the insert is
    never taken.  The pair comes from a rule of the list with a non-empty
    category, or it is one of the three pairs of the credit fallback, or,
    for a debit, one of the eleven keyword categories without a
    subcategory. *)
Theorem classifier_always_names_a_category (rules : list RuleDict)
    (description : string) (merchant_raw : option string)
    (direction : direction_t) :
  let p :=
    _extract_and_categorize re_search seq_ratio
      extract_merchant_from_description normalize_merchant_name
      Etl._infer_category_from_keywords rules description merchant_raw
      direction in
  PyStr.truthy p.1.2 = true
  /\ ((exists x, x ∈ rules /\ category_code (rule x) = Some p.1.2
                 /\ subcategory_code (rule x) = p.2)
      \/ (direction = Credit
          /\ (p.1.2, p.2) ∈ [("transfers", Some "p2p_transfer");
                             ("income", Some "salary");
                             ("transfers", Some "p2p_personal")]%string)
      \/ (direction = Debit /\ p.2 = None
          /\ p.1.2 ∈ ["nightlife"; "home_needs"; "transport"; "shopping";
                      "bills"; "health"; "loans"; "insurance"; "banks";
                      "govt_tax"; "transfers"]%string)).
Proof.
  unfold _extract_and_categorize.
  set (mn := normalize_merchant_name _).
  set (fallback :=
         match direction with
         | Credit =>
             let '(cat, sub) := credit_fallback mn description in (mn, cat, sub)
         | Debit =>
             (mn, Etl._infer_category_from_keywords
                    (PyStr.lower (str_or mn description)), None)
         end).
  assert (Hfb :
    PyStr.truthy fallback.1.2 = true
    /\ ((exists x, x ∈ rules /\ category_code (rule x) = Some fallback.1.2
                   /\ subcategory_code (rule x) = fallback.2)
        \/ (direction = Credit
            /\ (fallback.1.2, fallback.2)
               ∈ [("transfers", Some "p2p_transfer");
                  ("income", Some "salary");
                  ("transfers", Some "p2p_personal")]%string)
        \/ (direction = Debit /\ fallback.2 = None
            /\ fallback.1.2
               ∈ ["nightlife"; "home_needs"; "transport"; "shopping"; "bills";
                  "health"; "loans"; "insurance"; "banks"; "govt_tax";
                  "transfers"]%string))).
  { unfold fallback. destruct direction.
    - simpl. split; [apply keyword_category_truthy|].
      right. right. split_and!; [done | done | apply keyword_category_among].
    - unfold credit_fallback.
      repeat case_match; simplify_eq; simpl; (split; [done|]);
        right; left; (split; [done|]); repeat constructor. }
  destruct (match_rules _ _ _ _ _) as [hit|] eqn:Hm; [|exact Hfb].
  destruct (category_code (rule hit)) as [c|] eqn:Hc; [|exact Hfb].
  destruct (PyStr.truthy c) eqn:Ht; [|exact Hfb].
  simpl. split; [done|]. left.
  apply match_rules_elem in Hm as (x & Hx & Hrule).
  exists x. rewrite <- Hrule. by split_and!.
Qed.

End ClassifierFacts.

(** ** The merchant normaliser *)

Lemma all_chars_list P s :
  all_chars P s = forallb P (list_ascii_of_string s).
Proof. induction s as [|c s IH]; simpl; [done|]. by rewrite IH. Qed.

Lemma all_chars_lstrip P s :
  all_chars P s = true -> all_chars P (PyStr.lstrip s) = true.
Proof.
  induction s as [|c s IH]; simpl; [done|]. intros H.
  destruct (PyStr.is_space c); [|done].
  apply andb_true_iff in H as [_ H]. by apply IH.
Qed.

Lemma all_chars_rstrip P s :
  all_chars P s = true -> all_chars P (PyStr.rstrip s) = true.
Proof.
  induction s as [|c s IH]; simpl; [done|]. intros H.
  apply andb_true_iff in H as [Hc H].
  destruct (PyStr.is_space c && negb (PyStr.truthy (PyStr.rstrip s))); [done|].
  simpl. by rewrite Hc, IH.
Qed.

Lemma all_chars_strip P s :
  all_chars P s = true -> all_chars P (PyStr.strip s) = true.
Proof. intros H. by apply all_chars_lstrip, all_chars_rstrip. Qed.

Lemma all_chars_remove_chars drop s :
  all_chars (fun c => negb (drop c)) (PyStr.remove_chars drop s) = true.
Proof.
  induction s as [|c s IH]; simpl; [done|].
  destruct (drop c) eqn:E; [done|]. simpl. by rewrite E, IH.
Qed.

Lemma all_chars_sub_space_runs (A : ascii -> bool) in_run s :
  all_chars (fun c => A c || PyStr.is_space c) s = true ->
  all_chars (fun c => A c || Ascii.eqb c " ")
    (MerchantExtractor.sub_space_runs in_run s) = true.
Proof.
  revert in_run. induction s as [|c s IH]; intros in_run H; simpl; [done|].
  simpl in H. apply andb_true_iff in H as [Hc H].
  destruct (PyStr.is_space c) eqn:E.
  - destruct in_run; simpl; [by apply IH|]. rewrite orb_true_r. by apply IH.
  - rewrite orb_false_r in Hc. simpl. rewrite Hc. by apply IH.
Qed.

Lemma all_chars_drop_chars P n s :
  all_chars P s = true -> all_chars P (MerchantExtractor.drop_chars n s) = true.
Proof.
  revert s. induction n as [|n IH]; intros s H; [by destruct s|].
  destruct s as [|c s]; simpl; [done|].
  simpl in H. apply andb_true_iff in H as [_ H]. by apply IH.
Qed.

Lemma all_chars_strip_prefix_of P prefixes s :
  all_chars P s = true ->
  all_chars P (MerchantExtractor.strip_prefix_of prefixes s) = true.
Proof.
  intros H. induction prefixes as [|p rest IH]; simpl; [done|].
  destruct (String.prefix p (PyStr.upper s)); [|done].
  by apply all_chars_lstrip, all_chars_drop_chars.
Qed.

Lemma span_chars_app P l a b :
  MerchantExtractor.span_chars P l = (a, b) -> l = a ++ b.
Proof.
  revert a b. induction l as [|c l IH]; intros a b; simpl.
  - by intros [= <- <-].
  - destruct (P c).
    + destruct (MerchantExtractor.span_chars P l) as [a0 b0].
      intros [= <- <-]. simpl. by rewrite (IH a0 b0).
    + by intros [= <- <-].
Qed.

(** What [cut_trailing] removes is a tail of the text that [tail_ok]
    accepts, with what is between. *)
Lemma cut_trailing_cases tail_ok s :
  MerchantExtractor.cut_trailing tail_ok s = s
  \/ exists mid tail,
       tail_ok tail = true
       /\ list_ascii_of_string s
          = list_ascii_of_string (MerchantExtractor.cut_trailing tail_ok s)
            ++ mid ++ tail.
Proof.
  unfold MerchantExtractor.cut_trailing.
  destruct (MerchantExtractor.span_chars _ (rev (list_ascii_of_string s)))
    as [tail_rev before] eqn:E1.
  destruct (MerchantExtractor.span_chars PyStr.is_space before)
    as [spaces rest] eqn:E2.
  destruct spaces as [|sp spaces]; [by left|].
  destruct (tail_ok (rev tail_rev)) eqn:Hok; [|by left].
  right. exists (rev (sp :: spaces)), (rev tail_rev). split; [done|].
  apply span_chars_app in E1. apply span_chars_app in E2. subst before.
  rewrite list_ascii_of_string_of_list_ascii.
  rewrite <- (rev_involutive (list_ascii_of_string s)), E1.
  by rewrite !rev_app_distr, <- app_assoc.
Qed.

Lemma all_chars_cut_trailing P tail_ok s :
  all_chars P s = true ->
  all_chars P (MerchantExtractor.cut_trailing tail_ok s) = true.
Proof.
  intros H. destruct (cut_trailing_cases tail_ok s) as [-> | (mid & tail & _ & E)];
    [done|].
  rewrite all_chars_list in H. rewrite E, forallb_app in H.
  apply andb_true_iff in H as [H _]. by rewrite all_chars_list.
Qed.

Lemma cut_trailing_at_id_without_at s :
  all_chars (fun c => negb (Ascii.eqb c "@")) s = true ->
  MerchantExtractor.cut_trailing MerchantExtractor.is_at_id s = s.
Proof.
  intros H.
  destruct (cut_trailing_cases MerchantExtractor.is_at_id s)
    as [-> | (mid & tail & Hok & E)]; [done|].
  exfalso. rewrite all_chars_list, E, !forallb_app in H.
  apply andb_true_iff in H as [_ H]. apply andb_true_iff in H as [_ H].
  destruct tail as [|c [|d tail]]; simpl in Hok; try done.
  simpl in H. by rewrite Hok in H.
Qed.

Lemma lstrip_lstrip s : PyStr.lstrip (PyStr.lstrip s) = PyStr.lstrip s.
Proof.
  induction s as [|c s IH]; simpl; [done|].
  destruct (PyStr.is_space c) eqn:E; [done|]. simpl. by rewrite E.
Qed.

Lemma rstrip_rstrip s : PyStr.rstrip (PyStr.rstrip s) = PyStr.rstrip s.
Proof.
  induction s as [|c s IH]; simpl; [done|].
  destruct (PyStr.is_space c && negb (PyStr.truthy (PyStr.rstrip s))) eqn:E;
    simpl; [done|].
  by rewrite IH, E.
Qed.

Lemma rstrip_lstrip_fixed s :
  PyStr.rstrip s = s -> PyStr.rstrip (PyStr.lstrip s) = PyStr.lstrip s.
Proof.
  induction s as [|c s IH]; simpl; [done|]. intros H.
  destruct (PyStr.is_space c && negb (PyStr.truthy (PyStr.rstrip s))) eqn:E;
    [done|].
  injection H as H.
  destruct (PyStr.is_space c) eqn:Hc; [by apply IH|].
  simpl. by rewrite Hc, H.
Qed.

Lemma strip_strip s : PyStr.strip (PyStr.strip s) = PyStr.strip s.
Proof.
  unfold PyStr.strip.
  rewrite (rstrip_lstrip_fixed (PyStr.rstrip s) (rstrip_rstrip s)).
  apply lstrip_lstrip.
Qed.

(** X20: a normalised merchant name is made of the letters A to Z, the
    digits and the space character only, and stripping it changes nothing,
    whatever the input; normalising the empty name gives the empty name. *)
Theorem normalize_merchant_name_alphabet (merchant : string) :
  all_chars (fun c => PyStr.is_upper c || PyStr.is_digit c || Ascii.eqb c " ")
    (MerchantExtractor.normalize_merchant_name merchant) = true
  /\ PyStr.strip (MerchantExtractor.normalize_merchant_name merchant)
     = MerchantExtractor.normalize_merchant_name merchant
  /\ MerchantExtractor.normalize_merchant_name "" = ""%string.
Proof.
  unfold MerchantExtractor.normalize_merchant_name.
  destruct (negb (PyStr.truthy merchant)); [done|].
  split_and!; [|apply strip_strip|done].
  apply all_chars_strip, all_chars_cut_trailing, all_chars_cut_trailing,
    all_chars_strip_prefix_of.
  apply (all_chars_sub_space_runs (fun c => PyStr.is_upper c || PyStr.is_digit c)).
  eapply all_chars_impl; [|apply all_chars_remove_chars].
  intros c Hc. simpl in Hc. by apply negb_true_iff, negb_false_iff in Hc.
Qed.

(** X21: the removal of a trailing UPI id, [re.sub(r'\s+@\S+$', '', ..)],
    never changes the text it is applied to: the punctuation step before it
    has removed every at sign. *)
Theorem normalize_trailing_id_step_is_idle (merchant : string) :
  let normalized :=
    MerchantExtractor.strip_prefix_of ["UPI"; "PAYTM"; "PHONEPE"; "GPAY"]%string
      (MerchantExtractor.sub_space_runs false
         (PyStr.remove_chars
            (fun c => negb (PyStr.is_upper c || PyStr.is_digit c
                            || PyStr.is_space c))
            (PyStr.strip (PyStr.upper merchant)))) in
  MerchantExtractor.cut_trailing MerchantExtractor.is_at_id normalized
  = normalized.
Proof.
  intros normalized. apply cut_trailing_at_id_without_at.
  apply (all_chars_impl
           (fun c => PyStr.is_upper c || PyStr.is_digit c || Ascii.eqb c " ")).
  { intros c. by destruct c as [[] [] [] [] [] [] [] []]. }
  unfold normalized. apply all_chars_strip_prefix_of.
  apply (all_chars_sub_space_runs (fun c => PyStr.is_upper c || PyStr.is_digit c)).
  eapply all_chars_impl; [|apply all_chars_remove_chars].
  intros c Hc. simpl in Hc. by apply negb_true_iff, negb_false_iff in Hc.
Qed.

(** X22: the normaliser ignores letter case: a name and its lower-case
    form have the same normal form. *)
Theorem normalize_merchant_name_ignores_case (merchant : string) :
  MerchantExtractor.normalize_merchant_name (PyStr.lower merchant)
  = MerchantExtractor.normalize_merchant_name merchant.
Proof.
  unfold MerchantExtractor.normalize_merchant_name.
  by rewrite upper_lower, truthy_lower.
Qed.

(** ** The check of an edited category pair *)

Section EditFacts.

Variable sha1_hexdigest : string -> string.

Lemma find_active_category_some st code cat :
  Transactions.find_active_category st code = Some cat ->
  DimCategory.category_code cat = code /\ category_exists st code = true.
Proof.
  unfold Transactions.find_active_category, category_exists. intros H.
  apply find_some in H as [Hin Hb]. pose proof Hb as Hb'.
  apply andb_true_iff in Hb as [Hcode _]. apply bool_decide_eq_true in Hcode.
  split; [done|]. apply existsb_exists. by exists cat.
Qed.

Lemma find_active_category_none st code :
  category_exists st code = false ->
  Transactions.find_active_category st code = None.
Proof.
  unfold Transactions.find_active_category, category_exists. intros H.
  destruct (find _ (dim_category st)) as [cat|] eqn:E; [|done].
  apply find_some in E as [Hin Hb].
  assert (existsb (fun c => bool_decide (DimCategory.category_code c = code)
                            && DimCategory.active c) (dim_category st) = true)
    by (apply existsb_exists; by exists cat).
  congruence.
Qed.

Lemma find_active_subcategory_some st code sub :
  Transactions.find_active_subcategory st code = Some sub ->
  DimSubcategory.subcategory_code sub = code
  /\ subcategory_exists st code (DimSubcategory.category_code sub) = true.
Proof.
  unfold Transactions.find_active_subcategory, subcategory_exists. intros H.
  apply find_some in H as [Hin Hb].
  apply andb_true_iff in Hb as [Hcode Hact]. apply bool_decide_eq_true in Hcode.
  split; [done|]. apply existsb_exists. exists sub. split; [done|].
  rewrite Hact, andb_true_r. apply andb_true_iff.
  split; by apply bool_decide_eq_true.
Qed.

Lemma find_category_some st code cat :
  Transactions.find_category st code = Some cat ->
  DimCategory.category_code cat = code.
Proof.
  unfold Transactions.find_category. intros H.
  apply find_some in H as [_ Hb]. by apply bool_decide_eq_true in Hb.
Qed.

Lemma subcategory_exists_is_belongs st sc cc :
  subcategory_exists st sc cc = true -> subcategory_belongs st sc cc = true.
Proof.
  unfold subcategory_exists, subcategory_belongs. rewrite !existsb_exists.
  intros (x & Hx & Hb). exists x. split; [done|].
  by apply andb_true_iff in Hb as [Hb _].
Qed.

Lemma ensure_category_pair_value st category subcategory cat' sub' :
  Transactions._ensure_category_pair st category subcategory
  = Transactions.Checked (cat', sub') ->
  sub' = (if PyStr.otruthy subcategory then subcategory else None)
  /\ (PyStr.otruthy category = true ->
      cat' = category
      /\ category_exists st (default ""%string category) = true)
  /\ (PyStr.otruthy category = false -> PyStr.otruthy subcategory = false ->
      cat' = None)
  /\ (forall cc, cat' = Some cc -> checked_subcategory st cc sub' = sub').
Proof.
  unfold Transactions._ensure_category_pair.
  destruct (PyStr.otruthy category) eqn:Hc;
    destruct (PyStr.otruthy subcategory) eqn:Hs; simpl.
  - destruct category as [cc|]; [|done]. destruct subcategory as [sc|]; [|done].
    simpl in *.
    destruct (Transactions.find_active_category st cc) as [cat|] eqn:Ecat;
      [|done].
    destruct (Transactions.find_active_subcategory st sc) as [sub|] eqn:Esub;
      [|done].
    apply find_active_category_some in Ecat as [Ecode Eex].
    apply find_active_subcategory_some in Esub as [Escode Esex].
    destruct (String.eqb_spec (DimSubcategory.category_code sub)
                (DimCategory.category_code cat)) as [Heq | Hne]; [|done].
    simpl. intros [= <- <-]. rewrite Ecode, Escode.
    split_and!; try done.
    intros cc0 [= <-]. unfold checked_subcategory.
    rewrite Hs. simpl. by rewrite <- Ecode, <- Heq, Esex.
  - destruct category as [cc|]; [|done]. simpl in *.
    destruct (Transactions.find_active_category st cc) as [cat|] eqn:Ecat;
      [|done].
    apply find_active_category_some in Ecat as [Ecode Eex].
    simpl. intros [= <- <-]. rewrite Ecode. by split_and!.
  - destruct subcategory as [sc|]; [|done]. simpl in *.
    destruct (Transactions.find_active_subcategory st sc) as [sub|] eqn:Esub;
      [|done].
    apply find_active_subcategory_some in Esub as [Escode Esex].
    intros [= <- <-]. rewrite Escode. split_and!; try done.
    intros cc Hcc. unfold checked_subcategory. rewrite Hs. simpl.
    destruct (Transactions.find_category st (DimSubcategory.category_code sub))
      as [cat|] eqn:Ecat; [|done].
    apply find_category_some in Ecat. simpl in Hcc. injection Hcc as <-.
    by rewrite Ecat, Esex.
  - intros [= <- <-]. by split_and!.
Qed.

(** X23: what [_ensure_category_pair] returns when it does not raise.  The
    subcategory is the one given, or [None] for an empty one.  A category
    that was given comes back as it is and is an active row of the
    dimension; with neither code given the pair is [(None, None)].  When a
    category comes back the subcategory passes the check of
    [learn_from_edit] as it is, and so belongs to that category. *)
Theorem ensure_category_pair_checked (st : Store)
    (category subcategory cat' sub' : option string) :
  Transactions._ensure_category_pair st category subcategory
  = Transactions.Checked (cat', sub') ->
  sub' = (if PyStr.otruthy subcategory then subcategory else None)
  /\ (PyStr.otruthy category = true ->
      cat' = category
      /\ category_exists st (default ""%string category) = true)
  /\ (PyStr.otruthy category = false -> PyStr.otruthy subcategory = false ->
      cat' = None)
  /\ (forall cc, cat' = Some cc -> checked_subcategory st cc sub' = sub')
  /\ (forall cc sc, cat' = Some cc -> sub' = Some sc ->
                    subcategory_belongs st sc cc = true).
Proof.
  intros H. apply ensure_category_pair_value in H as (Hsub & Hcat & Hnone & Hchk).
  split_and!; try done.
  intros cc sc Hcc Hsc. specialize (Hchk cc Hcc). rewrite Hsc in Hchk.
  unfold checked_subcategory in Hchk.
  destruct (PyStr.truthy sc && subcategory_exists st sc cc) eqn:E; [|done].
  apply andb_true_iff in E as [_ E]. by apply subcategory_exists_is_belongs.
Qed.

(** X24: a category code that is not an active row of the dimension is
    refused with status 400 and the detail that names it, whatever the
    subcategory, known or not. *)
Theorem ensure_category_pair_unknown_category (st : Store) (cc : string)
    (subcategory : option string) :
  PyStr.truthy cc = true ->
  category_exists st cc = false ->
  Transactions._ensure_category_pair st (Some cc) subcategory
  = Transactions.BadRequest ("Unknown category_code '" ++ cc ++ "'")%string.
Proof.
  intros Hcc Hex. unfold Transactions._ensure_category_pair. simpl.
  rewrite Hcc. simpl. by rewrite (find_active_category_none _ _ Hex).
Qed.

(** X25: the edit endpoint and the learning service agree.  When the pair
    of an edit passes [_ensure_category_pair] with a category given, the
    rate limit is not reached and the merchant name gives a pattern,
    [learn_from_edit] called without a tenant on the validated pair writes a
    merchant rule with exactly that category and subcategory and empties
    the cache. *)
Theorem validated_edit_is_learned (query_error : option exn)
    (now today_start : Z) (new_id : string) (st : Store)
    (c : gmap string cache_entry) (user_id : string)
    (merchant_name description category subcategory cat' sub' : option string)
    (pattern : string) :
  Transactions._ensure_category_pair st category subcategory
  = Transactions.Checked (cat', sub') ->
  PyStr.otruthy category = true ->
  _check_rate_limit query_error st user_id None today_start = true ->
  merchant_pattern merchant_name = Some pattern ->
  exists cc,
    cat' = Some cc
    /\ learn_from_edit sha1_hexdigest query_error now today_start new_id st c
         user_id merchant_name description cat' sub' None
       = (Some (upsert_rule sha1_hexdigest now new_id st Merchant pattern cc
                  sub' USER_RULE_PRIORITY user_id None Learned).1,
          (upsert_rule sha1_hexdigest now new_id st Merchant pattern cc
             sub' USER_RULE_PRIORITY user_id None Learned).2,
          ∅).
Proof.
  intros H Hcat Hrate Hpat.
  apply ensure_category_pair_value in H as (_ & Hc & _ & Hchk).
  destruct (Hc Hcat) as [-> Hex].
  destruct category as [cc|]; [|done]. simpl in Hcat, Hex.
  exists cc. split; [done|].
  unfold learn_from_edit. rewrite Hcat, Hrate, Hex. simpl.
  rewrite (Hchk cc eq_refl).
  assert (Hm : PyStr.otruthy merchant_name = true).
  { destruct (PyStr.otruthy merchant_name) eqn:E; [done|].
    apply merchant_pattern_falsy in E. congruence. }
  rewrite Hm, Hpat.
  by destruct (upsert_rule _ _ _ _ _ _ _ _ _ _ _ _).
Qed.

End EditFacts.

Lemma ensure_category_pair_checked_witness :
  subcategory_belongs empty_store "food_delivery" "nightlife" = true.
Proof.
  destruct (ensure_category_pair_checked empty_store (Some "nightlife"%string)
              (Some "food_delivery"%string) (Some "nightlife"%string)
              (Some "food_delivery"%string) eq_refl)
    as (_ & _ & _ & _ & H).
  exact (H "nightlife"%string "food_delivery"%string eq_refl eq_refl).
Defined.

Lemma ensure_category_pair_unknown_category_witness :
  Transactions._ensure_category_pair empty_store (Some "travel"%string)
    (Some "no_such_code"%string)
  = Transactions.BadRequest "Unknown category_code 'travel'".
Proof.
  apply (ensure_category_pair_unknown_category empty_store "travel"
           (Some "no_such_code"%string)).
  - reflexivity.
  - reflexivity.
Defined.

Lemma validated_edit_is_learned_witness :
  exists cc,
    Some "nightlife"%string = Some cc
    /\ learn_from_edit sample_hash None 2000 0 "new" empty_store ∅ "u1"
         (Some "Swiggy") None (Some "nightlife") (Some "food_delivery") None
       = (Some (upsert_rule sample_hash 2000 "new" empty_store Merchant
                  ("(?i)" ++ backslash ++ "bSwiggy" ++ backslash ++ "b")%string
                  cc (Some "food_delivery"%string) USER_RULE_PRIORITY "u1" None
                  Learned).1,
          (upsert_rule sample_hash 2000 "new" empty_store Merchant
             ("(?i)" ++ backslash ++ "bSwiggy" ++ backslash ++ "b")%string
             cc (Some "food_delivery"%string) USER_RULE_PRIORITY "u1" None
             Learned).2,
          ∅).
Proof.
  apply (validated_edit_is_learned sample_hash None 2000 0 "new" empty_store ∅
           "u1" (Some "Swiggy"%string) None (Some "nightlife"%string)
           (Some "food_delivery"%string) (Some "nightlife"%string)
           (Some "food_delivery"%string)
           ("(?i)" ++ backslash ++ "bSwiggy" ++ backslash ++ "b")%string).
  - reflexivity.
  - reflexivity.
  - reflexivity.
  - reflexivity.
Defined.

(** ** Learning the same edit twice within a tenant *)

Section LearningTwice.

Variable sha1_hexdigest : string -> string.

Lemma upsert_rule_dimensions now new_id st applies pattern category subcategory
    prio creator tenant src :
  dim_category (upsert_rule sha1_hexdigest now new_id st applies pattern
                  category subcategory prio creator tenant src).2
  = dim_category st
  /\ dim_subcategory (upsert_rule sha1_hexdigest now new_id st applies pattern
                        category subcategory prio creator tenant src).2
     = dim_subcategory st.
Proof. unfold upsert_rule. by destruct (update_conflicting _ _ _ _ _) as [[? ?]|]. Qed.

(** X26: within a tenant, learning from the same edit a second time
    changes nothing, provided the rate limit still admits the call: the
    second call returns the id of the first and leaves the rules as the
    first left them, so the tenant has one rule for the pattern, not
    two. *)
Theorem learn_from_edit_twice_in_tenant (query_error1 query_error2 : option exn)
    (now1 now2 today_start : Z) (id1 id2 : string) (st st1 : Store)
    (c c1 : gmap string cache_entry) (user_id t rid : string)
    (merchant_name description category subcategory : option string) :
  learn_from_edit sha1_hexdigest query_error1 now1 today_start id1 st c
    user_id merchant_name description category subcategory (Some t)
  = (Some rid, st1, c1) ->
  _check_rate_limit query_error2 st1 user_id (Some t) today_start = true ->
  learn_from_edit sha1_hexdigest query_error2 now2 today_start id2 st1 c1
    user_id merchant_name description category subcategory (Some t)
  = (Some rid, st1, ∅).
Proof.
  unfold learn_from_edit. intros H Hrate.
  destruct category as [cc|]; [|done].
  destruct (negb (PyStr.truthy cc)); [done|].
  destruct (negb (_check_rate_limit query_error1 st user_id (Some t) today_start));
    [done|].
  rewrite Hrate. simpl.
  destruct (negb (category_exists st cc)) eqn:Hex; [done|].
  destruct (bool_decide (Some t = Some ""%string)); [done|].
  assert (Hup : forall applies p prio,
    (let '(rid0, st0) :=
       upsert_rule sha1_hexdigest now1 id1 st applies p cc
         (checked_subcategory st cc subcategory) prio user_id (Some t) Learned in
     (Some rid0, st0, clear_cache c None)) = (Some rid, st1, c1) ->
    negb (category_exists st1 cc) = false
    /\ checked_subcategory st1 cc subcategory
       = checked_subcategory st cc subcategory
    /\ upsert_rule sha1_hexdigest now2 id2 st1 applies p cc
         (checked_subcategory st cc subcategory) prio user_id (Some t) Learned
       = (rid, st1)
    /\ clear_cache c1 None = ∅).
  { intros applies p prio.
    destruct (upsert_rule sha1_hexdigest now1 id1 st applies p cc
                (checked_subcategory st cc subcategory) prio user_id (Some t)
                Learned) as [rid0 st0] eqn:E.
    intros [= -> -> <-].
    destruct (upsert_rule_dimensions now1 id1 st applies p cc
                (checked_subcategory st cc subcategory) prio user_id (Some t)
                Learned) as [Hd Hs].
    rewrite E in Hd, Hs. simpl in Hd, Hs.
    split_and!.
    - unfold category_exists in *. by rewrite Hd.
    - unfold checked_subcategory, subcategory_exists. by rewrite Hs.
    - by eapply upsert_rule_tenant_idempotent.
    - done. }
  destruct (if PyStr.otruthy merchant_name then merchant_pattern merchant_name
            else None) as [p|].
  - by apply Hup in H as (-> & -> & -> & _).
  - destruct (if PyStr.otruthy description then desc_pattern description
              else None) as [p|]; [|done].
    by apply Hup in H as (-> & -> & -> & _).
Qed.

End LearningTwice.

Lemma learn_from_edit_twice_in_tenant_witness :
  learn_from_edit sample_hash None 3000 0 "id-2"
    (learn_from_edit sample_hash None 2000 0 "id-1" empty_store ∅ "u1"
       (Some "Swiggy") None (Some "nightlife") (Some "food_delivery")
       (Some "t1")).1.2
    ∅ "u1" (Some "Swiggy") None (Some "nightlife") (Some "food_delivery")
    (Some "t1")
  = (Some "id-1"%string,
     (learn_from_edit sample_hash None 2000 0 "id-1" empty_store ∅ "u1"
        (Some "Swiggy") None (Some "nightlife") (Some "food_delivery")
        (Some "t1")).1.2,
     ∅).
Proof.
  apply (learn_from_edit_twice_in_tenant sample_hash None None 2000 3000 0
           "id-1" "id-2" empty_store _ ∅ ∅ "u1" "t1" "id-1" (Some "Swiggy"%string)
           None (Some "nightlife"%string) (Some "food_delivery"%string)).
  - reflexivity.
  - reflexivity.
Defined.
